(** * AI Smart Campus Assistant: the complaint-triage pipeline

    A shallow embedding of [ai_module/categorizer.py],
    [ai_module/sentiment_analyzer.py] and [ai_module/predictor.py].

    Python [int] is [Z].  Python [float] is an IEEE 754 binary64 value,
    modelled by [spec_float] with the operations of [SpecFloat] at
    precision 53 and maximal exponent 1024 (round to nearest, ties to
    even).  Python [str] is [string]; the characters of a text are taken
    in the ASCII range.  A Python exception is the [Raise] outcome.
    The resolution time of a history record is a number, [int] or
    [float], or is missing; [sum] adds numbers from left to right.

    NLTK (tokenizer, stop words, stemmer) and TextBlob (sentiment scores)
    are libraries outside the repository: the components take them as the
    records [nltk] and [textblob].  The value drawn by [random.uniform] is
    an argument of the prediction. *)

From Stdlib Require Import ZArith List String Ascii Bool Lia.
From Stdlib Require Import Sorting.Sorted Sorting.Permutation.
From Stdlib Require Import DecimalString DecimalZ.
From Stdlib Require Import Floats.SpecFloat.
Import ListNotations.
Local Open Scope Z_scope.

(** ** Outcomes of Python code: a value or an exception *)

Inductive exn : Type :=
  | OverflowError
  | ZeroDivisionError
  | ValueError.

Inductive outcome (A : Type) : Type :=
  | Ok (a : A)
  | Raise (e : exn).

Arguments Ok {A} a.
Arguments Raise {A} e.

Definition bind {A B : Type} (x : outcome A) (k : A -> outcome B) : outcome B :=
  match x with
  | Ok a => k a
  | Raise e => Raise e
  end.

Notation "x <- c1 ;; c2" := (bind c1 (fun x => c2))
  (at level 61, c1 at next level, right associativity).

(** ** Binary64 floats *)

Module Float.

Definition prec : Z := 53.
Definition emax : Z := 1024.

Definition float : Type := spec_float.

Definition valid (x : float) : bool := valid_binary prec emax x.

Definition mul (x y : float) : float := SFmul prec emax x y.
Definition add (x y : float) : float := SFadd prec emax x y.
Definition sub (x y : float) : float := SFsub prec emax x y.
Definition neg (x : float) : float := SFopp x.
Definition ltb (x y : float) : bool := SFltb x y.
Definition leb (x y : float) : bool := SFleb x y.

Definition is_nan (x : float) : bool :=
  match x with S754_nan => true | _ => false end.

(** The quotient of two integers, correctly rounded: the sign is kept
    apart and the magnitudes go through the division of [SpecFloat]. *)
Definition div_Z (a b : Z) : float :=
  match a, b with
  | _, Z0 => S754_nan
  | Z0, _ => S754_zero false
  | Zpos p, Zpos q => SFdiv prec emax (S754_finite false p 0) (S754_finite false q 0)
  | Zpos p, Zneg q => SFdiv prec emax (S754_finite false p 0) (S754_finite true q 0)
  | Zneg p, Zpos q => SFdiv prec emax (S754_finite true p 0) (S754_finite false q 0)
  | Zneg p, Zneg q => SFdiv prec emax (S754_finite true p 0) (S754_finite true q 0)
  end.

(** A decimal literal [n/d] of the source text denotes the nearest float. *)
Definition lit (n d : Z) : float := div_Z n d.

(** [float(n)] for an integer: nearest float, [OverflowError] beyond the range. *)
Definition of_Z (n : Z) : outcome float :=
  match binary_normalize prec emax n 0 false with
  | S754_infinity _ => Raise OverflowError
  | x => Ok x
  end.

(** [a / b] on two integers (true division). *)
Definition truediv_Z (a b : Z) : outcome float :=
  if b =? 0 then Raise ZeroDivisionError
  else match div_Z a b with
       | S754_infinity _ => Raise OverflowError
       | x => Ok x
       end.

(** [x / n] for a float and a non-zero integer. *)
Definition div_float_Z (x : float) (n : Z) : outcome float :=
  if n =? 0 then Raise ZeroDivisionError
  else y <- of_Z n ;; Ok (SFdiv prec emax x y).

(** [int(x)]: truncation toward zero. *)
Definition trunc (x : float) : outcome Z :=
  match x with
  | S754_zero _ => Ok 0
  | S754_infinity _ => Raise OverflowError
  | S754_nan => Raise ValueError
  | S754_finite s m e =>
      let a := match e with
               | Zneg k => Z.shiftr (Zpos m) (Zpos k)
               | _ => Z.shiftl (Zpos m) e
               end in
      Ok (if s then - a else a)
  end.

(** Round to the nearest integer, ties to even, the quotient [n / d]
    of a non-negative [n] by a positive [d]. *)
Definition round_half_even_div (n d : Z) : Z :=
  let q := n / d in
  let r := n mod d in
  match 2 * r ?= d with
  | Lt => q
  | Gt => q + 1
  | Eq => if Z.even q then q else q + 1
  end.

(** [round(x, 1)] on a float: the exact value of [x] is rounded to one
    decimal (ties to even) and the decimal is read back as a float. *)
Definition round1 (x : float) : float :=
  match x with
  | S754_finite s m (Zneg k) =>
      let t := round_half_even_div (10 * Zpos m) (Z.pow 2 (Zpos k)) in
      if t =? 0 then S754_zero s
      else div_Z (if s then - t else t) 10
  | _ => x
  end.

(** The exact value of a finite float in units of [2 ^ (- k)], for [k]
    large enough for it to be an integer. *)
Definition scaled (k : Z) (x : float) : Z :=
  match x with
  | S754_finite s m e => (if s then - Zpos m else Zpos m) * 2 ^ (e + k)
  | _ => 0
  end.

(** The float literals of the source *)
Definition f0_0 : float := S754_zero false.
Definition f0_1 : float := Eval vm_compute in lit 1 10.
Definition f0_15 : float := Eval vm_compute in lit 15 100.
Definition f0_2 : float := Eval vm_compute in lit 2 10.
Definition f0_3 : float := Eval vm_compute in lit 3 10.
Definition f0_5 : float := Eval vm_compute in lit 5 10.
Definition f0_6 : float := Eval vm_compute in lit 6 10.
Definition f0_75 : float := Eval vm_compute in lit 75 100.
Definition f0_8 : float := Eval vm_compute in lit 8 10.
Definition f0_9 : float := Eval vm_compute in lit 9 10.
Definition f0_95 : float := Eval vm_compute in lit 95 100.
Definition f0_99 : float := Eval vm_compute in lit 99 100.
Definition f1_0 : float := Eval vm_compute in lit 10 10.
Definition f1_2 : float := Eval vm_compute in lit 12 10.
Definition f1_5 : float := Eval vm_compute in lit 15 10.

(** A float of sign [s] that is a zero or finite, with magnitude below [2 ^ B]. *)
Definition bounded_by (B : Z) (s : bool) (x : float) : Prop :=
  match x with
  | S754_zero s' => s' = s
  | S754_finite s' m e => s' = s /\ Zdigits2 (Zpos m) + e <= B /\ e <= emax - prec
  | _ => False
  end.

End Float.

Import Float.

(** ** Python dictionaries with string keys, in insertion order *)

Definition dict (V : Type) : Type := list (string * V).

Fixpoint dict_lookup {V : Type} (d : dict V) (k : string) : option V :=
  match d with
  | [] => None
  | (k', v) :: d' => if String.eqb k k' then Some v else dict_lookup d' k
  end.

(** [d.get(k, default)] *)
Definition dict_get {V : Type} (d : dict V) (k : string) (default : V) : V :=
  match dict_lookup d k with
  | Some v => v
  | None => default
  end.

(** [k in d] *)
Definition dict_mem {V : Type} (d : dict V) (k : string) : bool :=
  match dict_lookup d k with
  | Some _ => true
  | None => false
  end.

Definition keys {V : Type} (d : dict V) : list string := map fst d.
Definition values {V : Type} (d : dict V) : list V := map snd d.

(** [sum(l)] over integers and [len(l)] *)
Definition sum_Z (l : list Z) : Z := fold_left Z.add l 0.

Definition len {A : Type} (l : list A) : Z := Z.of_nat (List.length l).

(** [l[:n]] *)
Definition slice_to {A : Type} (n : Z) (l : list A) : list A :=
  if n <? 0 then firstn (Z.to_nat (Z.max (len l + n) 0)) l
  else firstn (Z.to_nat n) l.

(** [for] over a list, with a body that may raise *)
Fixpoint for_each {A B : Type} (f : A -> outcome B) (l : list A) : outcome (list B) :=
  match l with
  | [] => Ok []
  | a :: l' => b <- f a ;; bs <- for_each f l' ;; Ok (b :: bs)
  end.

(** [str(n)] for an integer, as an f-string prints it: decimal digits
    after a minus sign for a negative number. *)
Definition str_of_int (n : Z) : string := NilZero.string_of_int (Z.to_int n).

(** The seven categories, in the order in which both components declare them. *)
Definition categories : list string :=
  ["IT Issues"; "Hostel Management"; "Academics"; "Administration";
   "Library"; "Sports & Recreation"; "Other"]%string.

(** ** predictor.py *)

Module Predictor.

Definition category_avg_times : dict Z :=
  [("IT Issues", 24); ("Hostel Management", 48); ("Academics", 72);
   ("Administration", 96); ("Library", 48); ("Sports & Recreation", 72);
   ("Other", 120)]%string.

Definition priority_multipliers : dict float :=
  [("High", f0_5); ("Medium", f1_0); ("Low", f1_5)]%string.

(** The one mutable attribute of a [ResolutionTimePredictor]. *)
Record predictor : Type := { workload_factor : float }.

(** [__init__] *)
Definition init : predictor := {| workload_factor := f1_0 |}.

(** The dictionary returned by [predict_resolution_time]. *)
Record prediction : Type := {
  hours : Z;
  days : float;
  category_avg : Z;
  priority_factor : float;
  confidence : float
}.

(** [random.uniform(a, b)] is [a + (b - a) * r] for the draw [r] of
    [random.random()], a float of [0, 1). *)
Definition uniform (a b r : float) : float := add a (mul (sub b a) r).

(** [predicted_hours = base_time * priority_mult * self.workload_factor] *)
Definition raw_hours (self : predictor) (base_time : Z) (priority_mult : float)
  : outcome float :=
  b <- of_Z base_time ;;
  Ok (mul (mul b priority_mult) self.(workload_factor)).

(** [predict_resolution_time]; [variance] is the value drawn by
    [random.uniform(0.8, 1.2)]. *)
Definition predict_resolution_time (self : predictor) (variance : float)
    (category priority : string) (description : option string)
  : outcome prediction :=
  let base_time := dict_get category_avg_times category 72 in
  let priority_mult := dict_get priority_multipliers priority f1_0 in
  predicted_hours <- raw_hours self base_time priority_mult ;;
  predicted_hours <- trunc (mul predicted_hours variance) ;;
  let predicted_hours := Z.max predicted_hours 1 in
  predicted_days <- truediv_Z predicted_hours 24 ;;
  Ok {| hours := predicted_hours;
        days := round1 predicted_days;
        category_avg := base_time;
        priority_factor := priority_mult;
        confidence := f0_75 |}.

(** [get_resolution_estimate] *)
Definition get_resolution_estimate (self : predictor) (variance : float)
    (category priority : string) (description : option string)
  : outcome string :=
  prediction <- predict_resolution_time self variance category priority description ;;
  let hours := hours prediction in
  if hours <? 24 then Ok ("Within " ++ str_of_int hours ++ " hours")%string
  else if hours <? 48 then Ok "1-2 days"%string
  else if hours <? 72 then Ok "2-3 days"%string
  else if hours <? 120 then Ok "3-5 days"%string
  else
    days <- truediv_Z hours 24 ;;
    days <- trunc days ;;
    Ok (str_of_int days ++ " days")%string.

(** [update_workload_factor] *)
Definition update_workload_factor (self : predictor) (pending_count : Z) : predictor :=
  if pending_count <? 10 then {| workload_factor := f0_9 |}
  else if pending_count <? 20 then {| workload_factor := f1_0 |}
  else if pending_count <? 50 then {| workload_factor := f1_2 |}
  else {| workload_factor := f1_5 |}.

(** A session with one predictor: the calls made to it, and what runs of
    calls return. *)
Inductive call : Type :=
  | Predict (variance : float) (category priority : string) (description : option string)
  | UpdateWorkload (pending_count : Z).

Definition step (self : predictor) (c : call) : predictor * list (outcome prediction) :=
  match c with
  | Predict v cat pri d => (self, [predict_resolution_time self v cat pri d])
  | UpdateWorkload n => (update_workload_factor self n, [])
  end.

Fixpoint run (self : predictor) (cs : list call) : predictor * list (outcome prediction) :=
  match cs with
  | [] => (self, [])
  | c :: cs' =>
      let '(self', out) := step self c in
      let '(self'', outs) := run self' cs' in
      (self'', out ++ outs)
  end.

(** The predictors that a session can reach from [__init__]. *)
Inductive reachable : predictor -> Prop :=
  | reachable_init : reachable init
  | reachable_update (self : predictor) (n : Z) :
      reachable self -> reachable (update_workload_factor self n).

(** A Python number that is an [int] or a [float]. *)
Inductive number : Type :=
  | Int (z : Z)
  | Flt (x : float).

(** A historical complaint record, as [get_category_statistics] reads it:
    [c.get('category')], [c.get('status')] and [c.get('resolution_time')],
    the latter a number of hours, [int] or [float]. [None] is a missing
    key or a [None] value. *)
Record complaint : Type := {
  c_category : option string;
  c_status : option string;
  c_resolution_time : option number
}.

(** The truth value of a number: the integer [0] and the floats [0.0] and
    [-0.0] are false, every other number, a NaN too, is true. *)
Definition number_truthy (a : number) : bool :=
  match a with
  | Int z => negb (z =? 0)
  | Flt (S754_zero _) => false
  | Flt _ => true
  end.

(** [a + b] on numbers: an [int] meeting a [float] is converted first. *)
Definition add_number (a b : number) : outcome number :=
  match a, b with
  | Int x, Int y => Ok (Int (x + y))
  | Int x, Flt y => x <- of_Z x ;; Ok (Flt (add x y))
  | Flt x, Int y => y <- of_Z y ;; Ok (Flt (add x y))
  | Flt x, Flt y => Ok (Flt (add x y))
  end.

(** [sum(l)]: the additions from left to right, from the integer [0]. *)
Definition sum_numbers (l : list number) : outcome number :=
  fold_left (fun total x => total <- total ;; add_number total x) l (Ok (Int 0)).

(** [round(a, 1)]: an [int] is returned as it is. *)
Definition round1_number (a : number) : number :=
  match a with
  | Int z => Int z
  | Flt x => Flt (round1 x)
  end.

(** [a / n] for a number and an integer *)
Definition div_number_Z (a : number) (n : Z) : outcome float :=
  match a with
  | Int z => truediv_Z z n
  | Flt x => div_float_Z x n
  end.

Record category_stats : Type := {
  total_complaints : Z;
  resolved : Z;
  avg_resolution_hours : number;
  avg_resolution_days : float
}.

(** [c.get('category') == category] *)
Definition in_category (category : string) (c : complaint) : bool :=
  match c_category c with
  | Some s => String.eqb s category
  | None => false
  end.

(** [c.get('status') == 'Resolved'] *)
Definition status_resolved (c : complaint) : bool :=
  match c_status c with
  | Some s => String.eqb s "Resolved"
  | None => false
  end.

(** The truth value of [c.get('resolution_time')]: [None] is false. *)
Definition time_truthy (c : complaint) : bool :=
  match c_resolution_time c with
  | Some t => number_truthy t
  | None => false
  end.

(** [c.get('status') == 'Resolved' and c.get('resolution_time')] *)
Definition counted_resolved (c : complaint) : bool :=
  status_resolved c && time_truthy c.

(** [c['resolution_time']] of a record counted as resolved *)
Definition resolution_time (c : complaint) : number :=
  match c_resolution_time c with
  | Some t => t
  | None => Int 0
  end.

(** The body of the loop of [get_category_statistics] for one category
    and its entry [baseline] of [category_avg_times]. *)
Definition category_entry (complaints_data : list complaint)
    (category : string) (baseline : Z) : outcome category_stats :=
  let category_complaints := filter (in_category category) complaints_data in
  match category_complaints with
  | _ :: _ =>
      let resolved := filter counted_resolved category_complaints in
      avg_time <-
        match resolved with
        | _ :: _ =>
            total <- sum_numbers (map resolution_time resolved) ;;
            x <- div_number_Z total (len resolved) ;;
            Ok (Flt x)
        | [] => Ok (Int baseline)
        end ;;
      avg_days <- div_number_Z avg_time 24 ;;
      Ok {| total_complaints := len category_complaints;
            resolved := len resolved;
            avg_resolution_hours := round1_number avg_time;
            avg_resolution_days := round1 avg_days |}
  | [] =>
      avg_days <- truediv_Z baseline 24 ;;
      Ok {| total_complaints := 0;
            resolved := 0;
            avg_resolution_hours := Int baseline;
            avg_resolution_days := round1 avg_days |}
  end.

(** [get_category_statistics]: the loop runs over the keys of
    [category_avg_times] in their order and fills [stats] in that order. *)
Definition get_category_statistics (complaints_data : list complaint)
  : outcome (dict category_stats) :=
  for_each
    (fun '(category, baseline) =>
       entry <- category_entry complaints_data category baseline ;;
       Ok (category, entry))
    category_avg_times.

(** Every product [base_time * priority_mult * workload_factor] that the
    tables allow is a positive float below [2 ^ 9]. *)
Definition raw_hours_shape (x : outcome float) : bool :=
  match x with
  | Ok (S754_finite false m e) => (Zdigits2 (Zpos m) + e <=? 9) && (e <=? 0)
  | _ => false
  end.

End Predictor.


(** ** Text: the string operations that the components use *)

Module Text.

Definition code (c : ascii) : nat := nat_of_ascii c.

Definition is_upper (c : ascii) : bool := (65 <=? code c)%nat && (code c <=? 90)%nat.
Definition is_lower (c : ascii) : bool := (97 <=? code c)%nat && (code c <=? 122)%nat.
Definition is_digit (c : ascii) : bool := (48 <=? code c)%nat && (code c <=? 57)%nat.

(** Whitespace, as [str.isspace], [str.split] and the class [\s] see it. *)
Definition is_space (c : ascii) : bool :=
  ((9 <=? code c)%nat && (code c <=? 13)%nat) ||
  ((28 <=? code c)%nat && (code c <=? 32)%nat).

(** The class [\w] *)
Definition is_word (c : ascii) : bool :=
  is_upper c || is_lower c || is_digit c || (code c =? 95)%nat.

Fixpoint map_string (f : ascii -> ascii) (s : string) : string :=
  match s with
  | EmptyString => EmptyString
  | String c s' => String (f c) (map_string f s')
  end.

(** [text.lower()] *)
Definition lower (s : string) : string :=
  map_string (fun c => if is_upper c then ascii_of_nat (code c + 32) else c) s.

(** [re.sub(r'[^a-zA-Z0-9\s]', ' ', text)] *)
Definition strip_special (s : string) : string :=
  map_string
    (fun c => if is_upper c || is_lower c || is_digit c || is_space c then c else " "%char)
    s.

(** [text.split()]: the maximal runs of characters that are not whitespace;
    [cur] is the run being read. *)
Fixpoint split_from (cur : string) (s : string) : list string :=
  match s with
  | EmptyString => match cur with EmptyString => [] | _ => [cur] end
  | String c s' =>
      if is_space c then
        match cur with
        | EmptyString => split_from EmptyString s'
        | _ => cur :: split_from EmptyString s'
        end
      else split_from (cur ++ String c EmptyString) s'
  end.

Definition split (s : string) : list string := split_from EmptyString s.

(** [x in l] for a list of strings *)
Definition mem (x : string) (l : list string) : bool :=
  existsb (String.eqb x) l.

(** Does [s] start with [kw]?  The rest of [s] after it, if so. *)
Fixpoint strip_prefix (kw s : string) : option string :=
  match kw, s with
  | EmptyString, _ => Some s
  | String a kw', String b s' => if Ascii.eqb a b then strip_prefix kw' s' else None
  | String _ _, EmptyString => None
  end.

(** [len(re.findall(r'\b' + re.escape(kw) + r'\b', s))] for a keyword that
    starts and ends with a word character: the matches are found from
    left to right and do not overlap.  [prev] tells whether the character
    before [s] is a word character, [skip] how many characters of [s] lie
    inside the match found last. *)
Fixpoint count_whole_word (kw : string) (prev : bool) (skip : nat) (s : string) : nat :=
  match s with
  | EmptyString => 0
  | String c s' =>
      match skip with
      | S k => count_whole_word kw (is_word c) k s'
      | O =>
          let here :=
            negb prev &&
            match strip_prefix kw s with
            | Some (String d _) => negb (is_word d)
            | Some EmptyString => true
            | None => false
            end in
          if here then S (count_whole_word kw (is_word c) (String.length kw - 1) s')
          else count_whole_word kw (is_word c) 0 s'
      end
  end.

End Text.

(** ** categorizer.py *)

Module Categorizer.

(** What the categorizer takes from NLTK: [word_tokenize] ([None] when it
    raises, which the code catches), membership in the stop-word set
    (the empty set when the corpus is missing) and the Porter stemmer. *)
Record nltk : Type := {
  word_tokenize : string -> option (list string);
  stop_word : string -> bool;
  stem : string -> string
}.

Definition category_keywords : dict (list string) :=
  [ ("IT Issues",
     ["internet"; "wifi"; "network"; "computer"; "laptop"; "lab";
      "software"; "hardware"; "printer"; "projector"; "system";
      "server"; "website"; "portal"; "login"; "password"; "slow";
      "connection"; "download"; "upload"; "screen"; "mouse"; "keyboard"]);
    ("Hostel Management",
     ["hostel"; "room"; "accommodation"; "mess"; "food"; "canteen";
      "warden"; "cleanliness"; "maintenance"; "water"; "electricity";
      "bed"; "mattress"; "bathroom"; "toilet"; "hot water"; "cold water";
      "roommate"; "noise"; "hygiene"; "laundry"; "dining"]);
    ("Academics",
     ["exam"; "test"; "marks"; "grades"; "faculty"; "professor";
      "teacher"; "course"; "class"; "lecture"; "syllabus"; "schedule";
      "timetable"; "attendance"; "assignment"; "project"; "lab report";
      "curriculum"; "subject"; "semester"; "academic"; "study"]);
    ("Administration",
     ["certificate"; "document"; "bonafide"; "admission"; "registration";
      "fee"; "payment"; "scholarship"; "id card"; "transcript";
      "verification"; "office"; "application"; "form"; "approval";
      "process"; "department"; "staff"; "administration"; "official"]);
    ("Library",
     ["library"; "book"; "reference"; "journal"; "reading room";
      "librarian"; "borrow"; "return"; "due date"; "fine"; "catalog";
      "search"; "database"; "e-book"; "digital"; "photocopy";
      "study space"; "quiet"; "hours"; "membership"]);
    ("Sports & Recreation",
     ["sports"; "playground"; "field"; "court"; "gym"; "fitness";
      "basketball"; "football"; "cricket"; "volleyball"; "equipment";
      "recreation"; "athletic"; "tournament"; "game"; "physical";
      "exercise"; "coach"; "training"; "facility"]);
    ("Other", []) ]%string.

Section WithNltk.

Variable N : nltk.

(** [preprocess_text] *)
Definition preprocess_text (text : string) : list string :=
  let text := Text.lower text in
  let text := Text.strip_special text in
  let tokens :=
    match word_tokenize N text with
    | Some tokens => tokens
    | None => Text.split text
    end in
  map (stem N)
    (filter (fun token => negb (stop_word N token) && (2 <? String.length token)%nat)
       tokens).

(** The inner loop of [calculate_category_scores]: the number of tokens
    that are among the stemmed keywords. *)
Definition count_matches (stemmed_keywords tokens : list string) : Z :=
  fold_left (fun score token =>
               if Text.mem token stemmed_keywords then score + 1 else score)
    tokens 0.

(** [calculate_category_scores] *)
Definition calculate_category_scores (tokens : list string) : dict Z :=
  map (fun '(category, keywords) =>
         let stemmed_keywords := map (fun kw => stem N (Text.lower kw)) keywords in
         (category, count_matches stemmed_keywords tokens))
    category_keywords.

(** [max(l)] on integers *)
Definition max_list (l : list Z) : outcome Z :=
  match l with
  | [] => Raise ValueError
  | x :: l' => Ok (fold_left (fun best y => if y >? best then y else best) l' x)
  end.

(** [max(scores, key=scores.get)]: the first key of the greatest value *)
Fixpoint argmax_from (best : string) (best_value : Z) (d : dict Z) : string :=
  match d with
  | [] => best
  | (k, v) :: d' =>
      if v >? best_value then argmax_from k v d' else argmax_from best best_value d'
  end.

Definition argmax (d : dict Z) : outcome string :=
  match d with
  | [] => Raise ValueError
  | (k, v) :: d' => Ok (argmax_from k v d')
  end.

(** [manual_category and manual_category in self.category_keywords] *)
Definition valid_manual_category (manual_category : option string) : bool :=
  match manual_category with
  | Some c => negb (String.eqb c "") && dict_mem category_keywords c
  | None => false
  end.

(** The body of [categorize] past the test of the manual category. *)
Definition categorize_text (complaint_text : string) : outcome (string * float) :=
  let tokens := preprocess_text complaint_text in
  let scores := calculate_category_scores tokens in
  max_score <- max_list (values scores) ;;
  if max_score =? 0 then Ok ("Other"%string, f0_5)
  else
    best_category <- argmax scores ;;
    let total_keywords := sum_Z (values scores) in
    confidence <-
      (if total_keywords >? 0 then truediv_Z max_score total_keywords
       else Ok f0_5) ;;
    let confidence := if ltb f0_99 confidence then f0_99 else confidence in
    Ok (best_category, confidence).

(** [categorize] *)
Definition categorize (complaint_text : string) (manual_category : option string)
  : outcome (string * float) :=
  match manual_category with
  | Some c =>
      if valid_manual_category manual_category then Ok (c, f0_95)
      else categorize_text complaint_text
  | None => categorize_text complaint_text
  end.

(** [sorted(items, key=lambda x: x[1], reverse=True)]: a stable sort by
    decreasing score, here by insertion from the right. *)
Fixpoint insert_desc (x : string * Z) (l : dict Z) : dict Z :=
  match l with
  | [] => [x]
  | y :: l' => if snd y >? snd x then y :: insert_desc x l' else x :: y :: l'
  end.

Definition sorted_desc (d : dict Z) : dict Z := fold_right insert_desc [] d.

(** [get_category_suggestions] *)
Definition get_category_suggestions (complaint_text : string) (top_n : Z)
  : outcome (list (string * float)) :=
  let tokens := preprocess_text complaint_text in
  let scores := calculate_category_scores tokens in
  let sorted_categories := sorted_desc scores in
  let total_score := sum_Z (values scores) in
  for_each
    (fun '(category, score) =>
       confidence <-
         (if total_score >? 0 then truediv_Z score total_score else Ok f0_0) ;;
       Ok (category, confidence))
    (slice_to top_n sorted_categories).

End WithNltk.

(** NLTK without its data, as the code allows for: [word_tokenize] raises
    (so the text is split on whitespace) and the stop-word set is empty;
    the stemmer is the identity, which is what the Porter stemmer does on
    the words of the examples below. *)
Definition bare_nltk : nltk :=
  {| word_tokenize := fun _ => None;
     stop_word := fun _ => false;
     stem := fun s => s |}.

(** [sum(l)] on floats, from the integer [0] *)
Definition sum_float (l : list float) : float := fold_left add l (S754_zero false).

End Categorizer.

(** ** sentiment_analyzer.py *)

Module Sentiment.

(** What the analyzer takes from TextBlob: the polarity and the
    subjectivity of a text, or [None] when TextBlob raises. *)
Record textblob : Type := {
  sentiment : string -> option (float * float)
}.

Definition urgent_keywords : list string :=
  ["urgent"; "immediately"; "asap"; "emergency"; "critical";
   "serious"; "severe"; "dangerous"; "broken"; "not working";
   "failed"; "unable"; "cannot"; "stuck"; "blocked"; "help";
   "please"; "very"; "extremely"; "terrible"; "worst"; "awful"]%string.

Definition problem_keywords : list string :=
  ["issue"; "problem"; "trouble"; "difficulty"; "concern";
   "complaint"; "error"; "fault"; "defect"; "malfunction"]%string.

(** The dictionary returned by [analyze_complaint]. *)
Record analysis : Type := {
  polarity : float;
  subjectivity : float;
  urgency_score : float;
  priority : string;
  urgent_keyword_count : Z;
  sentiment_label : string
}.

(** [detect_urgent_keywords] *)
Definition detect_urgent_keywords (text : string) : Z :=
  let text_lower := Text.lower text in
  fold_left
    (fun count keyword =>
       count + Z.of_nat (Text.count_whole_word keyword false 0 text_lower))
    urgent_keywords 0.

(** [max(0, x)] for a float [x]: the integer [0] unless [x > 0]. *)
Definition max_0 (x : float) : float + Z :=
  if ltb f0_0 x then inl x else inr 0.

(** [min(x, y)] on floats: [x] unless [y < x]. *)
Definition min_float (x y : float) : float :=
  if ltb y x then y else x.

(** [a + y] for the result [a] of [max_0] and a float [y] *)
Definition add_max_0 (a : float + Z) (y : float) : outcome float :=
  match a with
  | inl x => Ok (add x y)
  | inr z => x <- of_Z z ;; Ok (add x y)
  end.

(** The ranges that TextBlob documents for its two scores. *)
Definition in_range (T : textblob) : Prop :=
  forall (text : string) (p s : float),
    sentiment T text = Some (p, s) ->
    leb (neg f1_0) p = true /\ leb p f1_0 = true /\
    leb f0_0 s = true /\ leb s f1_0 = true.

Section WithTextBlob.

Variable T : textblob.

(** [analyze_sentiment] *)
Definition analyze_sentiment (text : string) : float * float :=
  match sentiment T text with
  | Some (polarity, subjectivity) => (polarity, subjectivity)
  | None => (f0_0, f0_5)
  end.

(** [calculate_urgency_score] *)
Definition calculate_urgency_score (text : string) : outcome float :=
  let '(polarity, subjectivity) := analyze_sentiment text in
  let urgent_count := detect_urgent_keywords text in
  let sentiment_urgency := max_0 (neg polarity) in
  count <- of_Z urgent_count ;;
  let keyword_boost := min_float (mul count f0_15) f0_5 in
  let subjectivity_factor := mul subjectivity f0_2 in
  s <- add_max_0 sentiment_urgency keyword_boost ;;
  Ok (min_float (add s subjectivity_factor) f1_0).

(** [manual_priority and manual_priority in ['High', 'Medium', 'Low']] *)
Definition valid_manual_priority (manual_priority : option string) : bool :=
  match manual_priority with
  | Some p => negb (String.eqb p "") && Text.mem p ["High"; "Medium"; "Low"]%string
  | None => false
  end.

(** The body of [determine_priority] past the test of the manual priority. *)
Definition priority_of_text (text : string) : outcome string :=
  urgency <- calculate_urgency_score text ;;
  if leb f0_6 urgency then Ok "High"%string
  else if leb f0_3 urgency then Ok "Medium"%string
  else Ok "Low"%string.

(** [determine_priority] *)
Definition determine_priority (text : string) (manual_priority : option string)
  : outcome string :=
  match manual_priority with
  | Some p =>
      if valid_manual_priority manual_priority then Ok p else priority_of_text text
  | None => priority_of_text text
  end.

(** [analyze_complaint] *)
Definition analyze_complaint (text : string) (manual_priority : option string)
  : outcome analysis :=
  let '(polarity, subjectivity) := analyze_sentiment text in
  urgency <- calculate_urgency_score text ;;
  priority <- determine_priority text manual_priority ;;
  let urgent_keywords := detect_urgent_keywords text in
  Ok {| polarity := polarity;
        subjectivity := subjectivity;
        urgency_score := urgency;
        priority := priority;
        urgent_keyword_count := urgent_keywords;
        sentiment_label :=
          if ltb polarity (neg f0_1) then "negative"%string
          else if ltb f0_1 polarity then "positive"%string
          else "neutral"%string |}.

End WithTextBlob.

(** A scorer that gives every text the same two scores, for examples. *)
Definition constant_textblob (p s : float) : textblob :=
  {| sentiment := fun _ => Some (p, s) |}.

(** TextBlob failing on every text: the analyzer falls back on 0.0 and 0.5. *)
Definition failing_textblob : textblob :=
  {| sentiment := fun _ => None |}.

End Sentiment.

(** ** Predicates and sample data of the statements below *)

Section Statements.

Import Predictor.

(** A number that the arithmetic of the statistics can hold: an integer
    below [2 ^ 1000] in magnitude, or any float. *)
Definition number_in_range (a : number) : Prop :=
  match a with
  | Int t => Z.abs t < 2 ^ 1000
  | Flt _ => True
  end.

Definition time_in_range (c : complaint) : Prop :=
  match c_resolution_time c with
  | Some t => number_in_range t
  | None => True
  end.

(** A record whose resolution time, if any, is an integer. *)
Definition integer_time (c : complaint) : Prop :=
  match c_resolution_time c with
  | Some (Flt _) => False
  | _ => True
  end.

(** A history on which no conversion to a float overflows: integer times
    in range and, when a float time occurs, fewer than [2 ^ 23] records. *)
Definition times_in_range (history : list complaint) : Prop :=
  Forall time_in_range history /\
  (Forall integer_time history \/ len history < 2 ^ 23).

(** The record's category field is the given category. *)
Definition has_category (category : string) (c : complaint) : bool :=
  match c_category c with
  | Some s => if string_dec s category then true else false
  | None => false
  end.

(** The record's status field is the given status. *)
Definition has_status (status : string) (c : complaint) : bool :=
  match c_status c with
  | Some s => if string_dec s status then true else false
  | None => false
  end.

(** The record has a resolution time, and it is not zero. *)
Definition has_time (c : complaint) : bool :=
  match c_resolution_time c with
  | Some (Int z) => if Z.eq_dec z 0 then false else true
  | Some (Flt (S754_zero _)) => false
  | Some (Flt _) => true
  | None => false
  end.

(** The record's resolution time is missing, [None] or zero. *)
Definition without_time (c : complaint) : Prop :=
  c_resolution_time c = None \/
  c_resolution_time c = Some (Int 0) \/
  exists s : bool, c_resolution_time c = Some (Flt (S754_zero s)).

(** The resolution times that the records hold, in their order. *)
Definition recorded_times (l : list complaint) : list number :=
  flat_map (fun c => match c_resolution_time c with
                     | Some t => [t]
                     | None => []
                     end) l.

(** The integer of an integer time. *)
Definition integer_of_time (c : complaint) : Z :=
  match c_resolution_time c with
  | Some (Int z) => z
  | _ => 0
  end.

(** What one entry of the statistics holds, in terms of the records'
    fields: [matching] are the records of the category, [counted] those
    of them with status "Resolved" and a resolution time. *)
Definition entry_spec (history : list complaint) (category : string) (baseline : Z)
    (e : category_stats) : Prop :=
  let matching := filter (has_category category) history in
  let counted := filter (fun c => has_status "Resolved" c && has_time c) matching in
  total_complaints e = len matching /\
  resolved e = len counted /\
  match counted with
  | [] =>
      avg_resolution_hours e = Int baseline /\
      exists d : float,
        truediv_Z baseline 24 = Ok d /\ avg_resolution_days e = round1 d
  | _ :: _ =>
      exists (total : number) (mean d : float),
        sum_numbers (recorded_times counted) = Ok total /\
        (forall zs : list Z,
           recorded_times counted = map Int zs -> total = Int (sum_Z zs)) /\
        div_number_Z total (len counted) = Ok mean /\
        avg_resolution_hours e = Flt (round1 mean) /\
        div_float_Z mean 24 = Ok d /\ avg_resolution_days e = round1 d
  end.

(** Two scores in the order of the ranking: the first is not the smaller. *)
Definition score_ge (a b : string * Z) : Prop := snd a >= snd b.

(** A history with records that lack a resolution time or a category,
    and with integer and float times. *)
Definition sample_history : list complaint :=
  [ {| c_category := Some "IT Issues"; c_status := Some "Resolved";
       c_resolution_time := Some (Int 10) |};
    {| c_category := Some "IT Issues"; c_status := Some "Resolved";
       c_resolution_time := None |};
    {| c_category := Some "IT Issues"; c_status := Some "Resolved";
       c_resolution_time := Some (Int 0) |};
    {| c_category := Some "IT Issues"; c_status := Some "Resolved";
       c_resolution_time := Some (Flt (S754_zero false)) |};
    {| c_category := Some "IT Issues"; c_status := Some "Pending";
       c_resolution_time := Some (Int 5) |};
    {| c_category := Some "Library"; c_status := Some "Resolved";
       c_resolution_time := Some (Int 81) |};
    {| c_category := Some "Library"; c_status := Some "Resolved";
       c_resolution_time := Some (Flt (lit 105 10)) |};
    {| c_category := Some "Hostel Management"; c_status := Some "Resolved";
       c_resolution_time := None |};
    {| c_category := None; c_status := Some "Resolved";
       c_resolution_time := Some (Int 7) |} ]%string.

(** A history of whole hours only. *)
Definition whole_hours_history : list complaint :=
  [ {| c_category := Some "Library"; c_status := Some "Resolved";
       c_resolution_time := Some (Int 81) |};
    {| c_category := Some "Library"; c_status := Some "Resolved";
       c_resolution_time := Some (Int 10) |};
    {| c_category := Some "Other"; c_status := Some "Resolved";
       c_resolution_time := Some (Int 3) |};
    {| c_category := Some "Library"; c_status := Some "Pending";
       c_resolution_time := None |} ]%string.

(** A resolved record of a category with a given time. *)
Definition resolved_record (category : string) (t : number) : complaint :=
  {| c_category := Some category; c_status := Some "Resolved"%string;
     c_resolution_time := Some t |}.

(** The urgent complaint of the specification's example. *)
Definition emergency_text : string :=
  "This is an emergency, the server is completely broken and nothing works!!!".

(** A product [base_time * priority_mult * workload_factor] of the tables:
    a normal float between 10.8 and 270. *)
Definition raw_hours_normal (x : outcome float) : bool :=
  match x with
  | Ok (S754_finite false m e) =>
      (2 ^ 52 <=? Zpos m) && (Zpos m <? 2 ^ 53) && (-49 <=? e) && (e <=? -44) &&
      (108 * 2 ^ (- e) <=? 10 * Zpos m) && (Zpos m <=? 270 * 2 ^ (- e))
  | _ => false
  end.

(** [int(hours / 24)] is the integer quotient of [hours] by 24. *)
Definition whole_days_exact (hours : Z) : bool :=
  match (days <- truediv_Z hours 24 ;; trunc days) with
  | Ok n => n =? hours / 24
  | Raise _ => false
  end.

(** The label of an estimate, with the days as an integer quotient. *)
Definition label_of_hours (hours : Z) : string :=
  if hours <? 24 then ("Within " ++ str_of_int hours ++ " hours")%string
  else if hours <? 48 then "1-2 days"%string
  else if hours <? 72 then "2-3 days"%string
  else if hours <? 120 then "3-5 days"%string
  else (str_of_int (hours / 24) ++ " days")%string.

(** Two products of the tables, the first not above the second: they are
    the same float, or far enough apart for their roundings to keep the
    order. *)
Definition raw_hours_ordered (x y : outcome float) : bool :=
  raw_hours_normal x && raw_hours_normal y &&
  match x, y with
  | Ok (S754_finite _ m1 e1), Ok (S754_finite _ m2 e2) =>
      ((Zpos m1 =? Zpos m2) && (e1 =? e2)) ||
      ((e1 <=? e2) && (Zpos m1 + 2 + 2 * 2 ^ (e2 - e1) <=? Zpos m2 * 2 ^ (e2 - e1)))
  | _, _ => false
  end.

(** The pairs of priority multipliers and of workload factors in
    increasing order. *)
Definition multiplier_pairs : list (float * float) :=
  [(f0_5, f0_5); (f0_5, f1_0); (f0_5, f1_5); (f1_0, f1_0); (f1_0, f1_5); (f1_5, f1_5)].

Definition workload_pairs : list (float * float) :=
  [(f0_9, f0_9); (f0_9, f1_0); (f0_9, f1_2); (f0_9, f1_5); (f1_0, f1_0);
   (f1_0, f1_2); (f1_0, f1_5); (f1_2, f1_2); (f1_2, f1_5); (f1_5, f1_5)].

(** The priority that the number of urgent keywords alone gives. *)
Definition priority_of_count (count : Z) : string :=
  if count <? 2 then "Low"%string
  else if count <? 4 then "Medium"%string
  else "High"%string.

(** Every character of a string passes a test. *)
Fixpoint all_chars (p : ascii -> bool) (s : string) : bool :=
  match s with
  | EmptyString => true
  | String c s' => p c && all_chars p s'
  end.

(** A record whose category is one of a list. *)
Definition category_among (ks : list string) (c : complaint) : bool :=
  match c_category c with
  | Some s => Text.mem s ks
  | None => false
  end.

(** Two floats that are the same zero or the same finite number. *)
Definition same_float (x y : float) : bool :=
  match x, y with
  | S754_zero s, S754_zero s' => Bool.eqb s s'
  | S754_finite s m e, S754_finite s' m' e' =>
      Bool.eqb s s' && Pos.eqb m m' && (e =? e')
  | _, _ => false
  end.

(** [round(hours / 24, 1)] is the float of the exact quotient rounded to
    one decimal, ties to even, and lies between 0.3 and 13.5. *)
Definition days_exact (hours : Z) : bool :=
  match truediv_Z hours 24 with
  | Ok d =>
      same_float (round1 d) (lit (round_half_even_div (10 * hours) 24) 10) &&
      leb (lit 3 10) (round1 d) && leb (round1 d) (lit 135 10)
  | Raise _ => false
  end.

End Statements.
(** ** Facts on the rounding of [SpecFloat] *)

Section RoundingFacts.

Lemma iter_pos_nat {A : Type} (f : A -> A) (p : positive) (x : A) :
  iter_pos f p x = Nat.iter (Pos.to_nat p) f x.
Proof.
  revert x. induction p as [p IH | p IH | ]; intro x.
  - change (iter_pos f p~1 x) with (iter_pos f p (iter_pos f p (f x))).
    rewrite !IH, Pos2Nat.inj_xI, <- Nat.iter_succ_r, <- Nat.iter_add.
    f_equal. lia.
  - change (iter_pos f p~0 x) with (iter_pos f p (iter_pos f p x)).
    rewrite !IH, Pos2Nat.inj_xO, <- Nat.iter_add.
    f_equal. lia.
  - reflexivity.
Qed.

Lemma shr_1_m (mrs : shr_record) :
  0 <= shr_m mrs -> shr_m (shr_1 mrs) = Z.div2 (shr_m mrs).
Proof.
  destruct mrs as [m r s]. simpl. intro H.
  destruct m as [ | [p | p | ] | p]; simpl; try reflexivity; lia.
Qed.

Lemma shr_iter_m (n : nat) (mrs : shr_record) :
  0 <= shr_m mrs ->
  shr_m (Nat.iter n shr_1 mrs) = shr_m mrs / 2 ^ Z.of_nat n.
Proof.
  intro H. induction n as [ | n IH].
  - simpl. now rewrite Z.div_1_r.
  - assert (Hn : 0 <= shr_m (Nat.iter n shr_1 mrs)).
    { rewrite IH. apply Z.div_pos; [assumption | apply Z.pow_pos_nonneg; lia]. }
    rewrite Nat2Z.inj_succ, Z.pow_succ_r by lia.
    simpl Nat.iter. rewrite shr_1_m by assumption.
    rewrite IH, Z.div2_div, Z.div_div by (try apply Z.pow_pos_nonneg; lia).
    f_equal. lia.
Qed.

Lemma shr_spec (mrs : shr_record) (e n : Z) :
  0 <= shr_m mrs ->
  shr_m (fst (shr mrs e n)) = shr_m mrs / 2 ^ Z.max n 0 /\
  snd (shr mrs e n) = e + Z.max n 0.
Proof.
  intro H. destruct n as [ | p | p]; simpl.
  - rewrite Z.div_1_r. lia.
  - rewrite iter_pos_nat, shr_iter_m, positive_nat_Z by assumption.
    split; [reflexivity | lia].
  - rewrite Z.div_1_r. lia.
Qed.

Lemma shr_m_of_loc (m : Z) (l : location) : shr_m (shr_record_of_loc m l) = m.
Proof. destruct l as [ | [ | | ]]; reflexivity. Qed.

Lemma round_nearest_even_bounds (m : Z) (l : location) :
  m <= round_nearest_even m l <= m + 1.
Proof.
  destruct l as [ | [ | | ]]; simpl; try lia.
  destruct (Z.even m); lia.
Qed.

(** The number of binary digits, against powers of two. *)

Lemma digits2_pos_size (p : positive) : digits2_pos p = Pos.size p.
Proof. induction p as [p IH | p IH | ]; simpl; congruence. Qed.

Lemma Zdigits2_log2 (m : Z) : 0 < m -> Zdigits2 m = Z.log2 m + 1.
Proof.
  destruct m as [ | p | p]; try lia. intros _. simpl.
  rewrite digits2_pos_size.
  destruct p as [p | p | ]; simpl; try reflexivity; rewrite Pos2Z.inj_succ; lia.
Qed.

Lemma Zdigits2_nonneg (m : Z) : 0 <= Zdigits2 m.
Proof. destruct m; simpl; lia. Qed.

Lemma Zdigits2_lt_pow (m : Z) : 0 <= m -> m < 2 ^ Zdigits2 m.
Proof.
  intro H. destruct (Z.eq_dec m 0) as [-> | Hm]; [reflexivity | ].
  rewrite Zdigits2_log2 by lia.
  apply (Z.log2_spec m). lia.
Qed.

Lemma Zdigits2_ge_pow (m : Z) : 0 < m -> 2 ^ (Zdigits2 m - 1) <= m.
Proof.
  intro H. rewrite Zdigits2_log2 by lia.
  replace (Z.log2 m + 1 - 1) with (Z.log2 m) by lia.
  apply (Z.log2_spec m). lia.
Qed.

Lemma Zdigits2_le (m n : Z) : 0 <= m -> 0 <= n -> m < 2 ^ n -> Zdigits2 m <= n.
Proof.
  intros Hm Hn H. destruct (Z.eq_dec m 0) as [-> | Hm0]; [simpl; lia | ].
  rewrite Zdigits2_log2 by lia.
  assert (Z.log2 m < n) by (apply Z.log2_lt_pow2; lia). lia.
Qed.

Lemma Zdigits2_unique (m d : Z) : 0 < d -> 2 ^ (d - 1) <= m < 2 ^ d -> Zdigits2 m = d.
Proof.
  intros Hd H.
  assert (0 < m) by (assert (0 < 2 ^ (d - 1)) by (apply Z.pow_pos_nonneg; lia); lia).
  rewrite Zdigits2_log2 by lia.
  rewrite (Z.log2_unique m (d - 1)); try lia.
  replace (Z.succ (d - 1)) with d by lia. assumption.
Qed.

Lemma Zdigits2_succ_le (m : Z) : 0 <= m -> Zdigits2 (m + 1) <= Zdigits2 m + 1.
Proof.
  intro H. pose proof (Zdigits2_nonneg m) as Hd.
  apply Zdigits2_le; try lia.
  pose proof (Zdigits2_lt_pow m H) as Hlt.
  rewrite Z.pow_add_r by lia. change (2 ^ 1) with 2. lia.
Qed.

Lemma Zdigits2_div_pow2 (m k : Z) :
  0 <= m -> 0 <= k -> Zdigits2 (m / 2 ^ k) <= Z.max (Zdigits2 m - k) 0.
Proof.
  intros Hm Hk. pose proof (Zdigits2_nonneg m) as Hd.
  pose proof (Zdigits2_lt_pow m Hm) as Hlt.
  assert (Hp : 0 < 2 ^ k) by (apply Z.pow_pos_nonneg; lia).
  assert (Hq : 0 <= m / 2 ^ k) by (apply Z.div_pos; lia).
  apply Zdigits2_le; try lia.
  apply Z.div_lt_upper_bound; [assumption | ].
  rewrite <- Z.pow_add_r by lia.
  eapply Z.lt_le_trans; [exact Hlt | ].
  apply Z.pow_le_mono_r; lia.
Qed.

Lemma fexp_eq (x : Z) : fexp prec emax x = Z.max (x - 53) (-1074).
Proof.
  unfold fexp, emin, prec, emax. change (3 - 1024 - 53) with (-1074).
  reflexivity.
Qed.

(** The two shifts and the rounding of [binary_round_aux], written out. *)

Lemma binary_round_aux_shape (s : bool) (m e : Z) (l : location) :
  0 <= m ->
  exists m2 : Z,
    let k1 := Z.max (fexp prec emax (Zdigits2 m + e) - e) 0 in
    let e1 := e + k1 in
    let k2 := Z.max (fexp prec emax (Zdigits2 m2 + e1) - e1) 0 in
    m / 2 ^ k1 <= m2 <= m / 2 ^ k1 + 1 /\
    (l = loc_Exact -> k1 = 0 -> m2 = m) /\
    binary_round_aux prec emax s m e l =
      match m2 / 2 ^ k2 with
      | Z0 => S754_zero s
      | Zpos p =>
          if e1 + k2 <=? emax - prec then S754_finite s p (e1 + k2)
          else S754_infinity s
      | Zneg _ => S754_nan
      end.
Proof.
  intro Hm. unfold binary_round_aux, shr_fexp.
  set (n1 := fexp prec emax (Zdigits2 m + e) - e).
  pose proof (shr_spec (shr_record_of_loc m l) e n1) as H1.
  rewrite shr_m_of_loc in H1. specialize (H1 Hm).
  destruct (shr (shr_record_of_loc m l) e n1) as [mrs1 e1] eqn:E1.
  simpl in H1. destruct H1 as [Hm1 He1].
  set (m2 := round_nearest_even (shr_m mrs1) (loc_of_shr_record mrs1)).
  exists m2. cbv zeta.
  pose proof (round_nearest_even_bounds (shr_m mrs1) (loc_of_shr_record mrs1)) as Hb.
  fold m2 in Hb. rewrite Hm1 in Hb.
  assert (H0 : 0 <= m / 2 ^ Z.max n1 0).
  { apply Z.div_pos; [assumption | apply Z.pow_pos_nonneg; lia]. }
  split; [exact Hb | ]. split.
  - intros -> Hk. unfold m2.
    destruct n1 as [ | p | p]; try lia; simpl in E1; inversion E1; reflexivity.
  - set (n2 := fexp prec emax (Zdigits2 m2 + e1) - e1).
    pose proof (shr_spec (shr_record_of_loc m2 loc_Exact) e1 n2) as H2.
    rewrite shr_m_of_loc in H2. assert (Hm2 : 0 <= m2) by lia. specialize (H2 Hm2).
    destruct (shr (shr_record_of_loc m2 loc_Exact) e1 n2) as [mrs2 e2] eqn:E2.
    simpl in H2. destruct H2 as [Hm3 He2].
    subst n2. rewrite Hm3, He2, He1. reflexivity.
Qed.

Lemma Zdigits2_mono (a b : Z) : 0 <= a <= b -> Zdigits2 a <= Zdigits2 b.
Proof.
  intro H. apply Zdigits2_le; try lia.
  - apply Zdigits2_nonneg.
  - pose proof (Zdigits2_lt_pow b). lia.
Qed.

Lemma Zdigits2_mul (a b : Z) :
  0 <= a -> 0 <= b -> Zdigits2 (a * b) <= Zdigits2 a + Zdigits2 b.
Proof.
  intros Ha Hb.
  pose proof (Zdigits2_nonneg a). pose proof (Zdigits2_nonneg b).
  pose proof (Zdigits2_lt_pow a Ha). pose proof (Zdigits2_lt_pow b Hb).
  apply Zdigits2_le; try nia.
  rewrite Z.pow_add_r by lia. nia.
Qed.

Lemma Zdigits2_div (a b : Z) :
  0 <= a -> 0 < b -> Zdigits2 (a / b) <= Z.max (Zdigits2 a - Zdigits2 b + 1) 0.
Proof.
  intros Ha Hb.
  pose proof (Zdigits2_nonneg a) as Hda.
  pose proof (Zdigits2_lt_pow a Ha) as Hlt.
  pose proof (Zdigits2_ge_pow b Hb) as Hge.
  assert (Hdb : 1 <= Zdigits2 b) by (rewrite Zdigits2_log2 by lia; pose proof (Z.log2_nonneg b); lia).
  assert (Hq : 0 <= a / b) by (apply Z.div_pos; lia).
  apply Zdigits2_le; try lia.
  apply Z.div_lt_upper_bound; [assumption | ].
  eapply Z.lt_le_trans; [exact Hlt | ].
  eapply Z.le_trans with (2 ^ (Zdigits2 b - 1) * 2 ^ Z.max (Zdigits2 a - Zdigits2 b + 1) 0).
  - rewrite <- Z.pow_add_r by lia. apply Z.pow_le_mono_r; lia.
  - apply Z.mul_le_mono_nonneg_r; [apply Z.pow_nonneg; lia | assumption].
Qed.

Lemma bounded_by_weaken (B B' : Z) (s : bool) (x : float) :
  B <= B' -> bounded_by B s x -> bounded_by B' s x.
Proof. intro H. destruct x; simpl; intuition lia. Qed.

Lemma binary_round_aux_bounded (s : bool) (m e : Z) (l : location) (B : Z) :
  0 <= m -> Zdigits2 m + e <= B -> -1074 <= B -> B <= 1023 -> e <= 971 ->
  bounded_by (B + 1) s (binary_round_aux prec emax s m e l).
Proof.
  intros Hm Hd HB1 HB2 He.
  destruct (binary_round_aux_shape s m e l Hm) as [m2 H]. cbv zeta in H.
  rewrite !fexp_eq in H. destruct H as [Hm2 [_ ->]].
  pose proof (Zdigits2_nonneg m) as Hd0.
  set (k1 := Z.max (Z.max (Zdigits2 m + e - 53) (-1074) - e) 0) in *.
  assert (Hk1 : 0 <= k1) by (unfold k1; lia).
  assert (Hq : 0 <= m / 2 ^ k1) by (apply Z.div_pos; [lia | apply Z.pow_pos_nonneg; lia]).
  pose proof (Zdigits2_div_pow2 m k1 Hm Hk1) as Hd1.
  pose proof (Zdigits2_succ_le (m / 2 ^ k1) Hq) as Hd2.
  assert (Hd3 : Zdigits2 m2 <= Zdigits2 (m / 2 ^ k1 + 1)) by (apply Zdigits2_mono; lia).
  pose proof (Zdigits2_nonneg m2) as Hd4.
  set (k2 := Z.max (Z.max (Zdigits2 m2 + (e + k1) - 53) (-1074) - (e + k1)) 0) in *.
  assert (Hk2 : 0 <= k2) by (unfold k2; lia).
  assert (Hm2' : 0 <= m2) by lia.
  pose proof (Zdigits2_div_pow2 m2 k2 Hm2' Hk2) as Hd5.
  assert (Hq2 : 0 <= m2 / 2 ^ k2) by (apply Z.div_pos; [lia | apply Z.pow_pos_nonneg; lia]).
  change (emax - prec) with 971.
  destruct (m2 / 2 ^ k2) as [ | p | p] eqn:E; [reflexivity | | lia].
  assert (Hp : 1 <= Zdigits2 (Z.pos p)) by (simpl; lia).
  destruct (e + k1 + k2 <=? 971) eqn:E2; unfold bounded_by.
  - apply Z.leb_le in E2. change (emax - prec) with 971.
    split; [reflexivity | ]. clear E Hm2. lia.
  - apply Z.leb_gt in E2. lia.
Qed.

Lemma mul_finite_bounded (sx sy : bool) (mx my : positive) (ex ey B : Z) :
  Zdigits2 (Zpos mx) + ex + (Zdigits2 (Zpos my) + ey) <= B ->
  -1074 <= B -> B <= 1023 -> ex + ey <= 971 ->
  bounded_by (B + 1) (xorb sx sy) (mul (S754_finite sx mx ex) (S754_finite sy my ey)).
Proof.
  intros Hd HB1 HB2 He. unfold mul, SFmul.
  apply binary_round_aux_bounded; try lia.
  rewrite Pos2Z.inj_mul.
  pose proof (Zdigits2_mul (Zpos mx) (Zpos my)). lia.
Qed.

Lemma shl_align_spec (mx : positive) (ex ex' : Z) :
  let '(mz, ez) := shl_align mx ex ex' in
  Zpos mz = Zpos mx * 2 ^ (ex - ez) /\ ez <= ex /\ (ez = ex \/ ez = ex').
Proof.
  unfold shl_align. destruct (ex' - ex) as [ | d | d] eqn:E.
  - rewrite Z.sub_diag. simpl. lia.
  - rewrite Z.sub_diag. simpl. lia.
  - replace (ex - ex') with (Zpos d) by lia.
    change (Pos.iter xO mx d) with (shift_pos d mx).
    rewrite shift_pos_correct, Z.pow_pos_fold. lia.
Qed.

Lemma binary_round_bounded (s : bool) (m : positive) (e B : Z) :
  Zdigits2 (Zpos m) + e <= B -> -1074 <= B -> B <= 1023 -> e <= 971 ->
  bounded_by (B + 1) s (binary_round prec emax s m e).
Proof.
  intros Hd HB1 HB2 He. unfold binary_round.
  pose proof (shl_align_spec m e (fexp prec emax (Zpos (digits2_pos m) + e))) as H.
  destruct (shl_align m e (fexp prec emax (Zpos (digits2_pos m) + e))) as [mz ez].
  destruct H as [Hmz [Hez _]].
  apply binary_round_aux_bounded; try lia.
  rewrite Hmz.
  assert (Zdigits2 (Zpos m * 2 ^ (e - ez)) <= Zdigits2 (Zpos m) + (e - ez)); [ | lia].
  pose proof (Zdigits2_nonneg (Zpos m)).
  pose proof (Zdigits2_lt_pow (Zpos m)).
  assert (0 < 2 ^ (e - ez)) by (apply Z.pow_pos_nonneg; lia).
  apply Zdigits2_le; try nia.
  rewrite Z.pow_add_r by lia. nia.
Qed.

Lemma of_Z_bounded (n B : Z) :
  Zdigits2 n <= B -> B <= 1023 ->
  exists x : float, of_Z n = Ok x /\ bounded_by (B + 1) (n <? 0) x.
Proof.
  intros Hd HB. unfold of_Z, binary_normalize.
  pose proof (Zdigits2_nonneg n) as H0.
  destruct n as [ | p | p].
  - exists (S754_zero false). split; reflexivity.
  - assert (H : bounded_by (B + 1) false (binary_round prec emax false p 0))
      by (apply binary_round_bounded; lia).
    destruct (binary_round prec emax false p 0) eqn:E; simpl in H;
      try contradiction; eexists; (split; [reflexivity | exact H]).
  - assert (H : bounded_by (B + 1) true (binary_round prec emax true p 0))
      by (apply binary_round_bounded; change (Zdigits2 (Z.neg p)) with (Zdigits2 (Z.pos p)) in *; lia).
    destruct (binary_round prec emax true p 0) eqn:E; simpl in H;
      try contradiction; eexists; (split; [reflexivity | exact H]).
Qed.

Lemma SFdiv_int_bounded (sx sy : bool) (p q : positive) (B : Z) :
  Zdigits2 (Zpos p) - Zdigits2 (Zpos q) + 1 <= B -> -1074 <= B -> B <= 1023 ->
  bounded_by (B + 1) (xorb sx sy)
    (SFdiv prec emax (S754_finite sx p 0) (S754_finite sy q 0)).
Proof.
  intros Hd HB1 HB2. unfold SFdiv, SFdiv_core_binary.
  rewrite !Z.add_0_r, fexp_eq. change (0 - 0) with 0.
  change IntDef.Z.min with Z.min. change IntDef.Z.div_eucl with Z.div_eucl.
  change IntDef.Z.shiftl with Z.shiftl.
  pose proof (Zdigits2_nonneg (Zpos p)) as Hp0.
  pose proof (Zdigits2_lt_pow (Zpos p) ltac:(lia)) as Hp1.
  set (d1 := Zdigits2 (Zpos p)) in *. set (d2 := Zdigits2 (Zpos q)) in *.
  set (e' := Z.min (Z.max (d1 - d2 - 53) (-1074)) 0).
  assert (He' : e' <= 0) by (unfold e'; lia).
  set (m' := match 0 - e' with 0 => Z.pos p | Z.pos _ => Z.shiftl (Z.pos p) (0 - e') | Z.neg _ => 0 end).
  assert (Hm' : m' = Zpos p * 2 ^ (- e')).
  { unfold m'. destruct (0 - e') as [ | k | k] eqn:E; try lia.
    - replace (- e') with 0 by lia. lia.
    - rewrite Z.shiftl_mul_pow2 by lia. f_equal. f_equal. lia. }
  assert (Hq : fst (Z.div_eucl m' (Zpos q)) = m' / Zpos q) by reflexivity.
  destruct (Z.div_eucl m' (Zpos q)) as [q0 r]. simpl in Hq. subst q0.
  assert (Hp2 : 0 < 2 ^ (- e')) by (apply Z.pow_pos_nonneg; lia).
  assert (Hm0 : 0 <= m') by nia.
  apply binary_round_aux_bounded; try lia.
  - apply Z.div_pos; lia.
  - pose proof (Zdigits2_div m' (Zpos q) Hm0 ltac:(lia)) as H1. fold d2 in H1.
    assert (H2 : Zdigits2 m' <= d1 + - e').
    { rewrite Hm'. apply Zdigits2_le; try nia.
      rewrite Z.pow_add_r by lia. nia. }
    unfold e' in *. lia.
Qed.

Lemma div_Z_bounded (a b B : Z) :
  b <> 0 -> Zdigits2 a - Zdigits2 b + 1 <= B -> -1074 <= B -> B <= 1023 ->
  bounded_by (B + 1) (xorb (a <? 0) (b <? 0)) (div_Z a b) \/ a = 0.
Proof.
  intros Hb Hd HB1 HB2.
  destruct a as [ | p | p]; [right; reflexivity | left | left];
    destruct b as [ | q | q]; try contradiction;
    unfold div_Z; apply SFdiv_int_bounded; assumption.
Qed.

Lemma truediv_Z_bounded (a b B : Z) :
  b <> 0 -> Zdigits2 a - Zdigits2 b + 1 <= B -> -1074 <= B -> B <= 1023 ->
  exists x : float, truediv_Z a b = Ok x /\ x = div_Z a b /\
    (a = 0 \/ bounded_by (B + 1) (xorb (a <? 0) (b <? 0)) x).
Proof.
  intros Hb Hd HB1 HB2. unfold truediv_Z.
  destruct (Z.eqb_spec b 0) as [ | _]; [contradiction | ].
  destruct (div_Z_bounded a b B Hb Hd HB1 HB2) as [H | ->].
  - destruct (div_Z a b) eqn:E; simpl in H; try contradiction;
      eexists; (split; [reflexivity | split; [reflexivity | right; exact H]]).
  - destruct b; try contradiction; eexists; simpl; intuition.
Qed.

Example literals_valid :
  forallb valid
    [f0_1; f0_15; f0_2; f0_3; f0_5; f0_6; f0_75; f0_8; f0_9; f0_95; f0_99;
     f1_0; f1_2; f1_5] = true.
Proof. vm_compute. reflexivity. Qed.

Lemma valid_finite_digits (s : bool) (m : positive) (e : Z) :
  valid (S754_finite s m e) = true -> -1074 < e ->
  2 ^ 52 <= Zpos m < 2 ^ 53.
Proof.
  unfold valid, valid_binary, bounded, canonical_mantissa. intros H He.
  apply andb_prop in H. destruct H as [H _]. apply Z.eqb_eq in H.
  rewrite fexp_eq in H.
  assert (Hd : Zdigits2 (Zpos m) = 53) by (simpl; lia).
  pose proof (Zdigits2_lt_pow (Zpos m) ltac:(lia)) as H1.
  pose proof (Zdigits2_ge_pow (Zpos m) ltac:(lia)) as H2.
  rewrite Hd in H1, H2. exact (conj H2 H1).
Qed.


Lemma leb_finite_pos (m1 m2 : positive) (e1 e2 : Z) :
  leb (S754_finite false m1 e1) (S754_finite false m2 e2) = true ->
  e1 < e2 \/ (e1 = e2 /\ Zpos m1 <= Zpos m2).
Proof.
  unfold leb, SFleb, SFcompare.
  destruct (Z.compare_spec e1 e2) as [E | E | E]; intro H.
  - right. split; [assumption | ].
    change (PosDef.Pos.compare_cont Eq m1 m2) with (m1 ?= m2)%positive in H.
    destruct (Pos.compare_spec m1 m2); [ | | discriminate H]; lia.
  - left. assumption.
  - discriminate H.
Qed.

Lemma leb_finite_inv (x : float) (m : positive) (e : Z) :
  leb (S754_finite false m e) x = true ->
  match x with
  | S754_finite false _ _ | S754_infinity false => True
  | _ => False
  end.
Proof. destruct x as [[ | ] | [ | ] | | [ | ] m' e']; simpl; intro H; try exact I; discriminate H. Qed.

(** The order of floats *)

Lemma compare_cont_antisym (p q : positive) (r : comparison) :
  PosDef.Pos.compare_cont (CompOpp r) q p = CompOpp (PosDef.Pos.compare_cont r p q).
Proof. symmetry. apply Pos.compare_cont_antisym. Qed.

Lemma SFcompare_antisym (x y : float) :
  SFcompare y x = option_map CompOpp (SFcompare x y).
Proof.
  destruct x as [sx | sx | | sx mx ex], y as [sy | sy | | sy my ey];
    try reflexivity;
    try (destruct sx; reflexivity); try (destruct sy; reflexivity);
    try (destruct sx, sy; reflexivity).
  destruct sx, sy; try reflexivity; cbn [SFcompare option_map];
    rewrite (Z.compare_antisym ex ey); destruct (ex ?= ey); cbn [CompOpp];
    try reflexivity; f_equal.
  - rewrite <- (compare_cont_antisym mx my Eq). reflexivity.
  - apply (compare_cont_antisym mx my Eq).
Qed.

Lemma leb_of_not_ltb (x y : float) :
  is_nan x = false -> is_nan y = false -> ltb y x = false -> leb x y = true.
Proof.
  unfold ltb, leb, SFltb, SFleb. intros Hx Hy. rewrite (SFcompare_antisym x y).
  destruct (SFcompare x y) as [[ | | ] | ] eqn:E; cbn; try reflexivity; try discriminate.
  destruct x, y; try discriminate; cbn in E;
    repeat match type of E with context [if ?b then _ else _] => destruct b end;
    discriminate.
Qed.

Lemma ltb_of_not_leb (x y : float) :
  is_nan x = false -> is_nan y = false -> leb y x = false -> ltb x y = true.
Proof.
  unfold ltb, leb, SFltb, SFleb. intros Hx Hy. rewrite (SFcompare_antisym x y).
  destruct (SFcompare x y) as [[ | | ] | ] eqn:E; cbn; try reflexivity; try discriminate.
  destruct x, y; try discriminate; cbn in E;
    repeat match type of E with context [if ?b then _ else _] => destruct b end;
    discriminate.
Qed.

Lemma ltb_not_leb (x y : float) : ltb x y = true -> leb y x = false.
Proof.
  unfold ltb, leb, SFltb, SFleb. rewrite (SFcompare_antisym x y).
  destruct (SFcompare x y) as [[ | | ] | ]; cbn; congruence.
Qed.

Lemma leb_not_ltb (x y : float) : leb x y = true -> ltb y x = false.
Proof.
  unfold ltb, leb, SFltb, SFleb. rewrite (SFcompare_antisym x y).
  destruct (SFcompare x y) as [[ | | ] | ]; cbn; congruence.
Qed.

(** A float that is not below zero: a zero, a positive finite float or
    the positive infinity. *)
Lemma nonneg_cases (x : float) :
  leb f0_0 x = true <->
  match x with
  | S754_zero _ | S754_finite false _ _ | S754_infinity false => True
  | _ => False
  end.
Proof. destruct x as [[ | ] | [ | ] | | [ | ] m e]; cbn; intuition discriminate. Qed.

Lemma nonneg_not_nan (x : float) : leb f0_0 x = true -> is_nan x = false.
Proof. destruct x; try reflexivity. discriminate. Qed.

Lemma bounded_by_nonneg (B : Z) (x : float) : bounded_by B false x -> leb f0_0 x = true.
Proof.
  intro H. apply nonneg_cases.
  destruct x as [s | s | | s m e]; cbn in H; try contradiction; [exact I | ].
  destruct H as [-> _]. exact I.
Qed.

(** The rounding of a non-negative mantissa keeps the sign and is no NaN. *)
Lemma binary_round_aux_sign (s : bool) (m e : Z) (l : location) :
  0 <= m ->
  match binary_round_aux prec emax s m e l with
  | S754_zero s' | S754_infinity s' | S754_finite s' _ _ => s' = s
  | S754_nan => False
  end.
Proof.
  intro Hm. destruct (binary_round_aux_shape s m e l Hm) as [m2 H].
  cbv zeta in H. destruct H as [Hb [_ ->]].
  set (k1 := Z.max (fexp prec emax (Zdigits2 m + e) - e) 0) in *.
  set (k2 := Z.max _ 0).
  assert (0 <= m / 2 ^ k1) by (apply Z.div_pos; [lia | apply Z.pow_pos_nonneg; lia]).
  assert (Hq : 0 <= m2 / 2 ^ k2) by (apply Z.div_pos; [lia | apply Z.pow_pos_nonneg; lia]).
  destruct (m2 / 2 ^ k2) as [ | p | p]; [reflexivity | | lia].
  destruct (e + k1 + k2 <=? emax - prec); reflexivity.
Qed.

Lemma mul_nonneg_finite (x : float) (m : positive) (e : Z) :
  leb f0_0 x = true -> leb f0_0 (mul x (S754_finite false m e)) = true.
Proof.
  intro H. apply nonneg_cases in H. apply nonneg_cases.
  destruct x as [[ | ] | [ | ] | | [ | ] mx ex]; try contradiction; try exact I.
  unfold mul, SFmul. cbn [xorb].
  pose proof (binary_round_aux_sign false (Zpos (mx * m)) (ex + e) loc_Exact ltac:(lia)) as Hs.
  destruct (binary_round_aux _ _ _ _ _ _) as [s | s | | s ? ?];
    try contradiction; subst s; exact I.
Qed.

Lemma add_nonneg (x y : float) :
  leb f0_0 x = true -> leb f0_0 y = true -> leb f0_0 (add x y) = true.
Proof.
  intros Hx Hy. apply nonneg_cases in Hx, Hy. apply nonneg_cases.
  destruct x as [[ | ] | [ | ] | | [ | ] mx ex]; try contradiction;
    destruct y as [[ | ] | [ | ] | | [ | ] my ey]; try contradiction; try exact I.
  unfold add, SFadd. cbn [cond_Zopp].
  set (a := fst (shl_align mx ex (Z.min ex ey))).
  set (b := fst (shl_align my ey (Z.min ex ey))).
  change (Zpos a + Zpos b) with (Zpos (a + b)).
  unfold binary_normalize, binary_round.
  destruct (shl_align (a + b) _ _) as [mz ez].
  pose proof (binary_round_aux_sign false (Zpos mz) ez loc_Exact ltac:(lia)) as Hs.
  destruct (binary_round_aux _ _ _ _ _ _) as [s | s | | s ? ?];
    try contradiction; subst s; exact I.
Qed.

End RoundingFacts.

(** ** Facts on the predictor *)

Section PredictorFacts.

Import Predictor.

(** The least and the greatest draw of [random.uniform(0.8, 1.2)]. *)
Example uniform_ends :
  uniform f0_8 f1_2 f0_0 = f0_8 /\
  uniform f0_8 f1_2 (S754_finite false 9007199254740991 (-53)) = f1_2.
Proof. vm_compute. split; reflexivity. Qed.

Lemma variance_range (v : float) :
  valid v = true -> leb f0_8 v = true -> leb v f1_2 = true ->
  exists (m : positive) (e : Z), v = S754_finite false m e /\
    ((e = -53 /\ 7205759403792794 <= Zpos m < 2 ^ 53) \/
     (e = -52 /\ 2 ^ 52 <= Zpos m <= 5404319552844595)).
Proof.
  intros Hv Hlo Hhi. unfold f0_8 in Hlo. unfold f1_2 in Hhi.
  pose proof (leb_finite_inv _ _ _ Hlo) as Hs.
  destruct v as [s | s | | s m e]; try contradiction.
  - destruct s; [contradiction | discriminate Hhi].
  - destruct s; [contradiction | ].
    exists m, e. split; [reflexivity | ].
    apply leb_finite_pos in Hlo. apply leb_finite_pos in Hhi.
    assert (He : -1074 < e) by lia.
    pose proof (valid_finite_digits false m e Hv He) as Hm.
    clear Hv Hs. lia.
Qed.

Lemma reachable_workload (self : predictor) :
  reachable self -> In (workload_factor self) [f0_9; f1_0; f1_2; f1_5].
Proof.
  intro H. induction H as [ | self n _ _].
  - simpl. tauto.
  - unfold update_workload_factor.
    destruct (n <? 10); [simpl; tauto | ].
    destruct (n <? 20); [simpl; tauto | ].
    destruct (n <? 50); simpl; tauto.
Qed.

Lemma base_time_cases (category : string) :
  In (dict_get category_avg_times category 72) [24; 48; 72; 96; 120].
Proof.
  unfold dict_get, category_avg_times, dict_lookup.
  repeat match goal with |- context [String.eqb ?a ?b] => destruct (String.eqb a b) end;
    simpl; tauto.
Qed.

Lemma priority_mult_cases (priority : string) :
  In (dict_get priority_multipliers priority f1_0) [f0_5; f1_0; f1_5].
Proof.
  unfold dict_get, priority_multipliers, dict_lookup.
  repeat match goal with |- context [String.eqb ?a ?b] => destruct (String.eqb a b) end;
    simpl; tauto.
Qed.

Lemma raw_hours_table :
  forallb (fun b =>
    forallb (fun pm =>
      forallb (fun w => raw_hours_shape (raw_hours {| workload_factor := w |} b pm))
        [f0_9; f1_0; f1_2; f1_5])
      [f0_5; f1_0; f1_5])
    [24; 48; 72; 96; 120] = true.
Proof. vm_compute. reflexivity. Qed.

Lemma raw_hours_reachable (self : predictor) (category priority : string) :
  reachable self ->
  exists (m : positive) (e : Z),
    raw_hours self (dict_get category_avg_times category 72)
      (dict_get priority_multipliers priority f1_0) = Ok (S754_finite false m e) /\
    Zdigits2 (Zpos m) + e <= 9 /\ e <= 0.
Proof.
  intro Hr. pose proof (reachable_workload self Hr) as Hw.
  pose proof (base_time_cases category) as Hb.
  pose proof (priority_mult_cases priority) as Hp.
  pose proof raw_hours_table as T.
  rewrite forallb_forall in T. specialize (T _ Hb).
  rewrite forallb_forall in T. specialize (T _ Hp).
  rewrite forallb_forall in T. specialize (T _ Hw).
  destruct self as [w]. unfold workload_factor in T.
  destruct (raw_hours _ _ _) as [[ | | | [ | ] m e] | ]; try discriminate T.
  exists m, e. split; [reflexivity | ].
  unfold raw_hours_shape in T. apply andb_prop in T. destruct T as [T1 T2].
  apply Z.leb_le in T1. apply Z.leb_le in T2. split; assumption.
Qed.

Lemma trunc_bounded (B : Z) (x : float) :
  bounded_by B false x -> 0 <= B ->
  exists h : Z, trunc x = Ok h /\ 0 <= h < 2 ^ B.
Proof.
  intros H HB. destruct x as [s | s | | s m e]; unfold bounded_by in H; try contradiction.
  - exists 0. split; [reflexivity | ].
    pose proof (Z.pow_pos_nonneg 2 B). lia.
  - destruct H as [-> [Hd He]]. unfold trunc.
    pose proof (Zdigits2_lt_pow (Zpos m) ltac:(lia)) as Hlt.
    pose proof (Zdigits2_nonneg (Zpos m)) as H0.
    destruct e as [ | k | k]; eexists; (split; [reflexivity | ]).
    + rewrite Z.shiftl_0_r. split; [lia | ].
      eapply Z.lt_le_trans; [exact Hlt | apply Z.pow_le_mono_r; lia].
    + rewrite Z.shiftl_mul_pow2 by lia.
      assert (0 < 2 ^ Zpos k) by (apply Z.pow_pos_nonneg; lia).
      split; [nia | ].
      apply Z.lt_le_trans with (2 ^ (Zdigits2 (Zpos m) + Zpos k)).
      * rewrite Z.pow_add_r by lia. nia.
      * apply Z.pow_le_mono_r; lia.
    + rewrite Z.shiftr_div_pow2 by lia.
      assert (Hq : 0 <= Zpos m / 2 ^ Zpos k)
        by (apply Z.div_pos; [lia | apply Z.pow_pos_nonneg; lia]).
      split; [assumption | ].
      pose proof (Zdigits2_div_pow2 (Zpos m) (Zpos k) ltac:(lia) ltac:(lia)) as Hd2.
      pose proof (Zdigits2_lt_pow _ Hq) as Hlt2.
      pose proof (Zdigits2_nonneg (Zpos m / 2 ^ Zpos k)) as H02.
      eapply Z.lt_le_trans; [exact Hlt2 | apply Z.pow_le_mono_r; lia].
Qed.

(** [12.0 * variance], truncated, for a variance in [0.8, 1.2]. *)
Lemma mul_12_variance (mx m : positive) (e : Z) :
  Zpos mx = 6755399441055744 ->
  (e = -53 /\ 7205759403792794 <= Zpos m < 2 ^ 53) \/
  (e = -52 /\ 2 ^ 52 <= Zpos m <= 5404319552844595) ->
  exists p : positive,
    mul (S754_finite false mx (-49)) (S754_finite false m e) = S754_finite false p (-49) /\
    9 * 2 ^ 49 <= Zpos p < 15 * 2 ^ 49.
Proof.
  intros Hmx Hm. unfold mul, SFmul. simpl xorb.
  destruct (binary_round_aux_shape false (Zpos (mx * m)) (-49 + e) loc_Exact ltac:(lia))
    as [m2 H].
  cbv zeta in H. rewrite !fexp_eq in H. destruct H as [Hb [_ ->]].
  rewrite Pos2Z.inj_mul, Hmx in *.
  set (M := 6755399441055744 * Zpos m) in *.
  change (2 ^ 53) with 9007199254740992 in Hm.
  change (2 ^ 52) with 4503599627370496 in Hm.
  change (2 ^ 49) with 562949953421312.
  destruct Hm as [[-> Hm] | [-> Hm]].
  - assert (Hd : Zdigits2 M = 106).
    { apply Zdigits2_unique; [lia | ].
      change (2 ^ (106 - 1)) with 40564819207303340847894502572032.
      change (2 ^ 106) with 81129638414606681695789005144064. unfold M. lia. }
    rewrite Hd in Hb |- *.
    change (Z.max (Z.max (106 + (-49 + -53) - 53) (-1074) - (-49 + -53)) 0) with 53 in *.
    change (2 ^ 53) with 9007199254740992 in *.
    pose proof (Z.div_mod M 9007199254740992 ltac:(lia)) as Hdm.
    pose proof (Z.mod_pos_bound M 9007199254740992 ltac:(lia)) as Hmod.
    assert (Hd2 : Zdigits2 m2 = 53).
    { apply Zdigits2_unique; [lia | ].
      change (2 ^ (53 - 1)) with 4503599627370496.
      change (2 ^ 53) with 9007199254740992. unfold M in *. lia. }
    rewrite Hd2.
    change (Z.max (Z.max (53 + (-49 + -53 + 53) - 53) (-1074) - (-49 + -53 + 53)) 0) with 0.
    rewrite Z.pow_0_r, Z.div_1_r.
    destruct m2 as [ | p | p]; try lia.
    exists p. split; [reflexivity | ]. unfold M in *. lia.
  - assert (Hd : Zdigits2 M = 105).
    { apply Zdigits2_unique; [lia | ].
      change (2 ^ (105 - 1)) with 20282409603651670423947251286016.
      change (2 ^ 105) with 40564819207303340847894502572032. unfold M. lia. }
    rewrite Hd in Hb |- *.
    change (Z.max (Z.max (105 + (-49 + -52) - 53) (-1074) - (-49 + -52)) 0) with 52 in *.
    change (2 ^ 52) with 4503599627370496 in *.
    pose proof (Z.div_mod M 4503599627370496 ltac:(lia)) as Hdm.
    pose proof (Z.mod_pos_bound M 4503599627370496 ltac:(lia)) as Hmod.
    assert (Hd2 : Zdigits2 m2 = 53).
    { apply Zdigits2_unique; [lia | ].
      change (2 ^ (53 - 1)) with 4503599627370496.
      change (2 ^ 53) with 9007199254740992. unfold M in *. lia. }
    rewrite Hd2.
    change (Z.max (Z.max (53 + (-49 + -52 + 52) - 53) (-1074) - (-49 + -52 + 52)) 0) with 0.
    rewrite Z.pow_0_r, Z.div_1_r.
    destruct m2 as [ | p | p]; try lia.
    exists p. split; [reflexivity | ]. unfold M in *. lia.
Qed.

Lemma variance_digits (m : positive) (e : Z) :
  (e = -53 /\ 7205759403792794 <= Zpos m < 2 ^ 53) \/
  (e = -52 /\ 2 ^ 52 <= Zpos m <= 5404319552844595) ->
  Zdigits2 (Zpos m) + e <= 1 /\ e <= 0.
Proof.
  intro H.
  assert (Hd : Zdigits2 (Zpos m) <= 53).
  { apply Zdigits2_le; lia. }
  lia.
Qed.

(** C1: from a reachable predictor and a variance in [0.8, 1.2],
    [predict_resolution_time] returns for every category, priority and
    description; the hours are at least 1 and the days are
    [round(hours / 24, 1)]; for "IT Issues", "High" and a workload factor
    of 1.0 the hours lie in [9, 14]. *)
Theorem predict_hours_and_days
    (self : predictor) (variance : float) (category priority : string)
    (description : option string) :
  reachable self ->
  valid variance = true -> leb f0_8 variance = true -> leb variance f1_2 = true ->
  exists (p : prediction) (predicted_days : float),
    predict_resolution_time self variance category priority description = Ok p /\
    1 <= hours p /\
    truediv_Z (hours p) 24 = Ok predicted_days /\
    days p = round1 predicted_days /\
    (category = "IT Issues"%string -> priority = "High"%string ->
     workload_factor self = f1_0 -> 9 <= hours p <= 14).
Proof.
  intros Hr Hv Hlo Hhi.
  destruct (raw_hours_reachable self category priority Hr) as [m [e [Hraw [Hd He]]]].
  destruct (variance_range variance Hv Hlo Hhi) as [mv [ev [-> Hmv]]].
  destruct (variance_digits mv ev Hmv) as [Hdv Hev].
  pose proof (mul_finite_bounded false false m mv e ev 10 ltac:(lia) ltac:(lia)
                ltac:(lia) ltac:(lia)) as Hmul.
  destruct (trunc_bounded _ _ Hmul ltac:(lia)) as [h [Htr Hh]].
  change (2 ^ (10 + 1)) with 2048 in Hh.
  assert (Hdig : Zdigits2 (Z.max h 1) <= 11).
  { apply Zdigits2_le; lia. }
  destruct (truediv_Z_bounded (Z.max h 1) 24 7 ltac:(lia)
              ltac:(change (Zdigits2 24) with 5; lia) ltac:(lia) ltac:(lia))
    as [x [Hx _]].
  unfold predict_resolution_time. rewrite Hraw. cbn [bind]. rewrite Htr. cbn [bind].
  rewrite Hx. cbn [bind].
  eexists. exists x. split; [reflexivity | ]. cbn [hours days].
  split; [lia | ]. split; [exact Hx | ]. split; [reflexivity | ].
  intros -> -> Hw. destruct self as [w]. cbn [workload_factor] in Hw. subst w.
  vm_compute in Hraw. injection Hraw as Hm' He'. subst e.
  destruct (mul_12_variance m mv ev) as [p [Hp Hpb]]; [rewrite <- Hm'; reflexivity | exact Hmv | ].
  rewrite Hp in Htr. unfold trunc in Htr. injection Htr as Hh'.
  rewrite Z.shiftr_div_pow2 in Hh' by lia.
  change (2 ^ 49) with 562949953421312 in *.
  pose proof (Z.div_mod (Zpos p) 562949953421312 ltac:(lia)) as Hdm.
  pose proof (Z.mod_pos_bound (Zpos p) 562949953421312 ltac:(lia)) as Hmod.
  rewrite Hh' in Hdm. lia.
Qed.

Lemma predict_hours_and_days_witness :
  exists (p : prediction) (predicted_days : float),
    predict_resolution_time init f1_0 "IT Issues" "High" None = Ok p /\
    1 <= hours p /\
    truediv_Z (hours p) 24 = Ok predicted_days /\
    days p = round1 predicted_days /\
    ("IT Issues"%string = "IT Issues"%string -> "High"%string = "High"%string ->
     workload_factor init = f1_0 -> 9 <= hours p <= 14).
Proof.
  apply (predict_hours_and_days init f1_0 "IT Issues" "High" None);
    [apply reachable_init | reflexivity | reflexivity | reflexivity].
Defined.

Example predict_it_high_low_variance :
  predict_resolution_time init f0_8 "IT Issues" "High" None =
  Ok {| hours := 9; days := lit 4 10; category_avg := 24;
        priority_factor := f0_5; confidence := f0_75 |}.
Proof. vm_compute. reflexivity. Qed.

Example predict_other_low_busy :
  predict_resolution_time (update_workload_factor init 60) f1_2 "Other" "Low" None =
  Ok {| hours := 324; days := lit 135 10; category_avg := 120;
        priority_factor := f1_5; confidence := f0_75 |}.
Proof. vm_compute. reflexivity. Qed.

Lemma run_app (self : predictor) (cs1 cs2 : list call) :
  run self (cs1 ++ cs2) =
  (fst (run (fst (run self cs1)) cs2),
   snd (run self cs1) ++ snd (run (fst (run self cs1)) cs2)).
Proof.
  revert self. induction cs1 as [ | c cs1 IH]; intro self; simpl.
  - destruct (run self cs2). reflexivity.
  - destruct (step self c) as [self' out]. rewrite IH.
    destruct (run self' cs1) as [self'' outs]. simpl.
    now rewrite app_assoc.
Qed.

Lemma run_predicts (self : predictor)
    (args : list (float * string * string * option string)) :
  run self (map (fun '(v, cat, pri, d) => Predict v cat pri d) args) =
  (self, map (fun '(v, cat, pri, d) => predict_resolution_time self v cat pri d) args).
Proof.
  induction args as [ | [[[v cat] pri] d] args IH]; simpl; [reflexivity | ].
  now rewrite IH.
Qed.

(** C7: [update_workload_factor] is the step function of the pending
    count; the predictions made after it, up to the next update, multiply
    base, multiplier and the new factor; the predictions returned before it
    are the same values as without it. *)
Theorem update_workload_then_predict
    (self : predictor) (pending_count : Z) (before : list call)
    (after : list (float * string * string * option string)) :
  let self' := update_workload_factor (fst (run self before)) pending_count in
  let factor :=
    if pending_count <? 10 then f0_9
    else if pending_count <? 20 then f1_0
    else if pending_count <? 50 then f1_2
    else f1_5 in
  workload_factor self' = factor /\
  (pending_count < 10 -> factor = f0_9) /\
  (10 <= pending_count < 20 -> factor = f1_0) /\
  (20 <= pending_count < 50 -> factor = f1_2) /\
  (50 <= pending_count -> factor = f1_5) /\
  run self (before ++ UpdateWorkload pending_count ::
            map (fun '(v, cat, pri, d) => Predict v cat pri d) after) =
    (self',
     snd (run self before) ++
     map (fun '(v, cat, pri, d) => predict_resolution_time self' v cat pri d) after) /\
  forall (v : float) (cat pri : string) (d : option string),
    predict_resolution_time self' v cat pri d =
    (let base_time := dict_get category_avg_times cat 72 in
     let priority_mult := dict_get priority_multipliers pri f1_0 in
     b <- of_Z base_time ;;
     h <- trunc (mul (mul (mul b priority_mult) factor) v) ;;
     predicted_days <- truediv_Z (Z.max h 1) 24 ;;
     Ok {| hours := Z.max h 1;
           days := round1 predicted_days;
           category_avg := base_time;
           priority_factor := priority_mult;
           confidence := f0_75 |}).
Proof.
  cbv zeta.
  assert (Hw : workload_factor
                 (update_workload_factor (fst (run self before)) pending_count) =
               if pending_count <? 10 then f0_9
               else if pending_count <? 20 then f1_0
               else if pending_count <? 50 then f1_2
               else f1_5).
  { unfold update_workload_factor.
    destruct (pending_count <? 10); [reflexivity | ].
    destruct (pending_count <? 20); [reflexivity | ].
    destruct (pending_count <? 50); reflexivity. }
  split; [exact Hw | ].
  repeat split.
  - intro H. apply Z.ltb_lt in H. now rewrite H.
  - intros [H1 H2]. apply Z.ltb_ge in H1. apply Z.ltb_lt in H2. now rewrite H1, H2.
  - intros [H1 H2]. apply Z.ltb_lt in H2.
    assert (H3 : (pending_count <? 10) = false) by (apply Z.ltb_ge; lia).
    assert (H4 : (pending_count <? 20) = false) by (apply Z.ltb_ge; lia).
    now rewrite H3, H4, H2.
  - intro H1.
    assert (H3 : (pending_count <? 10) = false) by (apply Z.ltb_ge; lia).
    assert (H4 : (pending_count <? 20) = false) by (apply Z.ltb_ge; lia).
    assert (H5 : (pending_count <? 50) = false) by (apply Z.ltb_ge; lia).
    now rewrite H3, H4, H5.
  - rewrite run_app. cbn [run step].
    rewrite run_predicts. cbn [fst snd app]. reflexivity.
  - intros v cat pri d. unfold predict_resolution_time, raw_hours.
    rewrite Hw. destruct (of_Z (dict_get category_avg_times cat 72)); reflexivity.
Qed.

Example workload_5_then_60 :
  workload_factor (update_workload_factor init 5) = f0_9 /\
  workload_factor (update_workload_factor init 60) = f1_5 /\
  workload_factor (update_workload_factor init 10) = f1_0 /\
  workload_factor (update_workload_factor init 49) = f1_2.
Proof. repeat split. Qed.

Example session_keeps_returned_predictions :
  snd (run init [Predict f1_0 "Library" "Medium" None; UpdateWorkload 60;
                 Predict f1_0 "Library" "Medium" None]) =
  [ Ok {| hours := 48; days := lit 2 1; category_avg := 48;
          priority_factor := f1_0; confidence := f0_75 |};
    Ok {| hours := 72; days := lit 3 1; category_avg := 48;
          priority_factor := f1_0; confidence := f0_75 |} ].
Proof. vm_compute. reflexivity. Qed.

End PredictorFacts.

(** ** Facts on the category statistics *)

Section StatisticsFacts.

Import Predictor.

Lemma Zdigits2_abs (z : Z) : Zdigits2 (Z.abs z) = Zdigits2 z.
Proof. destruct z; reflexivity. Qed.

Lemma fold_add_bound (K : Z) (l : list Z) (a : Z) :
  Forall (fun t => Z.abs t < K) l ->
  Z.abs (fold_left Z.add l a) <= Z.abs a + len l * K.
Proof.
  unfold len. intro H. revert a. induction H as [ | t l Ht _ IH]; intro a.
  - simpl. lia.
  - cbn [fold_left List.length]. specialize (IH (a + t)).
    rewrite Nat2Z.inj_succ. lia.
Qed.

Lemma sum_Z_digits (l : list Z) :
  l <> [] -> Forall (fun t => Z.abs t < 2 ^ 1000) l ->
  Zdigits2 (sum_Z l) <= Zdigits2 (len l) + 1000.
Proof.
  intros Hl H. pose proof (fold_add_bound _ l 0 H) as Hb. fold (sum_Z l) in Hb.
  assert (Hn : 0 < len l) by (destruct l; [contradiction | unfold len; simpl; lia]).
  pose proof (Zdigits2_lt_pow (len l) ltac:(lia)) as Hlt.
  pose proof (Zdigits2_nonneg (len l)) as H0.
  rewrite <- Zdigits2_abs. apply Zdigits2_le; try lia.
  rewrite Z.pow_add_r by lia.
  assert (0 < 2 ^ 1000) by (apply Z.pow_pos_nonneg; lia).
  simpl Z.abs in Hb. nia.
Qed.

Lemma in_category_spec (category : string) (c : complaint) :
  in_category category c = has_category category c.
Proof.
  unfold in_category, has_category. destruct (c_category c) as [s | ]; [ | reflexivity].
  destruct (string_dec s category) as [-> | Hne].
  - apply String.eqb_refl.
  - apply String.eqb_neq. exact Hne.
Qed.

Lemma counted_resolved_spec (c : complaint) :
  counted_resolved c = has_status "Resolved" c && has_time c.
Proof.
  unfold counted_resolved, status_resolved, time_truthy, has_status, has_time.
  f_equal.
  - destruct (c_status c) as [s | ]; [ | reflexivity].
    destruct (string_dec s "Resolved") as [-> | Hne]; [reflexivity | ].
    apply String.eqb_neq. exact Hne.
  - destruct (c_resolution_time c) as [[z | x] | ]; try reflexivity.
    cbn [number_truthy]. destruct (Z.eq_dec z 0) as [-> | Hne]; [reflexivity | ].
    apply negb_true_iff, Z.eqb_neq. exact Hne.
Qed.

Lemma has_time_recorded (c : complaint) :
  has_time c = true -> c_resolution_time c = Some (resolution_time c).
Proof.
  unfold has_time, resolution_time.
  destruct (c_resolution_time c) as [t | ]; [reflexivity | discriminate].
Qed.

Lemma recorded_times_counted (l : list complaint) :
  Forall (fun c => has_time c = true) l ->
  recorded_times l = map resolution_time l.
Proof.
  induction 1 as [ | c l Hc _ IH]; [reflexivity | ].
  cbn [recorded_times flat_map map]. fold (recorded_times l).
  rewrite (has_time_recorded c Hc), IH. reflexivity.
Qed.

Lemma without_time_not_counted (c : complaint) : without_time c -> has_time c = false.
Proof.
  unfold has_time. intros [H | [H | [s H]]]; rewrite H; reflexivity.
Qed.

Lemma len_filter_le {A : Type} (f : A -> bool) (l : list A) :
  0 <= len (filter f l) <= len l.
Proof.
  unfold len. induction l as [ | a l IH]; cbn [filter List.length]; [lia | ].
  destruct (f a); cbn [List.length]; lia.
Qed.

Lemma Forall_filter {A : Type} (P : A -> Prop) (f : A -> bool) (l : list A) :
  Forall P l -> Forall P (filter f l).
Proof.
  intro H. apply Forall_forall. intros x Hx. apply filter_In in Hx.
  rewrite Forall_forall in H. apply H, Hx.
Qed.

Lemma of_Z_partial_sum (s k : Z) :
  Z.abs s <= k * 2 ^ 1000 -> k < 2 ^ 23 -> exists x : float, of_Z s = Ok x.
Proof.
  intros Hs Hk.
  assert (Hd : Zdigits2 s <= 1023).
  { rewrite <- Zdigits2_abs. apply Zdigits2_le; lia. }
  destruct (of_Z_bounded s 1023 Hd ltac:(lia)) as [x [Hx _]].
  exists x. exact Hx.
Qed.

(** The additions of [sum]: an invariant of the running total. *)
Lemma sum_from_returns (l : list number) :
  forall (a : number) (k : Z),
    Forall number_in_range l -> 0 <= k ->
    match a with Int s => Z.abs s <= k * 2 ^ 1000 | Flt _ => True end ->
    (Forall (fun x => match x with Int _ => True | Flt _ => False end) l /\
     (exists s, a = Int s)) \/ k + len l < 2 ^ 23 ->
    exists total : number,
      fold_left (fun total x => total <- total ;; add_number total x) l (Ok a) = Ok total /\
      match total with
      | Int s => Z.abs s <= (k + len l) * 2 ^ 1000
      | Flt _ => k + len l < 2 ^ 23
      end.
Proof.
  assert (HP : 0 < 2 ^ 1000) by (apply Z.pow_pos_nonneg; lia).
  induction l as [ | x l IH]; intros a k Hr Hk Ha Hd.
  - exists a. split; [reflexivity | ]. change (len (@nil number)) with 0.
    destruct a as [s | y].
    + rewrite Z.add_0_r. exact Ha.
    + destruct Hd as [[_ [s Hs]] | Hd]; [discriminate Hs | exact Hd].
  - inversion Hr as [ | ? ? Hx Hr']; subst.
    assert (Hlen : len (x :: l) = 1 + len l)
      by (unfold len; cbn [List.length]; lia).
    assert (Hl0 : 0 <= len l) by (unfold len; lia).
    rewrite Hlen in *. cbn [fold_left bind].
    destruct a as [s | y], x as [t | z]; cbn [add_number bind].
    + destruct (IH (Int (s + t)) (k + 1) Hr' ltac:(lia)) as [total [Ht Hb]].
      * cbn [number_in_range] in Hx. set (P := 2 ^ 1000) in *. nia.
      * destruct Hd as [[Hall _] | Hd]; [left | right; lia].
        inversion Hall; subst. split; [assumption | eexists; reflexivity].
      * exists total. split; [exact Ht | ].
        replace (k + (1 + len l)) with (k + 1 + len l) by lia. exact Hb.
    + assert (Hk23 : k + (1 + len l) < 2 ^ 23).
      { destruct Hd as [[Hall _] | Hd]; [ | exact Hd].
        inversion Hall as [ | ? ? Hf _]; subst. contradiction Hf. }
      destruct (of_Z_partial_sum s k Ha ltac:(lia)) as [fs Hfs].
      rewrite Hfs. cbn [bind].
      destruct (IH (Flt (add fs z)) (k + 1) Hr' ltac:(lia) I ltac:(right; lia))
        as [total [Ht Hb]].
      exists total. split; [exact Ht | ].
      replace (k + (1 + len l)) with (k + 1 + len l) by lia. exact Hb.
    + assert (Hk23 : k + (1 + len l) < 2 ^ 23).
      { destruct Hd as [[_ [s Hs]] | Hd]; [discriminate Hs | exact Hd]. }
      cbn [number_in_range] in Hx.
      destruct (of_Z_partial_sum t 1 ltac:(lia) ltac:(reflexivity)) as [ft Hft].
      rewrite Hft. cbn [bind].
      destruct (IH (Flt (add y ft)) (k + 1) Hr' ltac:(lia) I ltac:(right; lia))
        as [total [Ht Hb]].
      exists total. split; [exact Ht | ].
      replace (k + (1 + len l)) with (k + 1 + len l) by lia. exact Hb.
    + assert (Hk23 : k + (1 + len l) < 2 ^ 23).
      { destruct Hd as [[_ [s Hs]] | Hd]; [discriminate Hs | exact Hd]. }
      destruct (IH (Flt (add y z)) (k + 1) Hr' ltac:(lia) I ltac:(right; lia))
        as [total [Ht Hb]].
      exists total. split; [exact Ht | ].
      replace (k + (1 + len l)) with (k + 1 + len l) by lia. exact Hb.
Qed.

Lemma sum_Z_from (l : list Z) (a : Z) : fold_left Z.add l a = a + sum_Z l.
Proof.
  unfold sum_Z. revert a. induction l as [ | x l IH]; intro a; cbn [fold_left]; [lia | ].
  rewrite (IH (a + x)), (IH (0 + x)). lia.
Qed.

Lemma sum_Z_step (z : Z) (zs : list Z) : sum_Z (z :: zs) = z + sum_Z zs.
Proof. unfold sum_Z at 1. cbn [fold_left]. rewrite sum_Z_from. lia. Qed.

(** On integers [sum] is exact. *)
Lemma sum_integers_from (zs : list Z) (a : Z) :
  fold_left (fun total x => total <- total ;; add_number total x) (map Int zs) (Ok (Int a)) =
  Ok (Int (a + sum_Z zs)).
Proof.
  revert a. induction zs as [ | z zs IH]; intro a.
  - cbn [map fold_left]. change (sum_Z []) with 0. rewrite Z.add_0_r. reflexivity.
  - cbn [map fold_left bind add_number]. rewrite IH, sum_Z_step.
    f_equal. f_equal. lia.
Qed.

Lemma sum_integers (zs : list Z) : sum_numbers (map Int zs) = Ok (Int (sum_Z zs)).
Proof. unfold sum_numbers. rewrite sum_integers_from. reflexivity. Qed.

Lemma mean_returns (l : list number) :
  l <> [] -> Forall number_in_range l ->
  Forall (fun x => match x with Int _ => True | Flt _ => False end) l \/ len l < 2 ^ 23 ->
  exists (total : number) (mean : float),
    sum_numbers l = Ok total /\
    (forall zs : list Z, l = map Int zs -> total = Int (sum_Z zs)) /\
    div_number_Z total (len l) = Ok mean.
Proof.
  intros Hl Hr Hd.
  assert (Hn : 0 < len l) by (destruct l; [contradiction | unfold len; simpl; lia]).
  destruct (sum_from_returns l (Int 0) 0 Hr ltac:(lia) ltac:(cbn; lia)) as [total [Ht Hb]].
  { destruct Hd as [Hd | Hd]; [left; split; [exact Hd | eexists; reflexivity] | right; lia]. }
  fold (sum_numbers l) in Ht. rewrite Z.add_0_l in Hb.
  assert (Hz : forall zs : list Z, l = map Int zs -> total = Int (sum_Z zs)).
  { intros zs E. rewrite E, sum_integers in Ht. injection Ht as <-. reflexivity. }
  destruct total as [s | x].
  - assert (Hdig : Zdigits2 s <= Zdigits2 (len l) + 1000).
    { pose proof (Zdigits2_lt_pow (len l) ltac:(lia)) as Hlt.
      pose proof (Zdigits2_nonneg (len l)) as H0.
      rewrite <- Zdigits2_abs. apply Zdigits2_le; try lia.
      rewrite Z.pow_add_r by lia.
      assert (0 < 2 ^ 1000) by (apply Z.pow_pos_nonneg; lia).
      set (P := 2 ^ 1000) in *. nia. }
    destruct (truediv_Z_bounded s (len l) 1001
                ltac:(lia) ltac:(lia) ltac:(lia) ltac:(lia)) as [mean [Hm _]].
    exists (Int s), mean. split; [exact Ht | ]. split; [exact Hz | exact Hm].
  - destruct (of_Z_partial_sum (len l) 1 ltac:(lia) ltac:(reflexivity)) as [fn Hfn].
    exists (Flt x). eexists. split; [exact Ht | ]. split; [exact Hz | ].
    cbn [div_number_Z]. unfold div_float_Z.
    destruct (Z.eqb_spec (len l) 0) as [E | _]; [lia | ].
    rewrite Hfn. reflexivity.
Qed.

Lemma baseline_days_returns (baseline : Z) :
  0 < baseline < 1024 -> exists d : float, truediv_Z baseline 24 = Ok d.
Proof.
  intro H.
  assert (Hd : Zdigits2 baseline <= 10) by (apply Zdigits2_le; lia).
  destruct (truediv_Z_bounded baseline 24 6 ltac:(lia)
              ltac:(change (Zdigits2 24) with 5; lia) ltac:(lia) ltac:(lia))
    as [x [Hx _]].
  exists x. exact Hx.
Qed.

Lemma div_float_24_returns (x : float) :
  div_float_Z x 24 = Ok (SFdiv prec emax x (S754_finite false 6755399441055744 (-48))).
Proof. reflexivity. Qed.

Lemma counted_times (history : list complaint) (category : string) :
  times_in_range history ->
  let counted :=
    filter (fun c => has_status "Resolved" c && has_time c)
      (filter (has_category category) history) in
  recorded_times counted = map resolution_time counted /\
  Forall number_in_range (map resolution_time counted) /\
  (Forall (fun x => match x with Int _ => True | Flt _ => False end)
     (map resolution_time counted) \/
   len (map resolution_time counted) < 2 ^ 23).
Proof.
  intros [Hr Hd]. cbv zeta.
  set (counted := filter _ (filter _ history)).
  assert (Hsub : forall c, In c counted -> In c history /\ has_time c = true).
  { intros c Hc. unfold counted in Hc. apply filter_In in Hc. destruct Hc as [Hc Hp].
    apply filter_In in Hc. apply andb_prop in Hp. split; [apply Hc | apply Hp]. }
  split; [ | split].
  - apply recorded_times_counted. apply Forall_forall. intros c Hc. apply (Hsub c Hc).
  - apply Forall_map. apply Forall_forall. intros c Hc.
    destruct (Hsub c Hc) as [Hin _]. rewrite Forall_forall in Hr.
    specialize (Hr c Hin). unfold time_in_range in Hr. unfold resolution_time.
    destruct (c_resolution_time c); [exact Hr | cbn; lia].
  - destruct Hd as [Hd | Hd]; [left | right].
    + apply Forall_map. apply Forall_forall. intros c Hc.
      destruct (Hsub c Hc) as [Hin _]. rewrite Forall_forall in Hd.
      specialize (Hd c Hin). unfold integer_time in Hd. unfold resolution_time.
      destruct (c_resolution_time c) as [[z | x] | ]; try exact I. contradiction.
    + unfold len. rewrite length_map. fold (len counted).
      pose proof (len_filter_le (fun c => has_status "Resolved" c && has_time c)
                    (filter (has_category category) history)) as H1.
      pose proof (len_filter_le (has_category category) history) as H2.
      fold counted in H1. lia.
Qed.

Lemma category_entry_spec (history : list complaint) (category : string) (baseline : Z) :
  times_in_range history -> 0 < baseline < 1024 ->
  exists e : category_stats,
    category_entry history category baseline = Ok e /\
    entry_spec history category baseline e.
Proof.
  intros Hr Hb. unfold category_entry, entry_spec. cbv zeta.
  destruct (baseline_days_returns baseline Hb) as [d0 Hd0].
  destruct (counted_times history category Hr) as (Hrec & Hnum & Hint).
  rewrite (filter_ext _ _ (in_category_spec category) history).
  rewrite (filter_ext _ _ counted_resolved_spec).
  destruct (filter (has_category category) history) as [ | c cs] eqn:Em.
  - rewrite Hd0. cbn [bind]. eexists. split; [reflexivity | ].
    cbn [total_complaints resolved avg_resolution_hours avg_resolution_days filter].
    repeat split. exists d0. split; reflexivity.
  - destruct (filter (fun c0 => has_status "Resolved" c0 && has_time c0) (c :: cs))
      as [ | r rs] eqn:Ec.
    + cbn [bind div_number_Z]. rewrite Hd0. cbn [bind].
      eexists. split; [reflexivity | ].
      cbn [total_complaints resolved avg_resolution_hours avg_resolution_days round1_number].
      repeat split. exists d0. split; reflexivity.
    + destruct (mean_returns (map resolution_time (r :: rs)) ltac:(discriminate)
                  Hnum Hint) as (total & mean & Hsum & Hz & Hmean).
      assert (Hl : len (map resolution_time (r :: rs)) = len (r :: rs))
        by (unfold len; now rewrite length_map).
      rewrite Hl in Hmean. rewrite Hsum. cbn [bind]. rewrite Hmean.
      cbn [bind div_number_Z]. rewrite div_float_24_returns. cbn [bind].
      eexists. split; [reflexivity | ].
      cbn [total_complaints resolved avg_resolution_hours avg_resolution_days round1_number].
      split; [reflexivity | ]. split; [reflexivity | ].
      exists total, mean. eexists. rewrite Hrec.
      split; [exact Hsum | ]. split; [exact Hz | ]. split; [exact Hmean | ].
      split; [reflexivity | ]. split; reflexivity.
Qed.

Lemma for_each_entries {V W : Type} (f : string -> V -> outcome W) (d : dict V)
    (P : string -> V -> W -> Prop) :
  NoDup (keys d) ->
  (forall k v, In (k, v) d -> exists w, f k v = Ok w /\ P k v w) ->
  exists out : dict W,
    for_each (fun '(k, v) => w <- f k v ;; Ok (k, w)) d = Ok out /\
    keys out = keys d /\
    forall k v, In (k, v) d -> exists w, dict_lookup out k = Some w /\ P k v w.
Proof.
  induction d as [ | [k0 v0] d IH]; intros Hnd H.
  - exists []. repeat split. intros k v [].
  - inversion Hnd as [ | ? ? Hnotin Hnd']; subst.
    destruct (H k0 v0 (or_introl eq_refl)) as [w0 [Hw0 HP0]].
    destruct (IH Hnd' (fun k v Hin => H k v (or_intror Hin))) as [out [Hout [Hk Hl]]].
    exists ((k0, w0) :: out). cbn [for_each]. rewrite Hw0. cbn [bind].
    rewrite Hout. cbn [bind]. split; [reflexivity | ]. split.
    + cbn. f_equal. exact Hk.
    + intros k v [Heq | Hin].
      * injection Heq as -> ->. exists w0. cbn. rewrite String.eqb_refl. auto.
      * destruct (Hl k v Hin) as [w [Hw HP]]. exists w. split; [ | exact HP].
        cbn. destruct (String.eqb_spec k k0) as [-> | _]; [ | exact Hw].
        exfalso. apply Hnotin. change k0 with (fst (k0, v)). now apply in_map.
Qed.

Lemma category_avg_times_keys : keys category_avg_times = categories.
Proof. reflexivity. Qed.

Lemma categories_NoDup : NoDup categories.
Proof.
  unfold categories.
  repeat (constructor; [cbn; intuition discriminate | ]). constructor.
Qed.

Lemma baseline_range (category : string) (baseline : Z) :
  In (category, baseline) category_avg_times -> 0 < baseline < 1024.
Proof.
  cbn. intros H.
  repeat (destruct H as [H | H]; [injection H as _ <-; lia | ]). contradiction.
Qed.

Lemma statistics_spec (history : list complaint) :
  times_in_range history ->
  exists stats : dict category_stats,
    get_category_statistics history = Ok stats /\
    keys stats = categories /\
    forall category baseline,
      In (category, baseline) category_avg_times ->
      exists e : category_stats,
        dict_lookup stats category = Some e /\
        entry_spec history category baseline e.
Proof.
  intro Hr. unfold get_category_statistics.
  apply (for_each_entries (category_entry history) category_avg_times
           (entry_spec history)).
  - rewrite category_avg_times_keys. apply categories_NoDup.
  - intros k v Hin. apply category_entry_spec; [assumption | ].
    eapply baseline_range; eassumption.
Qed.




Example sample_statistics :
  get_category_statistics sample_history =
  Ok [ ("IT Issues",
        {| total_complaints := 5; resolved := 1;
           avg_resolution_hours := Flt (lit 10 1); avg_resolution_days := lit 4 10 |});
       ("Hostel Management",
        {| total_complaints := 1; resolved := 0;
           avg_resolution_hours := Int 48; avg_resolution_days := lit 2 1 |});
       ("Academics",
        {| total_complaints := 0; resolved := 0;
           avg_resolution_hours := Int 72; avg_resolution_days := lit 3 1 |});
       ("Administration",
        {| total_complaints := 0; resolved := 0;
           avg_resolution_hours := Int 96; avg_resolution_days := lit 4 1 |});
       ("Library",
        {| total_complaints := 2; resolved := 2;
           avg_resolution_hours := Flt (lit 458 10); avg_resolution_days := lit 19 10 |});
       ("Sports & Recreation",
        {| total_complaints := 0; resolved := 0;
           avg_resolution_hours := Int 72; avg_resolution_days := lit 3 1 |});
       ("Other",
        {| total_complaints := 0; resolved := 0;
           avg_resolution_hours := Int 120; avg_resolution_days := lit 5 1 |}) ]%string.
Proof. vm_compute. reflexivity. Qed.

(** The day average is taken from the mean before its rounding: four
    records with times 1, 1, 1, 2 have mean 1.25, reported as 1.2 hours and
    0.1 days, while 1.2 / 24 would round to 0.0. *)
Example day_average_from_unrounded_mean :
  let r t := resolved_record "Other" (Int t) in
  category_entry [r 1; r 1; r 1; r 2] "Other" 120 =
    Ok {| total_complaints := 4; resolved := 4;
          avg_resolution_hours := Flt (lit 12 10); avg_resolution_days := lit 1 10 |} /\
  (d <- div_float_Z (lit 12 10) 24 ;; Ok (round1 d)) = Ok (S754_zero false).
Proof. vm_compute. split; reflexivity. Qed.

(** Float times are added from left to right, so their order counts. *)
Example float_times_in_two_orders :
  let r n := resolved_record "Other" (Flt (lit n 100)) in
  (e <- category_entry [r 371; r 152; r 62] "Other" 120 ;; Ok (avg_resolution_hours e)) =
    Ok (Flt (lit 20 10)) /\
  (e <- category_entry [r 62; r 152; r 371] "Other" 120 ;; Ok (avg_resolution_hours e)) =
    Ok (Flt (lit 19 10)).
Proof. vm_compute. split; reflexivity. Qed.

Lemma filter_filter_and {A : Type} (f g : A -> bool) (l : list A) :
  filter g (filter f l) = filter (fun a => f a && g a) l.
Proof.
  induction l as [ | a l IH]; [reflexivity | ].
  cbn [filter]. destruct (f a); cbn [filter andb]; [ | exact IH].
  destruct (g a); now rewrite IH.
Qed.

Lemma times_in_range_without (pre post : list complaint) (r : complaint) :
  times_in_range (pre ++ r :: post) -> times_in_range (pre ++ post).
Proof.
  intros [Hr Hd]. split.
  - apply Forall_app in Hr. destruct Hr as [H1 H2]. inversion H2; subst.
    apply Forall_app. split; assumption.
  - destruct Hd as [Hd | Hd]; [left | right].
    + apply Forall_app in Hd. destruct Hd as [H1 H2]. inversion H2; subst.
      apply Forall_app. split; assumption.
    + unfold len in *. rewrite length_app in *. cbn [List.length] in Hd. lia.
Qed.

Lemma counted_without (pre post : list complaint) (r : complaint) (category : string) :
  without_time r ->
  filter (fun c => has_status "Resolved" c && has_time c)
    (filter (has_category category) (pre ++ r :: post)) =
  filter (fun c => has_status "Resolved" c && has_time c)
    (filter (has_category category) (pre ++ post)).
Proof.
  intro Hw. rewrite !filter_app. cbn [filter].
  destruct (has_category category r); [ | reflexivity].
  cbn [filter]. rewrite (without_time_not_counted r Hw), andb_false_r. reflexivity.
Qed.

Lemma entry_spec_averages (history history' : list complaint) (category : string)
    (baseline : Z) (e e' : category_stats) :
  filter (fun c => has_status "Resolved" c && has_time c)
    (filter (has_category category) history) =
  filter (fun c => has_status "Resolved" c && has_time c)
    (filter (has_category category) history') ->
  entry_spec history category baseline e ->
  entry_spec history' category baseline e' ->
  resolved e' = resolved e /\
  avg_resolution_hours e' = avg_resolution_hours e /\
  avg_resolution_days e' = avg_resolution_days e.
Proof.
  unfold entry_spec. cbv zeta. intros E (_ & Hr & Ha) (_ & Hr' & Ha').
  rewrite <- E in Hr', Ha'. split; [congruence | ].
  destruct (filter _ (filter (has_category category) history)).
  - destruct Ha as (Hh & d & Hd & Hdays), Ha' as (Hh' & d' & Hd' & Hdays').
    rewrite Hd in Hd'. injection Hd' as <-. split; congruence.
  - destruct Ha as (total & mean & d & Hs & _ & Hm & Hh & Hd & Hdays).
    destruct Ha' as (total' & mean' & d' & Hs' & _ & Hm' & Hh' & Hd' & Hdays').
    rewrite Hs in Hs'. injection Hs' as <-.
    rewrite Hm in Hm'. injection Hm' as <-.
    rewrite Hd in Hd'. injection Hd' as <-. split; congruence.
Qed.

(** C10: the reported [resolved] count of a category is the number of its
    records of status "Resolved" whose resolution time is present and not
    zero, which can be fewer than its records of status "Resolved"; the
    hour average is taken over these records alone; and a record whose
    resolution time is missing, [None] or zero can be taken out of the
    history without any change to the resolved count or to the averages
    of any category. *)
Theorem resolved_needs_resolution_time (history : list complaint) :
  times_in_range history ->
  exists stats : dict category_stats,
    get_category_statistics history = Ok stats /\
    forall category baseline,
      In (category, baseline) category_avg_times ->
      exists e : category_stats,
        dict_lookup stats category = Some e /\
        let resolved_records :=
          filter (fun c => has_category category c && has_status "Resolved" c) history in
        let counted := filter has_time resolved_records in
        resolved e = len counted /\
        resolved e <= len resolved_records /\
        (counted = [] -> avg_resolution_hours e = Int baseline) /\
        (counted <> [] ->
         exists (total : number) (mean : float),
           sum_numbers (recorded_times counted) = Ok total /\
           div_number_Z total (len counted) = Ok mean /\
           avg_resolution_hours e = Flt (round1 mean)) /\
        forall (pre post : list complaint) (r : complaint),
          history = pre ++ r :: post -> without_time r ->
          exists (stats' : dict category_stats) (e' : category_stats),
            get_category_statistics (pre ++ post) = Ok stats' /\
            dict_lookup stats' category = Some e' /\
            resolved e' = resolved e /\
            avg_resolution_hours e' = avg_resolution_hours e /\
            avg_resolution_days e' = avg_resolution_days e.
Proof.
  intro Hr. destruct (statistics_spec history Hr) as [stats [Hs [_ He]]].
  exists stats. split; [exact Hs | ].
  intros category baseline Hin.
  destruct (He category baseline Hin) as [e [Hl Hspec]].
  exists e. split; [exact Hl | ]. cbv zeta.
  assert (Ec : filter has_time
                 (filter (fun c => has_category category c && has_status "Resolved" c)
                    history) =
               filter (fun c => has_status "Resolved" c && has_time c)
                 (filter (has_category category) history)).
  { rewrite !filter_filter_and. apply filter_ext. intro c.
    rewrite andb_assoc. reflexivity. }
  rewrite Ec. pose proof Hspec as (_ & Hres & Ha).
  split; [exact Hres | ]. split.
  - rewrite Hres, <- Ec. apply len_filter_le.
  - split; [ | split].
    + intro E. rewrite E in Ha. apply Ha.
    + intro Hne.
      destruct (filter _ (filter (has_category category) history)) as [ | c cs];
        [now contradiction Hne | ].
      destruct Ha as (total & mean & d & Hsum & _ & Hm & Hh & _).
      exists total, mean. repeat split; assumption.
    + intros pre post r -> Hw.
      destruct (statistics_spec (pre ++ post) (times_in_range_without pre post r Hr))
        as [stats' [Hs' [_ He']]].
      destruct (He' category baseline Hin) as [e' [Hl' Hspec']].
      exists stats', e'. split; [exact Hs' | ]. split; [exact Hl' | ].
      apply (entry_spec_averages (pre ++ r :: post) (pre ++ post) category baseline);
        [apply counted_without, Hw | exact Hspec | exact Hspec'].
Qed.

Lemma resolved_needs_resolution_time_witness :
  exists stats : dict category_stats,
    get_category_statistics sample_history = Ok stats /\
    forall category baseline,
      In (category, baseline) category_avg_times ->
      exists e : category_stats,
        dict_lookup stats category = Some e /\
        let resolved_records :=
          filter (fun c => has_category category c && has_status "Resolved" c)
            sample_history in
        let counted := filter has_time resolved_records in
        resolved e = len counted /\
        resolved e <= len resolved_records /\
        (counted = [] -> avg_resolution_hours e = Int baseline) /\
        (counted <> [] ->
         exists (total : number) (mean : float),
           sum_numbers (recorded_times counted) = Ok total /\
           div_number_Z total (len counted) = Ok mean /\
           avg_resolution_hours e = Flt (round1 mean)) /\
        forall (pre post : list complaint) (r : complaint),
          sample_history = pre ++ r :: post -> without_time r ->
          exists (stats' : dict category_stats) (e' : category_stats),
            get_category_statistics (pre ++ post) = Ok stats' /\
            dict_lookup stats' category = Some e' /\
            resolved e' = resolved e /\
            avg_resolution_hours e' = avg_resolution_hours e /\
            avg_resolution_days e' = avg_resolution_days e.
Proof.
  apply (resolved_needs_resolution_time sample_history).
  split; [ | right; vm_compute; reflexivity].
  unfold sample_history.
  repeat (constructor; [unfold time_in_range; cbn; first [exact I | lia] | ]).
  constructor.
Defined.

(** In the sample, four records of "IT Issues" have status "Resolved" and
    one of them is counted: the three without a time, with time 0 or with
    time 0.0 are left out. *)
Example resolved_without_time_left_out :
  len (filter (fun c => has_category "IT Issues" c && has_status "Resolved" c)
         sample_history) = 4 /\
  (stats <- get_category_statistics sample_history ;;
   Ok (option_map resolved (dict_lookup stats "IT Issues"))) = Ok (Some 1).
Proof. vm_compute. split; reflexivity. Qed.

End StatisticsFacts.

(** ** Facts on the categorizer *)

Section CategorizerFacts.

Import Categorizer.

Variable N : nltk.

Lemma count_matches_nonneg (stemmed_keywords tokens : list string) :
  0 <= count_matches stemmed_keywords tokens.
Proof.
  unfold count_matches.
  assert (H : forall a, 0 <= a ->
            0 <= fold_left (fun score token =>
                   if Text.mem token stemmed_keywords then score + 1 else score)
                   tokens a); [ | apply H; lia].
  induction tokens as [ | t tokens IH]; intros a Ha; [exact Ha | ].
  cbn [fold_left]. apply IH. destruct (Text.mem t stemmed_keywords); lia.
Qed.

Lemma scores_keys (tokens : list string) :
  keys (calculate_category_scores N tokens) = categories.
Proof. reflexivity. Qed.

Lemma scores_nonneg (tokens : list string) :
  Forall (fun v => 0 <= v) (values (calculate_category_scores N tokens)).
Proof.
  unfold values, calculate_category_scores. rewrite map_map.
  apply Forall_forall. intros v Hv. apply in_map_iff in Hv.
  destruct Hv as [[category keywords] [<- _]]. apply count_matches_nonneg.
Qed.

Lemma scores_length (tokens : list string) :
  List.length (calculate_category_scores N tokens) = 7%nat.
Proof. reflexivity. Qed.

(** [max] and [sum] of a list of integers *)

Lemma max_fold_spec (l : list Z) (x : Z) :
  let mx := fold_left (fun best y => if y >? best then y else best) l x in
  In mx (x :: l) /\ Forall (fun v => v <= mx) (x :: l).
Proof.
  revert x. induction l as [ | y l IH]; intro x; cbn [fold_left].
  - split; [left; reflexivity | constructor; [lia | constructor]].
  - destruct (Z.gtb_spec y x) as [Hgt | Hle].
    + destruct (IH y) as [Hin Hall]. inversion Hall as [ | ? ? Hy Hl]; subst. split.
      * right. exact Hin.
      * constructor; [lia | exact Hall].
    + destruct (IH x) as [Hin Hall]. inversion Hall as [ | ? ? Hx Hl]; subst. split.
      * destruct Hin as [Hin | Hin]; [left; exact Hin | right; right; exact Hin].
      * constructor; [exact Hx | constructor; [lia | exact Hl]].
Qed.

Lemma max_list_spec (l : list Z) :
  l <> [] ->
  exists mx : Z, max_list l = Ok mx /\ In mx l /\ Forall (fun v => v <= mx) l.
Proof.
  destruct l as [ | x l]; [intro H; now contradiction H | intros _].
  eexists. split; [reflexivity | ]. apply max_fold_spec.
Qed.

Lemma fold_add_shift (l : list Z) (a : Z) : fold_left Z.add l a = a + sum_Z l.
Proof.
  unfold sum_Z. revert a. induction l as [ | x l IH]; intro a; cbn [fold_left].
  - lia.
  - rewrite (IH (a + x)), (IH (0 + x)). lia.
Qed.

Lemma sum_Z_cons (x : Z) (l : list Z) : sum_Z (x :: l) = x + sum_Z l.
Proof. unfold sum_Z at 1. cbn [fold_left]. rewrite fold_add_shift. lia. Qed.

Lemma sum_Z_nonneg (l : list Z) : Forall (fun v => 0 <= v) l -> 0 <= sum_Z l.
Proof.
  induction 1 as [ | x l Hx _ IH]; [reflexivity | ]. rewrite sum_Z_cons. lia.
Qed.

Lemma sum_Z_ge_member (l : list Z) (x : Z) :
  Forall (fun v => 0 <= v) l -> In x l -> x <= sum_Z l.
Proof.
  induction 1 as [ | y l Hy Hl IH]; intros Hin; [contradiction | ].
  rewrite sum_Z_cons. pose proof (sum_Z_nonneg l Hl).
  destruct Hin as [-> | Hin]; [lia | ]. specialize (IH Hin). lia.
Qed.

Lemma sum_Z_perm (l l' : list Z) : Permutation l l' -> sum_Z l = sum_Z l'.
Proof.
  induction 1 as [ | x l l' _ IH | x y l | l l' l'' _ IH1 _ IH2];
    rewrite ?sum_Z_cons; lia.
Qed.

Lemma sum_Z_firstn (n : nat) (l : list Z) :
  Forall (fun v => 0 <= v) l -> sum_Z (firstn n l) <= sum_Z l.
Proof.
  intro H. revert n. induction H as [ | x l Hx Hl IH]; intro n.
  - rewrite firstn_nil. lia.
  - destruct n as [ | n]; cbn [firstn].
    + rewrite sum_Z_cons. pose proof (sum_Z_nonneg l Hl). cbn. lia.
    + rewrite !sum_Z_cons. specialize (IH n). lia.
Qed.

(** [max(d, key=d.get)] is the first key that carries the greatest value. *)

Lemma argmax_from_spec (d : dict Z) :
  forall (pre : dict Z) (best : string) (bv : Z) (mid : dict Z),
    Forall (fun kv => snd kv < bv) pre ->
    Forall (fun kv => snd kv <= bv) mid ->
    exists (pre' : dict Z) (v' : Z) (post' : dict Z),
      pre ++ (best, bv) :: mid ++ d = pre' ++ (argmax_from best bv d, v') :: post' /\
      Forall (fun kv => snd kv < v') pre' /\
      Forall (fun kv => snd kv <= v') post'.
Proof.
  induction d as [ | [k v] d IH]; intros pre best bv mid Hpre Hmid.
  - exists pre, bv, mid. rewrite app_nil_r. auto.
  - cbn [argmax_from]. destruct (Z.gtb_spec v bv) as [Hgt | Hle].
    + destruct (IH (pre ++ (best, bv) :: mid) k v []) as [pre' [v' [post' [E H]]]].
      * apply Forall_app. split.
        -- eapply Forall_impl; [ | exact Hpre]. cbn. intros; lia.
        -- constructor; [cbn; lia | ].
           eapply Forall_impl; [ | exact Hmid]. cbn. intros; lia.
      * constructor.
      * exists pre', v', post'. split; [ | exact H].
        rewrite <- E. cbn [app]. rewrite <- app_assoc. reflexivity.
    + destruct (IH pre best bv (mid ++ [(k, v)])) as [pre' [v' [post' [E H]]]].
      * exact Hpre.
      * apply Forall_app. split; [exact Hmid | constructor; [cbn; lia | constructor]].
      * exists pre', v', post'. split; [ | exact H].
        rewrite <- E. rewrite <- app_assoc. reflexivity.
Qed.

Lemma argmax_spec (d : dict Z) :
  d <> [] ->
  exists (best : string) (pre : dict Z) (v : Z) (post : dict Z),
    argmax d = Ok best /\
    d = pre ++ (best, v) :: post /\
    Forall (fun kv => snd kv < v) pre /\
    Forall (fun kv => snd kv <= v) post.
Proof.
  destruct d as [ | [k v] d]; [intro H; now contradiction H | intros _].
  destruct (argmax_from_spec d [] k v [] ltac:(constructor) ltac:(constructor))
    as [pre [v' [post [E H]]]].
  exists (argmax_from k v d), pre, v', post. split; [reflexivity | ].
  split; [exact E | exact H].
Qed.

Lemma confidence_range (mx total : Z) :
  0 < mx <= total ->
  exists c : float,
    truediv_Z mx total = Ok c /\
    leb f0_0 (if ltb f0_99 c then f0_99 else c) = true /\
    leb (if ltb f0_99 c then f0_99 else c) f0_99 = true.
Proof.
  intro H.
  assert (Hd : Zdigits2 mx <= Zdigits2 total) by (apply Zdigits2_mono; lia).
  destruct (truediv_Z_bounded mx total 1 ltac:(lia) ltac:(lia) ltac:(lia) ltac:(lia))
    as [c [Hc [_ [H0 | Hb]]]]; [lia | ].
  replace (mx <? 0) with false in Hb by (symmetry; apply Z.ltb_ge; lia).
  replace (total <? 0) with false in Hb by (symmetry; apply Z.ltb_ge; lia).
  cbn [xorb] in Hb. pose proof (bounded_by_nonneg _ _ Hb) as Hn.
  exists c. split; [exact Hc | ].
  destruct (ltb f0_99 c) eqn:E.
  - split; reflexivity.
  - split; [exact Hn | ].
    apply leb_of_not_ltb; [apply nonneg_not_nan; exact Hn | reflexivity | exact E].
Qed.

Lemma values_app {V : Type} (d1 d2 : dict V) : values (d1 ++ d2) = values d1 ++ values d2.
Proof. apply map_app. Qed.

(** The two ways out of the inference of [categorize]. *)
Lemma categorize_text_cases (text : string) :
  let scores := calculate_category_scores N (preprocess_text N text) in
  (Forall (fun kv => snd kv = 0) scores /\
   categorize_text N text = Ok ("Other"%string, f0_5)) \/
  (exists (best : string) (pre : dict Z) (v : Z) (post : dict Z) (c : float),
     0 < v /\
     scores = pre ++ (best, v) :: post /\
     Forall (fun kv => snd kv < v) pre /\
     Forall (fun kv => snd kv <= v) post /\
     truediv_Z v (sum_Z (values scores)) = Ok c /\
     categorize_text N text = Ok (best, if ltb f0_99 c then f0_99 else c) /\
     leb f0_0 (if ltb f0_99 c then f0_99 else c) = true /\
     leb (if ltb f0_99 c then f0_99 else c) f0_99 = true).
Proof.
  cbv zeta. unfold categorize_text.
  set (scores := calculate_category_scores N (preprocess_text N text)).
  pose proof (scores_nonneg (preprocess_text N text)) as Hnn. fold scores in Hnn.
  assert (Hne : scores <> []) by (intro E; apply (f_equal (@List.length _)) in E; discriminate E).
  assert (Hvne : values scores <> []).
  { intro E. apply Hne. destruct scores; [reflexivity | discriminate E]. }
  destruct (max_list_spec (values scores) Hvne) as [mx [Hmx [Hin Hall]]].
  rewrite Hmx. cbn [bind].
  destruct (Z.eqb_spec mx 0) as [-> | Hmx0].
  - left. split; [ | reflexivity].
    apply Forall_forall. intros kv Hkv.
    rewrite Forall_forall in Hnn, Hall.
    assert (Hv : In (snd kv) (values scores)) by (apply in_map; exact Hkv).
    specialize (Hnn _ Hv). specialize (Hall _ Hv). cbn in Hnn. lia.
  - right.
    destruct (argmax_spec scores Hne) as [best [pre [v [post [Ha [Es [Hpre Hpost]]]]]]].
    assert (Hv : v = mx).
    { rewrite Forall_forall in Hall.
      assert (Hvin : In v (values scores)).
      { rewrite Es, values_app. apply in_or_app. right. left. reflexivity. }
      assert (Hle : mx <= v).
      { rewrite Es, values_app in Hin. apply in_app_or in Hin.
        destruct Hin as [Hin | [Hin | Hin]].
        - apply in_map_iff in Hin. destruct Hin as [kv [<- Hkv]].
          rewrite Forall_forall in Hpre. specialize (Hpre _ Hkv). lia.
        - cbn in Hin. lia.
        - apply in_map_iff in Hin. destruct Hin as [kv [<- Hkv]].
          rewrite Forall_forall in Hpost. apply (Hpost _ Hkv). }
      specialize (Hall _ Hvin). cbn in Hall. lia. }
    subst v.
    assert (Hpos : 0 < mx).
    { rewrite Forall_forall in Hnn. specialize (Hnn _ Hin). cbn in Hnn. lia. }
    pose proof (sum_Z_ge_member _ _ Hnn Hin) as Hsum.
    destruct (confidence_range mx (sum_Z (values scores)) ltac:(lia)) as [c [Hc [H0 H1]]].
    exists best, pre, mx, post, c.
    rewrite Ha. cbn [bind].
    replace (sum_Z (values scores) >? 0) with true by (symmetry; apply Z.gtb_lt; lia).
    rewrite Hc. cbn [bind]. repeat split; assumption.
Qed.

Lemma not_in_categories (c : string) :
  ~ In c categories -> dict_mem category_keywords c = false.
Proof.
  intro H. unfold dict_mem, category_keywords, dict_lookup.
  repeat match goal with
  | |- context [String.eqb c ?k] =>
      destruct (String.eqb_spec c k) as [-> | _];
      [exfalso; apply H; cbn; tauto | ]
  end.
  reflexivity.
Qed.

Lemma in_categories (c : string) :
  In c categories -> valid_manual_category (Some c) = true.
Proof.
  cbn. intro H.
  repeat (destruct H as [<- | H]; [reflexivity | ]). contradiction.
Qed.

(** C3: [categorize] returns for every text and every manual category; the
    confidence lies in [0, 0.99]; a manual category of the fixed set is
    returned as it is with confidence 0.95, whatever the text and
    whatever NLTK does with it. *)
Theorem categorize_confidence (text : string) (manual_category : option string) :
  exists (category : string) (confidence : float),
    categorize N text manual_category = Ok (category, confidence) /\
    leb f0_0 confidence = true /\
    leb confidence f0_99 = true /\
    forall c : string,
      manual_category = Some c -> In c categories ->
      category = c /\ confidence = f0_95.
Proof.
  assert (Ht : exists (category : string) (confidence : float),
             categorize_text N text = Ok (category, confidence) /\
             leb f0_0 confidence = true /\ leb confidence f0_99 = true).
  { destruct (categorize_text_cases text) as [[_ H] | H].
    - exists "Other"%string, f0_5. repeat split. exact H.
    - destruct H as (best & pre & v & post & c & _ & _ & _ & _ & _ & H & H0 & H1).
      eexists. eexists. split; [exact H | split; assumption]. }
  unfold categorize. destruct manual_category as [m | ].
  - destruct (valid_manual_category (Some m)) eqn:E.
    + exists m, f0_95. repeat split. now injection H as ->.
    + destruct Ht as [category [confidence [H [H0 H1]]]].
      exists category, confidence. repeat split; try assumption;
        injection H2 as ->; rewrite (in_categories _ H3) in E; discriminate E.
  - destruct Ht as [category [confidence [H [H0 H1]]]].
    exists category, confidence. repeat split; try assumption; discriminate.
Qed.

Lemma categorize_zero_scores (text : string) :
  Forall (fun kv => snd kv = 0) (calculate_category_scores N (preprocess_text N text)) ->
  categorize N text None = Ok ("Other"%string, f0_5).
Proof.
  intro Hz. cbn [categorize].
  destruct (categorize_text_cases text) as [[_ H] | H]; [exact H | ].
  destruct H as (best & pre & v & post & c & Hv & Es & _).
  rewrite Es in Hz. apply Forall_app in Hz. destruct Hz as [_ Hz].
  inversion Hz as [ | ? ? H0 _]; subst. cbn in H0. lia.
Qed.

(** C4: a text none of whose tokens matches a keyword of any category is
    put in "Other" with confidence 0.5. *)
Theorem no_match_is_other (text : string) :
  Forall (fun kv => snd kv = 0) (calculate_category_scores N (preprocess_text N text)) ->
  categorize N text None = Ok ("Other"%string, f0_5).
Proof. exact (categorize_zero_scores text). Qed.

(** So is a text that leaves no token, the empty text among them. *)
Lemma no_tokens_is_other (text : string) :
  preprocess_text N text = [] ->
  categorize N text None = Ok ("Other"%string, f0_5).
Proof.
  intro H. apply categorize_zero_scores. rewrite H.
  unfold calculate_category_scores, category_keywords. cbn [map count_matches fold_left].
  repeat (constructor; [reflexivity | ]). constructor.
Qed.

Lemma empty_text_is_other :
  word_tokenize N "" = None \/ word_tokenize N "" = Some [] ->
  categorize N "" None = Ok ("Other"%string, f0_5).
Proof.
  intro H. apply no_tokens_is_other. unfold preprocess_text.
  cbn [Text.lower Text.strip_special Text.map_string].
  destruct H as [-> | ->]; reflexivity.
Qed.

(** C5: with at least one match, the category returned is the first, in
    the order of declaration, among those of the greatest count. *)
Theorem best_category_first_maximal (text : string) :
  let scores := calculate_category_scores N (preprocess_text N text) in
  Exists (fun kv => 0 < snd kv) scores ->
  exists (best : string) (confidence : float) (pre : dict Z) (v : Z) (post : dict Z),
    categorize N text None = Ok (best, confidence) /\
    keys scores = categories /\
    scores = pre ++ (best, v) :: post /\
    Forall (fun kv => snd kv < v) pre /\
    Forall (fun kv => snd kv <= v) post.
Proof.
  cbv zeta. intro Hex. cbn [categorize].
  destruct (categorize_text_cases text) as [[Hz _] | H].
  - exfalso. apply Exists_exists in Hex. destruct Hex as [kv [Hin Hpos]].
    rewrite Forall_forall in Hz. specialize (Hz _ Hin). cbn in Hz. lia.
  - destruct H as (best & pre & v & post & c & Hv & Es & Hpre & Hpost & _ & H & _).
    exists best. eexists. exists pre, v, post.
    split; [exact H | ]. split; [apply scores_keys | ].
    split; [exact Es | split; assumption].
Qed.

(** The stable sort by decreasing score *)

Lemma insert_desc_perm (x : string * Z) (l : dict Z) :
  Permutation (insert_desc x l) (x :: l).
Proof.
  induction l as [ | y l IH]; cbn [insert_desc]; [apply Permutation_refl | ].
  destruct (snd y >? snd x); [ | apply Permutation_refl].
  eapply Permutation_trans; [apply perm_skip, IH | apply perm_swap].
Qed.

Lemma sorted_desc_perm (d : dict Z) : Permutation (sorted_desc d) d.
Proof.
  induction d as [ | x d IH]; cbn [sorted_desc fold_right]; [constructor | ].
  eapply Permutation_trans; [apply insert_desc_perm | apply perm_skip, IH].
Qed.

Lemma insert_desc_sorted (x : string * Z) (l : dict Z) :
  StronglySorted score_ge l -> StronglySorted score_ge (insert_desc x l).
Proof.
  induction 1 as [ | y l Hs IH Hy]; cbn [insert_desc].
  - constructor; constructor.
  - destruct (Z.gtb_spec (snd y) (snd x)) as [Hgt | Hle].
    + constructor; [exact IH | ].
      eapply Permutation_Forall; [apply Permutation_sym, insert_desc_perm | ].
      constructor; [unfold score_ge; lia | exact Hy].
    + constructor; [constructor; assumption | ].
      constructor; [unfold score_ge; lia | ].
      eapply Forall_impl; [ | exact Hy]. unfold score_ge. intros; lia.
Qed.

Lemma sorted_desc_sorted (d : dict Z) : StronglySorted score_ge (sorted_desc d).
Proof.
  induction d as [ | x d IH]; cbn [sorted_desc fold_right]; [constructor | ].
  apply insert_desc_sorted, IH.
Qed.

Lemma insert_desc_stable (v : Z) (x : string * Z) (l : dict Z) :
  filter (fun kv => snd kv =? v) (insert_desc x l) =
  filter (fun kv => snd kv =? v) (x :: l).
Proof.
  induction l as [ | y l IH]; cbn [insert_desc]; [reflexivity | ].
  destruct (Z.gtb_spec (snd y) (snd x)) as [Hgt | Hle]; [ | reflexivity].
  cbn [filter] in *. rewrite IH.
  destruct (Z.eqb_spec (snd y) v), (Z.eqb_spec (snd x) v); try reflexivity. lia.
Qed.

Lemma sorted_desc_stable (v : Z) (d : dict Z) :
  filter (fun kv => snd kv =? v) (sorted_desc d) = filter (fun kv => snd kv =? v) d.
Proof.
  induction d as [ | x d IH]; cbn [sorted_desc fold_right]; [reflexivity | ].
  rewrite insert_desc_stable. cbn [filter]. fold (sorted_desc d). now rewrite IH.
Qed.

Lemma slice_to_length {A : Type} (n : Z) (l : list A) :
  len (slice_to n l) = if n <? 0 then Z.max (len l + n) 0 else Z.min n (len l).
Proof.
  unfold slice_to, len. destruct (n <? 0) eqn:E; rewrite length_firstn; lia.
Qed.

Lemma firstn_member {A : Type} (n : nat) (l : list A) (a : A) :
  In a (firstn n l) -> In a l.
Proof.
  revert l. induction n as [ | n IH]; intros [ | x l]; cbn [firstn]; try (intros []).
  - left; assumption.
  - right. apply IH. assumption.
Qed.

Lemma slice_to_incl {A : Type} (n : Z) (l : list A) (a : A) :
  In a (slice_to n l) -> In a l.
Proof. unfold slice_to. destruct (n <? 0); apply firstn_member. Qed.

Lemma for_each_Forall2 {A B : Type} (f : A -> outcome B) (P : A -> B -> Prop)
    (l : list A) :
  (forall a, In a l -> exists b, f a = Ok b /\ P a b) ->
  exists bs : list B, for_each f l = Ok bs /\ Forall2 P l bs.
Proof.
  induction l as [ | a l IH]; intro H.
  - exists []. split; [reflexivity | constructor].
  - destruct (H a (or_introl eq_refl)) as [b [Hb HP]].
    destruct (IH (fun a' Hin => H a' (or_intror Hin))) as [bs [Hbs HF]].
    exists (b :: bs). cbn [for_each]. rewrite Hb. cbn [bind]. rewrite Hbs. cbn [bind].
    split; [reflexivity | constructor; assumption].
Qed.

Lemma Forall2_len {A B : Type} (P : A -> B -> Prop) (l : list A) (l' : list B) :
  Forall2 P l l' -> len l' = len l.
Proof. intro H. unfold len. now rewrite (Forall2_length H). Qed.

Lemma ratio_returns (s total : Z) :
  0 <= s <= total -> 0 < total -> truediv_Z s total = Ok (div_Z s total).
Proof.
  intros Hs Ht.
  assert (Hd : Zdigits2 s <= Zdigits2 total) by (apply Zdigits2_mono; lia).
  destruct (truediv_Z_bounded s total 1 ltac:(lia) ltac:(lia) ltac:(lia) ltac:(lia))
    as [c [Hc [-> _]]].
  exact Hc.
Qed.

(** C6, as the code has it: the suggestions are the first [top_n] entries
    (for a negative [top_n], all but the last [- top_n]) of the scores in
    a stable order of decreasing count; each confidence is the float
    nearest to the count divided by the total over the seven categories,
    and 0.0 when the total is 0; the counts of the entries returned add up
    to the total at most. *)
Theorem suggestions_ranked (text : string) (top_n : Z) :
  let scores := calculate_category_scores N (preprocess_text N text) in
  let total := sum_Z (values scores) in
  exists (ranked : dict Z) (result : list (string * float)),
    get_category_suggestions N text top_n = Ok result /\
    keys scores = categories /\
    Permutation ranked scores /\
    StronglySorted score_ge ranked /\
    (forall v, filter (fun kv => snd kv =? v) ranked =
               filter (fun kv => snd kv =? v) scores) /\
    Forall2 (fun kv r =>
               fst r = fst kv /\
               snd r = if total >? 0 then div_Z (snd kv) total else f0_0)
      (slice_to top_n ranked) result /\
    len result = (if top_n <? 0 then Z.max (7 + top_n) 0 else Z.min top_n 7) /\
    sum_Z (values (slice_to top_n ranked)) <= total.
Proof.
  cbv zeta. unfold get_category_suggestions.
  set (scores := calculate_category_scores N (preprocess_text N text)).
  set (total := sum_Z (values scores)).
  pose proof (scores_nonneg (preprocess_text N text)) as Hnn. fold scores in Hnn.
  pose proof (sorted_desc_perm scores) as Hperm.
  assert (Hnn' : Forall (fun v => 0 <= v) (values (sorted_desc scores))).
  { eapply Permutation_Forall; [ | exact Hnn].
    apply Permutation_map, Permutation_sym, Hperm. }
  assert (Htot : sum_Z (values (sorted_desc scores)) = total).
  { apply sum_Z_perm, Permutation_map, Hperm. }
  destruct (for_each_Forall2
              (fun '(category, score) =>
                 confidence <-
                   (if total >? 0 then truediv_Z score total else Ok f0_0) ;;
                 Ok (category, confidence))
              (fun kv r =>
                 fst r = fst kv /\
                 snd r = if total >? 0 then div_Z (snd kv) total else f0_0)
              (slice_to top_n (sorted_desc scores))) as [result [Hres HF]].
  { intros [category score] Hin. apply slice_to_incl in Hin.
    assert (Hv : In score (values (sorted_desc scores)))
      by (change score with (snd (category, score)); now apply in_map).
    destruct (Z.gtb_spec total 0) as [Hpos | Hle].
    - rewrite ratio_returns; [ | | exact Hpos].
      + eexists. split; [reflexivity | split; reflexivity].
      + split.
        * rewrite Forall_forall in Hnn'. apply (Hnn' _ Hv).
        * rewrite <- Htot. apply sum_Z_ge_member; assumption.
    - eexists. split; [reflexivity | split; reflexivity]. }
  exists (sorted_desc scores), result.
  split; [exact Hres | ]. split; [apply scores_keys | ].
  split; [exact Hperm | ]. split; [apply sorted_desc_sorted | ].
  split; [intro v; apply sorted_desc_stable | ]. split; [exact HF | ]. split.
  - rewrite (Forall2_len _ _ _ HF), slice_to_length.
    replace (len (sorted_desc scores)) with 7; [reflexivity | ].
    unfold len. rewrite (Permutation_length Hperm). reflexivity.
  - rewrite <- Htot. unfold slice_to, values.
    destruct (top_n <? 0); rewrite <- firstn_map; apply sum_Z_firstn; exact Hnn'.
Qed.

End CategorizerFacts.

Section CategorizerExamples.

Import Categorizer.

Lemma no_match_is_other_witness :
  categorize bare_nltk "" None = Ok ("Other"%string, f0_5).
Proof.
  apply (no_match_is_other bare_nltk ""). vm_compute.
  repeat (constructor; [reflexivity | ]). constructor.
Defined.

Lemma best_category_first_maximal_witness :
  exists (best : string) (confidence : float) (pre : dict Z) (v : Z) (post : dict Z),
    categorize bare_nltk "The wifi in my hostel room is very slow" None =
      Ok (best, confidence) /\
    keys (calculate_category_scores bare_nltk
            (preprocess_text bare_nltk "The wifi in my hostel room is very slow")) =
      categories /\
    calculate_category_scores bare_nltk
      (preprocess_text bare_nltk "The wifi in my hostel room is very slow") =
      pre ++ (best, v) :: post /\
    Forall (fun kv => snd kv < v) pre /\
    Forall (fun kv => snd kv <= v) post.
Proof.
  apply (best_category_first_maximal bare_nltk "The wifi in my hostel room is very slow").
  vm_compute. left. reflexivity.
Defined.

Example wifi_hostel_tie :
  calculate_category_scores bare_nltk
    (preprocess_text bare_nltk "The wifi in my hostel room is very slow") =
  [("IT Issues", 2); ("Hostel Management", 2); ("Academics", 0);
   ("Administration", 0); ("Library", 0); ("Sports & Recreation", 0);
   ("Other", 0)]%string /\
  categorize bare_nltk "The wifi in my hostel room is very slow" None =
  Ok ("IT Issues"%string, f0_5).
Proof. vm_compute. split; reflexivity. Qed.

Example manual_library :
  categorize bare_nltk "The wifi is slow" (Some "Library"%string) =
  Ok ("Library"%string, f0_95).
Proof. vm_compute. reflexivity. Qed.

Example suggestions_library_gym :
  get_category_suggestions bare_nltk "gym book book" 3 =
  Ok [("Library"%string, lit 2 3); ("Sports & Recreation"%string, lit 1 3);
      ("IT Issues"%string, f0_0)].
Proof. vm_compute. reflexivity. Qed.

(** C6 as stated fails twice: a negative [top_n] returns more than
    [top_n] pairs; and the confidences 4/13, 3/13, 3/13, 3/13, as floats,
    add up to more than 1.0, both exactly (by [2 * 2 ^ (-55)]) and when
    added as floats from left to right. *)
Lemma suggestions_beyond_claim :
  (exists result : list (string * float),
     get_category_suggestions bare_nltk "" (-1) = Ok result /\
     len result = 6 /\ ~ len result <= -1) /\
  (exists result : list (string * float),
     get_category_suggestions bare_nltk
       "wifi wifi wifi wifi exam exam exam hostel hostel hostel book book book" 4 =
       Ok result /\
     map fst result = ["IT Issues"; "Hostel Management"; "Academics"; "Library"]%string /\
     map snd result = [lit 4 13; lit 3 13; lit 3 13; lit 3 13] /\
     sum_Z (map (scaled 55) (map snd result)) = scaled 55 f1_0 + 2 /\
     sum_float (map snd result) = S754_finite false 4503599627370497 (-52) /\
     ltb f1_0 (sum_float (map snd result)) = true).
Proof.
  split.
  - eexists. split; [vm_compute; reflexivity | ]. split; [reflexivity | ].
    cbn. lia.
  - eexists. split; [vm_compute; reflexivity | ]. repeat split.
Qed.

End CategorizerExamples.

(** ** Facts on the sentiment analyzer *)

Section SentimentFacts.

Import Sentiment.

Variable T : textblob.

Lemma map_string_length (f : ascii -> ascii) (s : string) :
  String.length (Text.map_string f s) = String.length s.
Proof. induction s as [ | c s IH]; cbn; congruence. Qed.

Lemma lower_length (s : string) : String.length (Text.lower s) = String.length s.
Proof. apply map_string_length. Qed.

Lemma count_whole_word_le (kw : string) (s : string) :
  forall (prev : bool) (skip : nat),
    (Text.count_whole_word kw prev skip s <= String.length s)%nat.
Proof.
  induction s as [ | c s IH]; intros prev skip; [apply Nat.le_refl | ].
  cbn [Text.count_whole_word String.length].
  destruct skip as [ | k].
  - match goal with |- context [if ?b then _ else _] => destruct b end.
    + apply le_n_S, IH.
    + apply Nat.le_trans with (String.length s); [apply IH | apply Nat.le_succ_diag_r].
  - apply Nat.le_trans with (String.length s); [apply IH | apply Nat.le_succ_diag_r].
Qed.

Lemma fold_count_bound (text : string) (kws : list string) (a : Z) :
  let r := fold_left
             (fun count keyword =>
                count + Z.of_nat (Text.count_whole_word keyword false 0 text))
             kws a in
  a <= r <= a + len kws * Z.of_nat (String.length text).
Proof.
  cbv zeta. revert a. induction kws as [ | kw kws IH]; intro a; cbn [fold_left].
  - unfold len. cbn. lia.
  - specialize (IH (a + Z.of_nat (Text.count_whole_word kw false 0 text))).
    pose proof (count_whole_word_le kw text false 0) as Hc.
    unfold len in *. cbn [List.length]. rewrite Nat2Z.inj_succ. nia.
Qed.

Lemma urgent_count_bound (text : string) :
  0 <= detect_urgent_keywords text <= 22 * Z.of_nat (String.length text).
Proof.
  unfold detect_urgent_keywords.
  pose proof (fold_count_bound (Text.lower text) urgent_keywords 0) as H.
  cbv zeta in H. rewrite lower_length in H.
  change (len urgent_keywords) with 22 in H. lia.
Qed.

Lemma urgent_count_float (text : string) :
  Z.of_nat (String.length text) < 2 ^ 1000 ->
  exists count : float,
    of_Z (detect_urgent_keywords text) = Ok count /\ leb f0_0 count = true.
Proof.
  intro Hlen. pose proof (urgent_count_bound text) as Hc.
  assert (Hd : Zdigits2 (detect_urgent_keywords text) <= 1005).
  { apply Zdigits2_le; lia. }
  destruct (of_Z_bounded _ 1005 Hd ltac:(lia)) as [x [Hx Hb]].
  replace (detect_urgent_keywords text <? 0) with false in Hb
    by (symmetry; apply Z.ltb_ge; lia).
  exists x. split; [exact Hx | ]. eapply bounded_by_nonneg. exact Hb.
Qed.

Lemma ltb_leb (x y : float) : ltb x y = true -> leb x y = true.
Proof.
  unfold ltb, leb, SFltb, SFleb. destruct (SFcompare x y) as [[ | | ] | ]; congruence.
Qed.

Lemma min_float_nonneg (x y : float) :
  leb f0_0 x = true -> leb f0_0 y = true -> leb f0_0 (min_float x y) = true.
Proof. intros Hx Hy. unfold min_float. destruct (ltb y x); assumption. Qed.

Lemma min_float_le_one (x : float) :
  leb f0_0 x = true -> leb (min_float x f1_0) f1_0 = true.
Proof.
  intro Hx. unfold min_float. destruct (ltb f1_0 x) eqn:E; [reflexivity | ].
  apply leb_of_not_ltb; [apply nonneg_not_nan; exact Hx | reflexivity | exact E].
Qed.

Lemma leb_finite_pos_conv (m1 m2 : positive) (e1 e2 : Z) :
  e1 < e2 \/ (e1 = e2 /\ Zpos m1 <= Zpos m2) ->
  leb (S754_finite false m1 e1) (S754_finite false m2 e2) = true.
Proof.
  unfold leb, SFleb, SFcompare. intro H.
  destruct (Z.compare_spec e1 e2) as [E | E | E]; [ | reflexivity | lia].
  change (PosDef.Pos.compare_cont Eq m1 m2) with (m1 ?= m2)%positive.
  destruct (Pos.compare_spec m1 m2); [reflexivity | reflexivity | lia].
Qed.

Lemma leb_0_6_then_0_3 (u : float) : leb f0_6 u = true -> leb f0_3 u = true.
Proof.
  unfold f0_6, f0_3. intro H. pose proof (leb_finite_inv _ _ _ H) as Hs.
  destruct u as [s | [ | ] | | [ | ] m e]; try contradiction; [reflexivity | ].
  apply leb_finite_pos in H. apply leb_finite_pos_conv. lia.
Qed.

Create HintDb nonneg.

#[local] Hint Resolve add_nonneg mul_nonneg_finite min_float_nonneg ltb_leb : nonneg.

Lemma subjectivity_nonneg (text : string) :
  in_range T -> leb f0_0 (snd (analyze_sentiment T text)) = true.
Proof.
  intro HT. unfold analyze_sentiment.
  destruct (sentiment T text) as [[p s] | ] eqn:E; [ | reflexivity].
  cbn [snd]. apply (HT text p s E).
Qed.

Lemma urgency_spec (text : string) :
  in_range T -> Z.of_nat (String.length text) < 2 ^ 1000 ->
  let p := fst (analyze_sentiment T text) in
  let s := snd (analyze_sentiment T text) in
  exists count u : float,
    of_Z (detect_urgent_keywords text) = Ok count /\
    calculate_urgency_score T text = Ok u /\
    u = min_float
          (add (add (if ltb f0_0 (neg p) then neg p else f0_0)
                    (min_float (mul count f0_15) f0_5))
               (mul s f0_2))
          f1_0 /\
    leb f0_0 u = true /\ leb u f1_0 = true.
Proof.
  intros HT Hlen. cbv zeta.
  pose proof (subjectivity_nonneg text HT) as Hs.
  destruct (urgent_count_float text Hlen) as [count [Hcount Hcn]].
  exists count. unfold calculate_urgency_score.
  destruct (analyze_sentiment T text) as [p s]. cbn [fst snd] in *.
  rewrite Hcount. cbn [bind].
  assert (Hkb : leb f0_0 (min_float (mul count f0_15) f0_5) = true)
    by (unfold f0_15; auto with nonneg).
  assert (Hsf : leb f0_0 (mul s f0_2) = true)
    by (unfold f0_2; auto with nonneg).
  assert (Hsu : leb f0_0 (if ltb f0_0 (neg p) then neg p else f0_0) = true)
    by (destruct (ltb f0_0 (neg p)) eqn:E; auto with nonneg).
  assert (Hsum : leb f0_0
                   (add (add (if ltb f0_0 (neg p) then neg p else f0_0)
                             (min_float (mul count f0_15) f0_5))
                        (mul s f0_2)) = true)
    by auto with nonneg.
  eexists. split; [reflexivity | ]. split; [ | split; [reflexivity | ]].
  - unfold max_0. destruct (ltb f0_0 (neg p)); reflexivity.
  - split.
    + apply min_float_nonneg; [exact Hsum | reflexivity].
    + apply min_float_le_one. exact Hsum.
Qed.

(** C2: with the scores of TextBlob in their ranges, and for a text short
    enough for its keyword count to be a float, the urgency score is
    [min(max(0, -polarity) + min(urgent_count * 0.15, 0.5) +
    subjectivity * 0.2, 1.0)] in float arithmetic and lies in [0, 1];
    without a valid manual priority, the priority is "High" exactly when
    the urgency is at least 0.6, "Medium" exactly when it is at least 0.3
    and below 0.6, and "Low" exactly when it is below 0.3. *)
Theorem urgency_and_priority (text : string) (manual_priority : option string) :
  in_range T -> Z.of_nat (String.length text) < 2 ^ 1000 ->
  valid_manual_priority manual_priority = false ->
  let p := fst (analyze_sentiment T text) in
  let s := snd (analyze_sentiment T text) in
  exists (count u : float) (pr : string),
    of_Z (detect_urgent_keywords text) = Ok count /\
    calculate_urgency_score T text = Ok u /\
    u = min_float
          (add (add (if ltb f0_0 (neg p) then neg p else f0_0)
                    (min_float (mul count f0_15) f0_5))
               (mul s f0_2))
          f1_0 /\
    leb f0_0 u = true /\ leb u f1_0 = true /\
    determine_priority T text manual_priority = Ok pr /\
    (pr = "High"%string <-> leb f0_6 u = true) /\
    (pr = "Medium"%string <-> leb f0_3 u = true /\ ltb u f0_6 = true) /\
    (pr = "Low"%string <-> ltb u f0_3 = true).
Proof.
  intros HT Hlen Hman. cbv zeta.
  destruct (urgency_spec text HT Hlen) as (count & u & Hc & Hu & Hf & H0 & H1).
  cbv zeta in Hf.
  assert (Hd : determine_priority T text manual_priority = priority_of_text T text).
  { unfold determine_priority. destruct manual_priority as [m | ]; [ | reflexivity].
    now rewrite Hman. }
  pose proof (nonneg_not_nan u H0) as Hnan.
  exists count, u.
  unfold priority_of_text in Hd. rewrite Hu in Hd. cbn [bind] in Hd.
  destruct (leb f0_6 u) eqn:E6; [ | destruct (leb f0_3 u) eqn:E3].
  - exists "High"%string. repeat split; try assumption; try discriminate.
    + intros [_ H]. apply leb_not_ltb in E6. congruence.
    + intro H. apply ltb_not_leb in H. apply leb_0_6_then_0_3 in E6. congruence.
  - exists "Medium"%string. repeat split; try assumption; try discriminate.
    + apply ltb_of_not_leb; [exact Hnan | reflexivity | exact E6].
    + intro H. apply ltb_not_leb in H. congruence.
  - exists "Low"%string. repeat split; try assumption; try discriminate.
    + intros [H _]. discriminate H.
    + intros _. apply ltb_of_not_leb; [exact Hnan | reflexivity | exact E3].
Qed.

End SentimentFacts.

Section OverrideFacts.

Import Categorizer Sentiment.

Variable N : nltk.
Variable T : textblob.

Lemma not_in_priorities (p : string) :
  ~ In p ["High"; "Medium"; "Low"]%string -> valid_manual_priority (Some p) = false.
Proof.
  intro H. unfold valid_manual_priority, Text.mem, existsb.
  repeat match goal with
  | |- context [String.eqb p ?k] =>
      lazymatch k with
      | EmptyString => fail
      | _ => destruct (String.eqb_spec p k) as [-> | _];
             [exfalso; apply H; cbn; tauto | ]
      end
  end.
  cbn. apply andb_false_r.
Qed.

(** C8: a manual category outside the seven categories and a manual
    priority outside High, Medium, Low change nothing: the results are
    those of the calls without them. *)
Theorem invalid_override_ignored (text : string) (manual_category manual_priority : string) :
  ~ In manual_category categories ->
  ~ In manual_priority ["High"; "Medium"; "Low"]%string ->
  categorize N text (Some manual_category) = categorize N text None /\
  determine_priority T text (Some manual_priority) = determine_priority T text None /\
  analyze_complaint T text (Some manual_priority) = analyze_complaint T text None.
Proof.
  intros Hc Hp.
  assert (Hd : determine_priority T text (Some manual_priority) =
               determine_priority T text None).
  { unfold determine_priority. now rewrite (not_in_priorities _ Hp). }
  split; [ | split; [exact Hd | ]].
  - unfold categorize, valid_manual_category.
    rewrite (not_in_categories _ Hc), andb_false_r. reflexivity.
  - unfold analyze_complaint. now rewrite Hd.
Qed.

End OverrideFacts.

Section SentimentExamples.

Import Categorizer Sentiment.

Lemma urgency_and_priority_witness :
  let T := constant_textblob (lit (-4) 10) (lit 6 10) in
  let p := fst (analyze_sentiment T emergency_text) in
  let s := snd (analyze_sentiment T emergency_text) in
  exists (count u : float) (pr : string),
    of_Z (detect_urgent_keywords emergency_text) = Ok count /\
    calculate_urgency_score T emergency_text = Ok u /\
    u = min_float
          (add (add (if ltb f0_0 (neg p) then neg p else f0_0)
                    (min_float (mul count f0_15) f0_5))
               (mul s f0_2))
          f1_0 /\
    leb f0_0 u = true /\ leb u f1_0 = true /\
    determine_priority T emergency_text None = Ok pr /\
    (pr = "High"%string <-> leb f0_6 u = true) /\
    (pr = "Medium"%string <-> leb f0_3 u = true /\ ltb u f0_6 = true) /\
    (pr = "Low"%string <-> ltb u f0_3 = true).
Proof.
  apply (urgency_and_priority (constant_textblob (lit (-4) 10) (lit 6 10))
           emergency_text None).
  - intros text p s H. injection H as <- <-. vm_compute. repeat split.
  - vm_compute. reflexivity.
  - reflexivity.
Defined.

Example emergency_analysis :
  analyze_complaint (constant_textblob (lit (-4) 10) (lit 6 10)) emergency_text None =
  Ok {| polarity := lit (-4) 10;
        subjectivity := lit 6 10;
        urgency_score := lit 82 100;
        priority := "High";
        urgent_keyword_count := 2;
        sentiment_label := "negative" |}.
Proof. vm_compute. reflexivity. Qed.

Example failing_textblob_analysis :
  analyze_complaint failing_textblob "The projector flickers" None =
  Ok {| polarity := f0_0;
        subjectivity := f0_5;
        urgency_score := lit 1 10;
        priority := "Low";
        urgent_keyword_count := 0;
        sentiment_label := "neutral" |}.
Proof. vm_compute. reflexivity. Qed.

Lemma invalid_override_ignored_witness :
  categorize bare_nltk "The wifi is slow" (Some "Cafeteria"%string) =
    categorize bare_nltk "The wifi is slow" None /\
  determine_priority failing_textblob "The wifi is slow" (Some "Urgent"%string) =
    determine_priority failing_textblob "The wifi is slow" None /\
  analyze_complaint failing_textblob "The wifi is slow" (Some "Urgent"%string) =
    analyze_complaint failing_textblob "The wifi is slow" None.
Proof.
  apply (invalid_override_ignored bare_nltk failing_textblob "The wifi is slow"
           "Cafeteria" "Urgent").
  - cbn. intuition discriminate.
  - cbn. intuition discriminate.
Defined.

Example invalid_overrides :
  categorize bare_nltk "The wifi is slow" (Some "Cafeteria"%string) =
    Ok ("IT Issues"%string, f0_99) /\
  categorize bare_nltk "The wifi is slow" (Some ""%string) =
    Ok ("IT Issues"%string, f0_99) /\
  determine_priority failing_textblob "The wifi is slow" (Some "high"%string) =
    Ok "Low"%string.
Proof. vm_compute. repeat split. Qed.

End SentimentExamples.

(** ** The value of a rounded float *)

Section RoundingValues.

(** The rounding of a mantissa of at least 53 digits, in the range of the
    normal floats: the result has 53 digits and lies between the mantissa
    cut at 53 digits and its successor. *)
Lemma binary_round_aux_normal (s : bool) (m e : Z) (l : location) :
  let d := Zdigits2 m in
  let k := d - 53 in
  let q := m / 2 ^ k in
  0 < m -> 53 <= d -> -1074 <= e + k -> e + k + 1 <= 971 ->
  exists (m' : positive) (e' : Z),
    binary_round_aux prec emax s m e l = S754_finite s m' e' /\
    2 ^ 52 <= Zpos m' < 2 ^ 53 /\
    (e' = e + k \/ e' = e + k + 1) /\
    q * 2 ^ k <= Zpos m' * 2 ^ (e' - e) <= (q + 1) * 2 ^ k.
Proof.
  cbv zeta. intros Hm Hd Hlo Hhi.
  destruct (binary_round_aux_shape s m e l ltac:(lia)) as [m2 H].
  cbv zeta in H. rewrite !fexp_eq in H. destruct H as [Hb [Hex ->]].
  set (d := Zdigits2 m) in *. set (k := d - 53) in *.
  replace (Z.max (Z.max (d + e - 53) (-1074) - e) 0) with k in * by (unfold k; lia).
  assert (Hk : 0 <= k) by (unfold k; lia).
  assert (Hp : 0 < 2 ^ k) by (apply Z.pow_pos_nonneg; lia).
  pose proof (Zdigits2_lt_pow m ltac:(lia)) as Hlt. fold d in Hlt.
  pose proof (Zdigits2_ge_pow m Hm) as Hge. fold d in Hge.
  replace d with (53 + k) in Hlt by (unfold k; lia).
  replace (d - 1) with (52 + k) in Hge by (unfold k; lia).
  rewrite Z.pow_add_r in Hlt, Hge by lia.
  change (2 ^ 53) with 9007199254740992 in *.
  change (2 ^ 52) with 4503599627370496 in *.
  assert (Hq : 4503599627370496 <= m / 2 ^ k < 9007199254740992).
  { split.
    - apply Z.div_le_lower_bound; lia.
    - apply Z.div_lt_upper_bound; lia. }
  set (q := m / 2 ^ k) in *.
  assert (Hm2 : m2 = q \/ m2 = q + 1) by lia.
  assert (Hm2' : m2 < 9007199254740992 \/ m2 = 9007199254740992) by lia.
  destruct Hm2' as [Hsmall | Hbig].
  - assert (Hd2 : Zdigits2 m2 = 53).
    { apply Zdigits2_unique; [lia | ].
      change (2 ^ (53 - 1)) with 4503599627370496.
      change (2 ^ 53) with 9007199254740992. lia. }
    rewrite Hd2.
    replace (Z.max (Z.max (53 + (e + k) - 53) (-1074) - (e + k)) 0) with 0 by lia.
    rewrite Z.pow_0_r, Z.div_1_r, Z.add_0_r.
    destruct m2 as [ | p | p]; try lia.
    replace (e + k <=? emax - prec) with true
      by (symmetry; apply Z.leb_le; change (emax - prec) with 971; lia).
    exists p, (e + k). split; [reflexivity | ]. split; [lia | ]. split; [left; reflexivity | ].
    replace (e + k - e) with k by lia.
    destruct Hm2 as [E | E]; rewrite E; split;
      try apply Z.le_refl; apply Z.mul_le_mono_nonneg_r; lia.
  - assert (Hd2 : Zdigits2 m2 = 54).
    { rewrite Hbig. reflexivity. }
    rewrite Hd2.
    replace (Z.max (Z.max (54 + (e + k) - 53) (-1074) - (e + k)) 0) with 1 by lia.
    rewrite Hbig. change (9007199254740992 / 2 ^ 1) with (Zpos 4503599627370496).
    cbv iota.
    replace (e + k + 1 <=? emax - prec) with true
      by (symmetry; apply Z.leb_le; change (emax - prec) with 971; lia).
    exists 4503599627370496%positive, (e + k + 1).
    split; [reflexivity | ]. split; [lia | ]. split; [right; reflexivity | ].
    replace (e + k + 1 - e) with (k + 1) by lia.
    rewrite Z.pow_add_r by lia. change (2 ^ 1) with 2.
    assert (Hq1 : q + 1 = 9007199254740992) by lia.
    rewrite Hq1. split; [ | lia].
    apply Z.le_trans with (9007199254740992 * 2 ^ k); [ | lia].
    apply Z.mul_le_mono_nonneg_r; lia.
Qed.

Lemma digits_of_product (mx my : positive) :
  2 ^ 52 <= Zpos mx < 2 ^ 53 -> 2 ^ 52 <= Zpos my < 2 ^ 53 ->
  105 <= Zdigits2 (Zpos mx * Zpos my) <= 106.
Proof.
  intros Hx Hy.
  change (2 ^ 53) with 9007199254740992 in *.
  change (2 ^ 52) with 4503599627370496 in *.
  split.
  - destruct (Z_lt_le_dec (Zdigits2 (Zpos mx * Zpos my)) 105) as [Hlt | Hge]; [ | exact Hge].
    exfalso.
    pose proof (Zdigits2_lt_pow (Zpos mx * Zpos my) ltac:(lia)) as H.
    pose proof (Zdigits2_nonneg (Zpos mx * Zpos my)) as H0.
    assert (H1 : 2 ^ Zdigits2 (Zpos mx * Zpos my) <= 2 ^ 104)
      by (apply Z.pow_le_mono_r; lia).
    change (2 ^ 104) with (4503599627370496 * 4503599627370496) in H1. nia.
  - apply Zdigits2_le; try lia.
    change (2 ^ 106) with (9007199254740992 * 9007199254740992). nia.
Qed.

(** The product of two positive normal floats, and its truncation: in
    units of [2 ^ (ex + ey)], the product is less than [2 ^ 53] away from
    the exact product of the mantissas. *)
Lemma mul_normal (mx my : positive) (ex ey : Z) :
  2 ^ 52 <= Zpos mx < 2 ^ 53 -> 2 ^ 52 <= Zpos my < 2 ^ 53 ->
  -1074 <= ex + ey + 52 -> ex + ey + 54 <= 971 ->
  exists (m' : positive) (e' : Z),
    mul (S754_finite false mx ex) (S754_finite false my ey) = S754_finite false m' e' /\
    2 ^ 52 <= Zpos m' < 2 ^ 53 /\
    ex + ey + 52 <= e' <= ex + ey + 54 /\
    Zpos mx * Zpos my - 2 ^ 53 < Zpos m' * 2 ^ (e' - (ex + ey)) <=
      Zpos mx * Zpos my + 2 ^ 53.
Proof.
  intros Hx Hy Hlo Hhi. unfold mul, SFmul. cbn [xorb]. rewrite Pos2Z.inj_mul.
  pose proof (digits_of_product mx my Hx Hy) as Hd.
  set (M := Zpos mx * Zpos my) in *.
  assert (HM : 0 < M) by (unfold M; lia).
  destruct (binary_round_aux_normal false M (ex + ey) loc_Exact HM
              ltac:(lia) ltac:(lia) ltac:(lia)) as [m' [e' [E [Hm' [He' Hv]]]]].
  exists m', e'. split; [exact E | ]. split; [exact Hm' | ]. split; [lia | ].
  set (k := Zdigits2 M - 53) in *.
  assert (Hk : 0 <= k <= 53) by (unfold k; lia).
  assert (Hp : 0 < 2 ^ k) by (apply Z.pow_pos_nonneg; lia).
  assert (Hp53 : 2 ^ k <= 2 ^ 53) by (apply Z.pow_le_mono_r; lia).
  pose proof (Z.div_mod M (2 ^ k) ltac:(lia)) as Hdm.
  pose proof (Z.mod_pos_bound M (2 ^ k) Hp) as Hmod.
  set (q := M / 2 ^ k) in *. nia.
Qed.

Lemma mul_trunc (mx my : positive) (ex ey : Z) :
  2 ^ 52 <= Zpos mx < 2 ^ 53 -> 2 ^ 52 <= Zpos my < 2 ^ 53 ->
  -1074 <= ex + ey + 52 -> ex + ey + 54 <= 0 ->
  exists out : Z,
    trunc (mul (S754_finite false mx ex) (S754_finite false my ey)) =
      Ok (out / 2 ^ (- (ex + ey))) /\
    Zpos mx * Zpos my - 2 ^ 53 < out <= Zpos mx * Zpos my + 2 ^ 53.
Proof.
  intros Hx Hy Hlo Hhi.
  destruct (mul_normal mx my ex ey Hx Hy Hlo ltac:(lia)) as [m' [e' [E [_ [He' Hv]]]]].
  exists (Zpos m' * 2 ^ (e' - (ex + ey))). split; [ | exact Hv].
  rewrite E. unfold trunc. f_equal.
  replace (- (ex + ey)) with (- e' + (e' - (ex + ey))) by lia.
  rewrite Z.pow_add_r by lia.
  rewrite Z.div_mul_cancel_r by (apply Z.pow_nonzero; lia).
  destruct e' as [ | p | p]; try lia.
  - rewrite Z.shiftl_0_r. cbn. now rewrite Z.div_1_r.
  - rewrite Z.shiftr_div_pow2 by lia. reflexivity.
Qed.

End RoundingValues.

(** ** More on the predictor *)

Section PredictorRange.

Import Predictor.

Lemma raw_hours_table_normal :
  forallb (fun b =>
    forallb (fun pm =>
      forallb (fun w => raw_hours_normal (raw_hours {| workload_factor := w |} b pm))
        [f0_9; f1_0; f1_2; f1_5])
      [f0_5; f1_0; f1_5])
    [24; 48; 72; 96; 120] = true.
Proof. vm_compute. reflexivity. Qed.

Lemma raw_hours_reachable_normal (self : predictor) (category priority : string) :
  reachable self ->
  exists (m : positive) (e : Z),
    raw_hours self (dict_get category_avg_times category 72)
      (dict_get priority_multipliers priority f1_0) = Ok (S754_finite false m e) /\
    2 ^ 52 <= Zpos m < 2 ^ 53 /\ -49 <= e <= -44 /\
    108 * 2 ^ (- e) <= 10 * Zpos m /\ Zpos m <= 270 * 2 ^ (- e).
Proof.
  intro Hr. pose proof (reachable_workload self Hr) as Hw.
  pose proof (base_time_cases category) as Hb.
  pose proof (priority_mult_cases priority) as Hp.
  pose proof raw_hours_table_normal as T.
  rewrite forallb_forall in T. specialize (T _ Hb).
  rewrite forallb_forall in T. specialize (T _ Hp).
  rewrite forallb_forall in T. specialize (T _ Hw).
  destruct self as [w]. unfold workload_factor in T.
  destruct (raw_hours _ _ _) as [[ | | | [ | ] m e] | ]; try discriminate T.
  exists m, e. split; [reflexivity | ].
  unfold raw_hours_normal in T. rewrite !andb_true_iff in T.
  destruct T as [[[[[T1 T2] T3] T4] T5] T6].
  apply Z.leb_le in T1, T3, T4, T5, T6. apply Z.ltb_lt in T2.
  repeat split; assumption.
Qed.

Lemma hours_bounds (m mv : positive) (e ev out : Z) :
  -49 <= e <= -44 ->
  108 * 2 ^ (- e) <= 10 * Zpos m -> Zpos m <= 270 * 2 ^ (- e) ->
  (ev = -53 /\ 7205759403792794 <= Zpos mv < 2 ^ 53) \/
  (ev = -52 /\ 2 ^ 52 <= Zpos mv <= 5404319552844595) ->
  Zpos m * Zpos mv - 2 ^ 53 < out <= Zpos m * Zpos mv + 2 ^ 53 ->
  8 <= out / 2 ^ (- (e + ev)) <= 324.
Proof.
  intros He Hmin Hmax Hmv Hout.
  assert (HP : 2 ^ 44 <= 2 ^ (- e)) by (apply Z.pow_le_mono_r; lia).
  set (Pe := 2 ^ (- e)) in *.
  change (2 ^ 53) with 9007199254740992 in *.
  change (2 ^ 52) with 4503599627370496 in *.
  change (2 ^ 44) with 17592186044416 in *.
  destruct Hmv as [[-> Hmv] | [-> Hmv]].
  - replace (- (e + -53)) with (- e + 53) by lia.
    rewrite Z.pow_add_r by lia. fold Pe. change (2 ^ 53) with 9007199254740992.
    assert (Hlo : 108 * Pe * 7205759403792794 <= 10 * Zpos m * Zpos mv)
      by (apply Z.mul_le_mono_nonneg; lia).
    assert (Hhi : Zpos m * Zpos mv <= 270 * Pe * 9007199254740992)
      by (apply Z.mul_le_mono_nonneg; lia).
    split.
    + apply Z.div_le_lower_bound; lia.
    + apply Z.lt_succ_r. apply Z.div_lt_upper_bound; lia.
  - replace (- (e + -52)) with (- e + 52) by lia.
    rewrite Z.pow_add_r by lia. fold Pe. change (2 ^ 52) with 4503599627370496.
    assert (Hlo : 108 * Pe * 4503599627370496 <= 10 * Zpos m * Zpos mv)
      by (apply Z.mul_le_mono_nonneg; lia).
    assert (Hhi : Zpos m * Zpos mv <= 270 * Pe * 5404319552844595)
      by (apply Z.mul_le_mono_nonneg; lia).
    split.
    + apply Z.div_le_lower_bound; lia.
    + apply Z.lt_succ_r. apply Z.div_lt_upper_bound; lia.
Qed.

Lemma predicted_hours_between
    (self : predictor) (variance : float) (category priority : string)
    (description : option string) :
  reachable self ->
  valid variance = true -> leb f0_8 variance = true -> leb variance f1_2 = true ->
  exists (p : prediction) (x : float) (h : Z),
    raw_hours self (dict_get category_avg_times category 72)
      (dict_get priority_multipliers priority f1_0) = Ok x /\
    trunc (mul x variance) = Ok h /\
    predict_resolution_time self variance category priority description = Ok p /\
    hours p = h /\ 8 <= h <= 324.
Proof.
  intros Hr Hv Hlo Hhi.
  destruct (raw_hours_reachable_normal self category priority Hr)
    as (m & e & Hraw & Hm & He & Hmin & Hmax).
  destruct (variance_range variance Hv Hlo Hhi) as [mv [ev [-> Hmv]]].
  assert (Hmv' : 2 ^ 52 <= Zpos mv < 2 ^ 53).
  { change (2 ^ 53) with 9007199254740992 in *.
    change (2 ^ 52) with 4503599627370496 in *. lia. }
  assert (Hev : ev = -53 \/ ev = -52) by lia.
  destruct (mul_trunc m mv e ev Hm Hmv' ltac:(lia) ltac:(lia)) as [out [Htr Hout]].
  pose proof (hours_bounds m mv e ev out He Hmin Hmax Hmv Hout) as Hh.
  set (h := out / 2 ^ (- (e + ev))) in *.
  assert (Hdig : Zdigits2 (Z.max h 1) <= 9) by (apply Zdigits2_le; lia).
  destruct (truediv_Z_bounded (Z.max h 1) 24 5 ltac:(lia)
              ltac:(change (Zdigits2 24) with 5; lia) ltac:(lia) ltac:(lia))
    as [d [Hd _]].
  eexists. exists (S754_finite false m e), h.
  split; [exact Hraw | ]. split; [exact Htr | ].
  unfold predict_resolution_time. rewrite Hraw. cbn [bind]. rewrite Htr. cbn [bind].
  rewrite Hd. cbn [bind]. split; [reflexivity | ]. cbn [hours]. split; lia.
Qed.

(** X1: from a reachable predictor and a variance in [0.8, 1.2], the hours
    predicted lie between 8 and 324, whatever the category and the
    priority: the floor at 1 hour is never reached. *)
Theorem predicted_hours_range
    (self : predictor) (variance : float) (category priority : string)
    (description : option string) :
  reachable self ->
  valid variance = true -> leb f0_8 variance = true -> leb variance f1_2 = true ->
  exists p : prediction,
    predict_resolution_time self variance category priority description = Ok p /\
    8 <= hours p <= 324.
Proof.
  intros Hr Hv Hlo Hhi.
  destruct (predicted_hours_between self variance category priority description
              Hr Hv Hlo Hhi) as (p & x & h & _ & _ & Hp & Hh & Hb).
  exists p. split; [exact Hp | lia].
Qed.

Lemma predicted_hours_range_witness :
  exists p : prediction,
    predict_resolution_time (update_workload_factor init 60) f1_2 "Other" "Low" None = Ok p /\
    8 <= hours p <= 324.
Proof.
  apply (predicted_hours_range (update_workload_factor init 60) f1_2 "Other" "Low" None);
    [apply reachable_update, reachable_init | reflexivity | reflexivity | reflexivity].
Defined.

Lemma whole_days_table :
  forallb whole_days_exact (map Z.of_nat (seq 120 205)) = true.
Proof. vm_compute. reflexivity. Qed.

Lemma whole_days (h : Z) :
  120 <= h <= 324 ->
  exists q : float, truediv_Z h 24 = Ok q /\ trunc q = Ok (h / 24).
Proof.
  intro Hh. pose proof whole_days_table as T. rewrite forallb_forall in T.
  assert (Hin : In h (map Z.of_nat (seq 120 205))).
  { apply in_map_iff. exists (Z.to_nat h). split; [lia | ]. apply in_seq. lia. }
  specialize (T h Hin). unfold whole_days_exact in T.
  destruct (truediv_Z h 24) as [q | ]; [ | discriminate T]. cbn [bind] in T.
  exists q. split; [reflexivity | ].
  destruct (trunc q) as [n | ]; [ | discriminate T].
  apply Z.eqb_eq in T. now rewrite T.
Qed.

(** X2: from a reachable predictor and a variance in [0.8, 1.2],
    [get_resolution_estimate] returns a label for the hours that
    [predict_resolution_time] predicts: the hours themselves below a day,
    the three day ranges up to 120 hours, and from there the whole number
    of days [hours // 24], which lies between 5 and 13. *)
Theorem resolution_estimate_label
    (self : predictor) (variance : float) (category priority : string)
    (description : option string) :
  reachable self ->
  valid variance = true -> leb f0_8 variance = true -> leb variance f1_2 = true ->
  exists (p : prediction) (label : string),
    predict_resolution_time self variance category priority description = Ok p /\
    get_resolution_estimate self variance category priority description = Ok label /\
    label = label_of_hours (hours p) /\
    (120 <= hours p -> 5 <= hours p / 24 <= 13).
Proof.
  intros Hr Hv Hlo Hhi.
  destruct (predicted_hours_between self variance category priority description
              Hr Hv Hlo Hhi) as (p & x & h & _ & _ & Hp & Hh & Hb).
  exists p. unfold get_resolution_estimate, label_of_hours.
  rewrite Hp. cbn [bind]. rewrite Hh.
  assert (Hdays : 120 <= h -> 5 <= h / 24 <= 13).
  { intro H120. split.
    - apply Z.div_le_lower_bound; lia.
    - apply Z.lt_succ_r. apply Z.div_lt_upper_bound; lia. }
  destruct (h <? 24) eqn:E1; [eexists; split; [reflexivity | split; [reflexivity | split; [reflexivity | exact Hdays]]] | ].
  destruct (h <? 48) eqn:E2; [eexists; split; [reflexivity | split; [reflexivity | split; [reflexivity | exact Hdays]]] | ].
  destruct (h <? 72) eqn:E3; [eexists; split; [reflexivity | split; [reflexivity | split; [reflexivity | exact Hdays]]] | ].
  destruct (h <? 120) eqn:E4; [eexists; split; [reflexivity | split; [reflexivity | split; [reflexivity | exact Hdays]]] | ].
  apply Z.ltb_ge in E4.
  destruct (whole_days h ltac:(lia)) as [q [Hq Ht]].
  rewrite Hq. cbn [bind]. rewrite Ht. cbn [bind].
  eexists; split; [reflexivity | split; [reflexivity | split; [reflexivity | exact Hdays]]].
Qed.

Lemma resolution_estimate_label_witness :
  exists (p : prediction) (label : string),
    predict_resolution_time init f1_0 "Other" "Medium" None = Ok p /\
    get_resolution_estimate init f1_0 "Other" "Medium" None = Ok label /\
    label = label_of_hours (hours p) /\
    (120 <= hours p -> 5 <= hours p / 24 <= 13).
Proof.
  apply (resolution_estimate_label init f1_0 "Other" "Medium" None);
    [apply reachable_init | reflexivity | reflexivity | reflexivity].
Defined.

Example estimates :
  get_resolution_estimate init f0_8 "IT Issues" "High" None = Ok "Within 9 hours"%string /\
  get_resolution_estimate init f1_0 "Library" "Medium" None = Ok "2-3 days"%string /\
  get_resolution_estimate (update_workload_factor init 60) f1_2 "Other" "Low" None =
    Ok "13 days"%string.
Proof. vm_compute. repeat split. Qed.

Lemma mul_trunc_le (m1 m2 mv : positive) (e1 e2 ev : Z) :
  2 ^ 52 <= Zpos m1 < 2 ^ 53 -> 2 ^ 52 <= Zpos m2 < 2 ^ 53 ->
  2 ^ 52 <= Zpos mv < 2 ^ 53 ->
  -1074 <= e1 + ev + 52 -> e1 <= e2 -> e2 + ev + 54 <= 0 ->
  Zpos m1 + 2 + 2 * 2 ^ (e2 - e1) <= Zpos m2 * 2 ^ (e2 - e1) ->
  exists h1 h2 : Z,
    trunc (mul (S754_finite false m1 e1) (S754_finite false mv ev)) = Ok h1 /\
    trunc (mul (S754_finite false m2 e2) (S754_finite false mv ev)) = Ok h2 /\
    h1 <= h2.
Proof.
  intros H1 H2 Hv Hlo Hle Hhi Hgap.
  destruct (mul_trunc m1 mv e1 ev H1 Hv ltac:(lia) ltac:(lia)) as [o1 [T1 O1]].
  destruct (mul_trunc m2 mv e2 ev H2 Hv ltac:(lia) ltac:(lia)) as [o2 [T2 O2]].
  exists (o1 / 2 ^ (- (e1 + ev))), (o2 / 2 ^ (- (e2 + ev))).
  split; [exact T1 | ]. split; [exact T2 | ].
  replace (- (e1 + ev)) with ((e2 - e1) + - (e2 + ev)) by lia.
  rewrite Z.pow_add_r by lia.
  assert (HD : 1 <= 2 ^ (e2 - e1)) by (apply (Z.pow_le_mono_r 2 0); lia).
  set (D := 2 ^ (e2 - e1)) in *.
  assert (HP : 0 < 2 ^ (- (e2 + ev))) by (apply Z.pow_pos_nonneg; lia).
  rewrite <- Z.div_div by lia.
  apply Z.div_le_mono; [lia | ].
  apply Z.lt_succ_r. apply Z.div_lt_upper_bound; [lia | ].
  change (2 ^ 53) with 9007199254740992 in *.
  change (2 ^ 52) with 4503599627370496 in *.
  assert (G : (Zpos m1 + 2 + 2 * D) * Zpos mv <= Zpos m2 * D * Zpos mv)
    by (apply Z.mul_le_mono_nonneg_r; lia).
  assert (G2 : (2 + 2 * D) * 4503599627370496 <= (2 + 2 * D) * Zpos mv)
    by (apply Z.mul_le_mono_nonneg_l; lia).
  nia.
Qed.

Lemma raw_hours_table_ordered :
  forallb (fun b =>
    forallb (fun '(pm1, pm2) =>
      forallb (fun '(w1, w2) =>
                 raw_hours_ordered (raw_hours {| workload_factor := w1 |} b pm1)
                                   (raw_hours {| workload_factor := w2 |} b pm2))
        workload_pairs)
      multiplier_pairs)
    [24; 48; 72; 96; 120] = true.
Proof. vm_compute. reflexivity. Qed.

Lemma hours_ordered (b : Z) (pm1 pm2 w1 w2 variance : float) :
  In b [24; 48; 72; 96; 120] -> In (pm1, pm2) multiplier_pairs ->
  In (w1, w2) workload_pairs ->
  valid variance = true -> leb f0_8 variance = true -> leb variance f1_2 = true ->
  exists (x1 x2 : float) (h1 h2 : Z),
    raw_hours {| workload_factor := w1 |} b pm1 = Ok x1 /\
    raw_hours {| workload_factor := w2 |} b pm2 = Ok x2 /\
    trunc (mul x1 variance) = Ok h1 /\ trunc (mul x2 variance) = Ok h2 /\
    h1 <= h2.
Proof.
  intros Hb Hpm Hw Hv Hlo Hhi.
  pose proof raw_hours_table_ordered as T.
  rewrite forallb_forall in T. specialize (T _ Hb).
  rewrite forallb_forall in T. specialize (T _ Hpm). cbn beta iota in T.
  rewrite forallb_forall in T. specialize (T _ Hw). cbn beta iota in T.
  unfold raw_hours_ordered in T. rewrite !andb_true_iff in T.
  destruct T as [[N1 N2] G].
  destruct (raw_hours {| workload_factor := w1 |} b pm1)
    as [[ | | | [ | ] m1 e1] | ]; try discriminate N1.
  destruct (raw_hours {| workload_factor := w2 |} b pm2)
    as [[ | | | [ | ] m2 e2] | ]; try discriminate N2.
  unfold raw_hours_normal in N1, N2. rewrite !andb_true_iff in N1, N2.
  destruct N1 as [[[[[A1 A2] A3] A4] _] _].
  destruct N2 as [[[[[B1 B2] B3] B4] _] _].
  apply Z.leb_le in A1, A3, A4, B1, B3, B4. apply Z.ltb_lt in A2, B2.
  destruct (variance_range variance Hv Hlo Hhi) as [mv [ev [-> Hmv]]].
  assert (Hmv' : 2 ^ 52 <= Zpos mv < 2 ^ 53).
  { change (2 ^ 53) with 9007199254740992 in *.
    change (2 ^ 52) with 4503599627370496 in *. lia. }
  assert (Hev : ev = -53 \/ ev = -52) by lia.
  exists (S754_finite false m1 e1), (S754_finite false m2 e2).
  apply orb_true_iff in G. destruct G as [G | G].
  - apply andb_true_iff in G. destruct G as [G1 G2].
    apply Z.eqb_eq in G1, G2. injection G1 as ->. subst e2.
    destruct (mul_trunc m2 mv e1 ev ltac:(lia) Hmv' ltac:(lia) ltac:(lia)) as [o [To _]].
    eexists; eexists. repeat split; try exact To. lia.
  - apply andb_true_iff in G. destruct G as [G1 G2].
    apply Z.leb_le in G1, G2.
    destruct (mul_trunc_le m1 m2 mv e1 e2 ev ltac:(lia) ltac:(lia) Hmv'
                ltac:(lia) G1 ltac:(lia) G2) as (h1 & h2 & T1 & T2 & Hle).
    exists h1, h2. repeat split; assumption.
Qed.

Lemma predict_ordered (self1 self2 : predictor) (variance : float)
    (category priority1 priority2 : string) (d1 d2 : option string) :
  reachable self1 -> reachable self2 ->
  In (workload_factor self1, workload_factor self2) workload_pairs ->
  In (dict_get priority_multipliers priority1 f1_0,
      dict_get priority_multipliers priority2 f1_0) multiplier_pairs ->
  valid variance = true -> leb f0_8 variance = true -> leb variance f1_2 = true ->
  exists p q : prediction,
    predict_resolution_time self1 variance category priority1 d1 = Ok p /\
    predict_resolution_time self2 variance category priority2 d2 = Ok q /\
    hours p <= hours q.
Proof.
  intros R1 R2 Hw Hpm Hv Hlo Hhi.
  destruct (predicted_hours_between self1 variance category priority1 d1 R1 Hv Hlo Hhi)
    as (p & x1 & h1 & X1 & T1 & P1 & E1 & _).
  destruct (predicted_hours_between self2 variance category priority2 d2 R2 Hv Hlo Hhi)
    as (q & x2 & h2 & X2 & T2 & P2 & E2 & _).
  destruct (hours_ordered _ _ _ _ _ variance (base_time_cases category) Hpm Hw Hv Hlo Hhi)
    as (y1 & y2 & k1 & k2 & Y1 & Y2 & K1 & K2 & Hle).
  change (raw_hours {| workload_factor := workload_factor self1 |}) with (raw_hours self1) in Y1.
  change (raw_hours {| workload_factor := workload_factor self2 |}) with (raw_hours self2) in Y2.
  rewrite X1 in Y1. injection Y1 as <-. rewrite X2 in Y2. injection Y2 as <-.
  rewrite T1 in K1. injection K1 as <-. rewrite T2 in K2. injection K2 as <-.
  exists p, q. split; [exact P1 | ]. split; [exact P2 | ]. lia.
Qed.

Lemma reachable_same_pair (self : predictor) :
  reachable self -> In (workload_factor self, workload_factor self) workload_pairs.
Proof.
  intro Hr. pose proof (reachable_workload self Hr) as Hw.
  destruct Hw as [<- | [<- | [<- | [<- | []]]]]; unfold workload_pairs; cbn [In]; tauto.
Qed.

Lemma update_pair (self1 self2 : predictor) (n m : Z) :
  n <= m ->
  In (workload_factor (update_workload_factor self1 n),
      workload_factor (update_workload_factor self2 m)) workload_pairs.
Proof.
  intro Hle. unfold update_workload_factor.
  destruct (n <? 10) eqn:N1; destruct (n <? 20) eqn:N2; destruct (n <? 50) eqn:N3;
    destruct (m <? 10) eqn:M1; destruct (m <? 20) eqn:M2; destruct (m <? 50) eqn:M3;
    try (apply Z.ltb_lt in N1); try (apply Z.ltb_ge in N1);
    try (apply Z.ltb_lt in N2); try (apply Z.ltb_ge in N2);
    try (apply Z.ltb_lt in N3); try (apply Z.ltb_ge in N3);
    try (apply Z.ltb_lt in M1); try (apply Z.ltb_ge in M1);
    try (apply Z.ltb_lt in M2); try (apply Z.ltb_ge in M2);
    try (apply Z.ltb_lt in M3); try (apply Z.ltb_ge in M3);
    try lia; cbn [workload_factor]; unfold workload_pairs; cbn [In]; tauto.
Qed.

(** X3: for the same category, priority and random draw, a prediction made
    after the workload was set from a larger number of pending complaints
    is never shorter than one made after a smaller number. *)
Theorem busier_queue_never_shortens
    (self1 self2 : predictor) (n m : Z) (variance : float)
    (category priority : string) (d1 d2 : option string) :
  n <= m ->
  valid variance = true -> leb f0_8 variance = true -> leb variance f1_2 = true ->
  exists p q : prediction,
    predict_resolution_time (update_workload_factor self1 n) variance
      category priority d1 = Ok p /\
    predict_resolution_time (update_workload_factor self2 m) variance
      category priority d2 = Ok q /\
    hours p <= hours q.
Proof.
  intros Hle Hv Hlo Hhi.
  assert (R : forall n0, reachable (update_workload_factor init n0)).
  { intro n0. apply reachable_update, reachable_init. }
  assert (U : forall s n0, update_workload_factor s n0 = update_workload_factor init n0)
    by reflexivity.
  rewrite (U self1), (U self2).
  apply predict_ordered; try assumption; try apply R.
  - apply update_pair, Hle.
  - destruct (priority_mult_cases priority) as [<- | [<- | [<- | []]]];
      unfold multiplier_pairs; cbn [In]; tauto.
Qed.

Lemma busier_queue_never_shortens_witness :
  exists p q : prediction,
    predict_resolution_time (update_workload_factor init 19) f1_0
      "Library" "Medium" None = Ok p /\
    predict_resolution_time (update_workload_factor init 20) f1_0
      "Library" "Medium" None = Ok q /\
    hours p <= hours q.
Proof.
  apply (busier_queue_never_shortens init init 19 20 f1_0 "Library" "Medium" None None);
    [lia | reflexivity | reflexivity | reflexivity].
Defined.

(** X4: from a reachable predictor, for the same category and random draw,
    a High priority is predicted no later than a Medium one, and a Medium
    one no later than a Low one. *)
Theorem higher_priority_never_later
    (self : predictor) (variance : float) (category : string)
    (description : option string) :
  reachable self ->
  valid variance = true -> leb f0_8 variance = true -> leb variance f1_2 = true ->
  exists high medium low : prediction,
    predict_resolution_time self variance category "High" description = Ok high /\
    predict_resolution_time self variance category "Medium" description = Ok medium /\
    predict_resolution_time self variance category "Low" description = Ok low /\
    hours high <= hours medium <= hours low.
Proof.
  intros Hr Hv Hlo Hhi.
  pose proof (reachable_same_pair self Hr) as Hw.
  destruct (predict_ordered self self variance category "High" "Medium"
              description description Hr Hr Hw
              ltac:(unfold multiplier_pairs; cbn; tauto) Hv Hlo Hhi)
    as (h & m & Ph & Pm & L1).
  destruct (predict_ordered self self variance category "Medium" "Low"
              description description Hr Hr Hw
              ltac:(unfold multiplier_pairs; cbn; tauto) Hv Hlo Hhi)
    as (m' & l & Pm' & Pl & L2).
  rewrite Pm in Pm'. injection Pm' as <-.
  exists h, m, l. repeat split; assumption.
Qed.

Lemma higher_priority_never_later_witness :
  exists high medium low : prediction,
    predict_resolution_time init f1_0 "Hostel Management" "High" None = Ok high /\
    predict_resolution_time init f1_0 "Hostel Management" "Medium" None = Ok medium /\
    predict_resolution_time init f1_0 "Hostel Management" "Low" None = Ok low /\
    hours high <= hours medium <= hours low.
Proof.
  apply (higher_priority_never_later init f1_0 "Hostel Management" None);
    [apply reachable_init | reflexivity | reflexivity | reflexivity].
Defined.

Lemma same_float_eq (x y : float) : same_float x y = true -> x = y.
Proof.
  destruct x as [s | s | | s m e], y as [s' | s' | | s' m' e']; cbn [same_float];
    try discriminate.
  - intro H. apply Bool.eqb_prop in H. now subst.
  - intro H. rewrite !andb_true_iff in H. destruct H as [[H1 H2] H3].
    apply Bool.eqb_prop in H1. apply Pos.eqb_eq in H2. apply Z.eqb_eq in H3.
    now subst.
Qed.

Lemma days_table : forallb days_exact (map Z.of_nat (seq 8 317)) = true.
Proof. vm_compute. reflexivity. Qed.

(** X5: from a reachable predictor and a variance in [0.8, 1.2], the days
    of a prediction are the exact quotient of the hours by 24 rounded to
    one decimal, ties to even, with no error from the float division; they
    lie between 0.3 and 13.5. *)
Theorem predicted_days_exact
    (self : predictor) (variance : float) (category priority : string)
    (description : option string) :
  reachable self ->
  valid variance = true -> leb f0_8 variance = true -> leb variance f1_2 = true ->
  exists p : prediction,
    predict_resolution_time self variance category priority description = Ok p /\
    days p = lit (round_half_even_div (10 * hours p) 24) 10 /\
    leb (lit 3 10) (days p) = true /\ leb (days p) (lit 135 10) = true.
Proof.
  intros Hr Hv Hlo Hhi.
  destruct (predicted_hours_between self variance category priority description
              Hr Hv Hlo Hhi) as (p & x & h & _ & _ & Hp & Hh & Hb).
  exists p. split; [exact Hp | ].
  pose proof days_table as T. rewrite forallb_forall in T.
  assert (Hin : In h (map Z.of_nat (seq 8 317))).
  { apply in_map_iff. exists (Z.to_nat h). split; [lia | ]. apply in_seq. lia. }
  specialize (T h Hin). unfold days_exact in T.
  unfold predict_resolution_time in Hp.
  destruct (raw_hours self _ _) as [y | ]; [ | discriminate Hp]. cbn [bind] in Hp.
  destruct (trunc (mul y variance)) as [k | ]; [ | discriminate Hp]. cbn [bind] in Hp.
  destruct (truediv_Z (Z.max k 1) 24) as [d | ] eqn:Ed; [ | discriminate Hp].
  cbn [bind] in Hp. injection Hp as <-. cbn [hours days] in *.
  rewrite Hh in Ed. rewrite Ed in T. rewrite Hh.
  rewrite !andb_true_iff in T. destruct T as [[T1 T2] T3].
  apply same_float_eq in T1. repeat split; assumption.
Qed.

Lemma predicted_days_exact_witness :
  exists p : prediction,
    predict_resolution_time init f1_0 "Library" "High" None = Ok p /\
    days p = lit (round_half_even_div (10 * hours p) 24) 10 /\
    leb (lit 3 10) (days p) = true /\ leb (days p) (lit 135 10) = true.
Proof.
  apply (predicted_days_exact init f1_0 "Library" "High" None);
    [apply reachable_init | reflexivity | reflexivity | reflexivity].
Defined.

End PredictorRange.

(** ** More on the categorizer *)

Section QuotientFacts.

Lemma div_Z_self (v : Z) : 0 < v -> div_Z v v = f1_0.
Proof.
  intro Hv. destruct v as [ | p | p]; try lia.
  unfold div_Z, SFdiv, SFdiv_core_binary.
  rewrite !Z.add_0_r, fexp_eq.
  change IntDef.Z.min with Z.min. change IntDef.Z.div_eucl with Z.div_eucl.
  change IntDef.Z.shiftl with Z.shiftl.
  set (d := Zdigits2 (Zpos p)).
  replace (Z.min (Z.max (d - d - 53) (-1074)) (0 - 0)) with (-53) by lia.
  change (0 - 0 - -53) with 53. cbv iota.
  rewrite Z.shiftl_mul_pow2 by lia.
  assert (Hq : fst (Z.div_eucl (Zpos p * 2 ^ 53) (Zpos p)) = 2 ^ 53).
  { change (fst (Z.div_eucl ?a ?b)) with (a / b).
    rewrite Z.mul_comm. apply Z.div_mul. lia. }
  assert (Hr : snd (Z.div_eucl (Zpos p * 2 ^ 53) (Zpos p)) = 0).
  { change (snd (Z.div_eucl ?a ?b)) with (a mod b).
    rewrite Z.mul_comm. apply Z.mod_mul. lia. }
  destruct (Z.div_eucl (Zpos p * 2 ^ 53) (Zpos p)) as [q r].
  cbn [fst snd] in Hq, Hr. subst q r.
  assert (Hl : new_location (Zpos p) 0 = loc_Exact).
  { unfold new_location, new_location_even, new_location_odd.
    destruct (IntDef.Z.even (Zpos p)); reflexivity. }
  rewrite Hl. vm_compute. reflexivity.
Qed.

End QuotientFacts.

Section DictFacts.

Lemma dict_lookup_notin {V : Type} (d : dict V) (k : string) :
  ~ In k (keys d) -> dict_lookup d k = None.
Proof.
  induction d as [ | [k' v] d IH]; intro H; [reflexivity | ].
  cbn [dict_lookup]. destruct (String.eqb_spec k k') as [-> | _].
  - exfalso. apply H. left. reflexivity.
  - apply IH. intro Hin. apply H. right. exact Hin.
Qed.

Lemma dict_lookup_in {V : Type} (d : dict V) (k : string) (v : V) :
  dict_lookup d k = Some v -> In (k, v) d.
Proof.
  induction d as [ | [k' v'] d IH]; intro H; [discriminate H | ].
  cbn [dict_lookup] in H. destruct (String.eqb_spec k k') as [-> | _].
  - injection H as ->. left. reflexivity.
  - right. apply IH, H.
Qed.

Lemma dict_mem_keys {V : Type} (d : dict V) (k : string) :
  dict_mem d k = true -> In k (keys d).
Proof.
  unfold dict_mem. destruct (dict_lookup d k) as [v | ] eqn:E; [ | discriminate].
  intros _. apply dict_lookup_in in E.
  change k with (fst (k, v)). apply in_map. exact E.
Qed.

Lemma sum_Z_app (l1 l2 : list Z) : sum_Z (l1 ++ l2) = sum_Z l1 + sum_Z l2.
Proof.
  unfold sum_Z at 1. rewrite fold_left_app, fold_add_shift.
  fold (sum_Z l1). reflexivity.
Qed.

Lemma sum_Z_zero (l : list Z) : Forall (fun v => v = 0) l -> sum_Z l = 0.
Proof.
  induction 1 as [ | x l Hx _ IH]; [reflexivity | ].
  rewrite sum_Z_cons, IH, Hx. reflexivity.
Qed.

Lemma filter_none {A : Type} (f : A -> bool) (l : list A) :
  Forall (fun a => f a = false) l -> filter f l = [].
Proof.
  induction 1 as [ | x l Hx _ IH]; [reflexivity | ].
  cbn [filter]. rewrite Hx. exact IH.
Qed.

Lemma NoDup_firstn {A : Type} (n : nat) (l : list A) : NoDup l -> NoDup (firstn n l).
Proof.
  intro H. revert n. induction H as [ | x l Hx _ IH]; intros [ | n]; cbn [firstn];
    try constructor.
  - intro Hin. apply Hx. eapply firstn_member, Hin.
  - apply IH.
Qed.

Lemma for_each_pure {A B : Type} (g : A -> B) (l : list A) :
  for_each (fun a => Ok (g a)) l = Ok (map g l).
Proof.
  induction l as [ | a l IH]; [reflexivity | ].
  cbn [for_each bind map]. rewrite IH. reflexivity.
Qed.

Lemma for_each_ext {A B : Type} (f g : A -> outcome B) (l : list A) :
  (forall a, In a l -> f a = g a) -> for_each f l = for_each g l.
Proof.
  induction l as [ | a l IH]; intro H; [reflexivity | ].
  cbn [for_each]. rewrite (H a (or_introl eq_refl)).
  rewrite IH; [reflexivity | ]. intros a' Ha'. apply H. right. exact Ha'.
Qed.

Lemma slice_to_map {A B : Type} (g : A -> B) (n : Z) (l : list A) :
  slice_to n (map g l) = map g (slice_to n l).
Proof.
  unfold slice_to, len. rewrite length_map.
  destruct (n <? 0); apply firstn_map.
Qed.

End DictFacts.

Section CategorizerMore.

Import Categorizer.

Variable N : nltk.

Lemma valid_manual_in_categories (c : string) :
  valid_manual_category (Some c) = true -> In c categories.
Proof.
  unfold valid_manual_category. intro H. apply andb_prop in H. destruct H as [_ H].
  apply dict_mem_keys in H. exact H.
Qed.

Lemma scores_member_key (tokens : list string) (k : string) (v : Z) :
  In (k, v) (calculate_category_scores N tokens) -> In k categories.
Proof.
  intro H. rewrite <- (scores_keys N tokens).
  change k with (fst (k, v)). apply in_map. exact H.
Qed.

Lemma other_score_zero (tokens : list string) (v : Z) :
  In ("Other"%string, v) (calculate_category_scores N tokens) -> v = 0.
Proof.
  unfold calculate_category_scores, category_keywords. cbn [map In].
  intros [H | [H | [H | [H | [H | [H | [H | []]]]]]]]; try discriminate H.
  injection H as <-. unfold count_matches.
  induction tokens as [ | t tokens IH]; [reflexivity | exact IH].
Qed.

Lemma categorize_member (text : string) (manual_category : option string) :
  exists (category : string) (confidence : float),
    categorize N text manual_category = Ok (category, confidence) /\
    In category categories.
Proof.
  assert (Ht : exists (category : string) (confidence : float),
             categorize_text N text = Ok (category, confidence) /\
             In category categories).
  { destruct (categorize_text_cases N text) as [[_ H] | H].
    - exists "Other"%string, f0_5. split; [exact H | cbn; tauto].
    - destruct H as (best & pre & v & post & c & _ & Es & _ & _ & _ & H & _).
      eexists. eexists. split; [exact H | ].
      apply (scores_member_key (preprocess_text N text) best v).
      rewrite Es. apply in_or_app. right. left. reflexivity. }
  unfold categorize. destruct manual_category as [m | ]; [ | exact Ht].
  destruct (valid_manual_category (Some m)) eqn:E; [ | exact Ht].
  exists m, f0_95. split; [reflexivity | apply valid_manual_in_categories, E].
Qed.

(** X6: whatever the text and the manual category, [categorize] returns
    one of the seven categories of the configuration. *)
Theorem category_of_fixed_set (text : string) (manual_category : option string) :
  exists (category : string) (confidence : float),
    categorize N text manual_category = Ok (category, confidence) /\
    In category categories.
Proof. exact (categorize_member text manual_category). Qed.

(** X7: without a valid manual category, "Other" is returned only for a
    text without any keyword match, and then with confidence 0.5: no
    score can elect it, since it has no keyword. *)
Theorem other_only_without_match
    (text : string) (manual_category : option string) (confidence : float) :
  valid_manual_category manual_category = false ->
  categorize N text manual_category = Ok ("Other"%string, confidence) ->
  confidence = f0_5 /\
  Forall (fun kv => snd kv = 0) (calculate_category_scores N (preprocess_text N text)).
Proof.
  intros Hm Hc.
  assert (Hc' : categorize_text N text = Ok ("Other"%string, confidence)).
  { unfold categorize in Hc. destruct manual_category as [m | ]; [ | exact Hc].
    rewrite Hm in Hc. exact Hc. }
  destruct (categorize_text_cases N text) as [[Hz H] | H].
  - rewrite H in Hc'. injection Hc' as <-. split; [reflexivity | exact Hz].
  - destruct H as (best & pre & v & post & c & Hv & Es & _ & _ & _ & H & _).
    rewrite H in Hc'. injection Hc' as -> _.
    assert (Hin : In ("Other"%string, v)
                    (calculate_category_scores N (preprocess_text N text))).
    { rewrite Es. apply in_or_app. right. left. reflexivity. }
    apply other_score_zero in Hin. lia.
Qed.

(** X8: when all the keyword matches of a text fall in one category, that
    category is returned with confidence 0.99: the ratio is 1.0 and the
    cap applies. *)
Theorem single_category_confidence
    (text : string) (best : string) (v : Z) (pre post : dict Z) :
  calculate_category_scores N (preprocess_text N text) = pre ++ (best, v) :: post ->
  Forall (fun kv => snd kv = 0) pre -> Forall (fun kv => snd kv = 0) post ->
  0 < v ->
  categorize N text None = Ok (best, f0_99).
Proof.
  intros Es Hpre Hpost Hv. cbn [categorize].
  destruct (categorize_text_cases N text) as [[Hz _] | H].
  - rewrite Es in Hz. apply Forall_app in Hz. destruct Hz as [_ Hz].
    inversion Hz as [ | ? ? H0 _]; subst. cbn in H0. lia.
  - destruct H as (best' & pre' & v' & post' & c & Hv' & Es' & _ & _ & Hc & H & _).
    assert (Hin : In (best', v') (pre ++ (best, v) :: post)).
    { rewrite <- Es, Es'. apply in_or_app. right. left. reflexivity. }
    assert (E : (best', v') = (best, v)).
    { apply in_app_or in Hin. destruct Hin as [Hin | [Hin | Hin]].
      - rewrite Forall_forall in Hpre. specialize (Hpre _ Hin). cbn in Hpre. lia.
      - symmetry. exact Hin.
      - rewrite Forall_forall in Hpost. specialize (Hpost _ Hin). cbn in Hpost. lia. }
    injection E as -> ->.
    assert (Hsum : sum_Z (values (calculate_category_scores N (preprocess_text N text))) = v).
    { rewrite Es, values_app, sum_Z_app. cbn [values map]. rewrite sum_Z_cons.
      fold (values pre). fold (values post).
      rewrite (sum_Z_zero (values pre)), (sum_Z_zero (values post)); [cbn; lia | | ].
      - unfold values. apply Forall_map. exact Hpost.
      - unfold values. apply Forall_map. exact Hpre. }
    rewrite Hsum in Hc. rewrite ratio_returns in Hc by lia.
    injection Hc as <-. rewrite (div_Z_self v Hv) in H. exact H.
Qed.

Lemma count_matches_shift (kws tokens : list string) (a : Z) :
  fold_left (fun score token => if Text.mem token kws then score + 1 else score)
    tokens a = a + count_matches kws tokens.
Proof.
  unfold count_matches. revert a.
  induction tokens as [ | t tokens IH]; intro a; cbn [fold_left]; [lia | ].
  rewrite (IH (if Text.mem t kws then a + 1 else a)).
  rewrite (IH (if Text.mem t kws then 0 + 1 else 0)).
  destruct (Text.mem t kws); lia.
Qed.

Lemma count_matches_app (kws tokens1 tokens2 : list string) :
  count_matches kws (tokens1 ++ tokens2) =
  count_matches kws tokens1 + count_matches kws tokens2.
Proof.
  unfold count_matches at 1. rewrite fold_left_app.
  fold (count_matches kws tokens1). apply count_matches_shift.
Qed.

Lemma count_matches_le (kws tokens : list string) :
  count_matches kws tokens <= len tokens.
Proof.
  induction tokens as [ | t tokens IH]; [unfold count_matches, len; cbn; lia | ].
  change (t :: tokens) with ([t] ++ tokens). rewrite count_matches_app.
  unfold len in *. rewrite length_app. cbn [List.length].
  unfold count_matches at 1. cbn [fold_left]. destruct (Text.mem t kws); lia.
Qed.

(** X9: the scores count tokens: those of two token lists put end to end
    are the sums of the scores of each, category by category, and no score
    is negative or above the number of tokens. *)
Theorem scores_add_over_tokens (tokens1 tokens2 : list string) :
  values (calculate_category_scores N (tokens1 ++ tokens2)) =
    map (fun '(a, b) => a + b)
      (combine (values (calculate_category_scores N tokens1))
               (values (calculate_category_scores N tokens2))) /\
  Forall (fun v => 0 <= v <= len tokens1)
    (values (calculate_category_scores N tokens1)).
Proof.
  unfold calculate_category_scores, values. split.
  - induction category_keywords as [ | [category keywords] d IH]; [reflexivity | ].
    cbn [map combine fst snd]. rewrite count_matches_app, IH. reflexivity.
  - rewrite map_map. apply Forall_forall. intros v Hv. apply in_map_iff in Hv.
    destruct Hv as [[category keywords] [<- _]]. cbn [snd]. split.
    + apply count_matches_nonneg.
    + apply count_matches_le.
Qed.

Lemma suggestions_returns (text : string) (top_n : Z) :
  let scores := calculate_category_scores N (preprocess_text N text) in
  let total := sum_Z (values scores) in
  exists result : list (string * float),
    get_category_suggestions N text top_n = Ok result /\
    Forall2 (fun kv r =>
               fst r = fst kv /\
               snd r = if total >? 0 then div_Z (snd kv) total else f0_0)
      (slice_to top_n (sorted_desc scores)) result.
Proof.
  cbv zeta. unfold get_category_suggestions.
  set (scores := calculate_category_scores N (preprocess_text N text)).
  set (total := sum_Z (values scores)).
  pose proof (scores_nonneg N (preprocess_text N text)) as Hnn. fold scores in Hnn.
  pose proof (sorted_desc_perm scores) as Hperm.
  assert (Hnn' : Forall (fun v => 0 <= v) (values (sorted_desc scores))).
  { eapply Permutation_Forall; [ | exact Hnn].
    apply Permutation_map, Permutation_sym, Hperm. }
  assert (Htot : sum_Z (values (sorted_desc scores)) = total).
  { apply sum_Z_perm, Permutation_map, Hperm. }
  apply for_each_Forall2.
  intros [category score] Hin. apply slice_to_incl in Hin.
  assert (Hv : In score (values (sorted_desc scores)))
    by (change score with (snd (category, score)); now apply in_map).
  destruct (Z.gtb_spec total 0) as [Hpos | Hle].
  - rewrite ratio_returns; [ | | exact Hpos].
    + eexists. split; [reflexivity | split; reflexivity].
    + split.
      * rewrite Forall_forall in Hnn'. apply (Hnn' _ Hv).
      * rewrite <- Htot. apply sum_Z_ge_member; assumption.
  - eexists. split; [reflexivity | split; reflexivity].
Qed.

Lemma sorted_desc_head (d pre post : dict Z) (best : string) (v : Z) :
  d = pre ++ (best, v) :: post ->
  Forall (fun kv => snd kv < v) pre -> Forall (fun kv => snd kv <= v) post ->
  exists rest : dict Z, sorted_desc d = (best, v) :: rest.
Proof.
  intros Ed Hpre Hpost.
  pose proof (sorted_desc_perm d) as Hperm.
  pose proof (sorted_desc_sorted d) as Hsorted.
  pose proof (sorted_desc_stable v d) as Hstable.
  destruct (sorted_desc d) as [ | [k w] rest].
  - apply Permutation_nil in Hperm. rewrite Ed in Hperm.
    destruct pre; discriminate Hperm.
  - exists rest. inversion Hsorted as [ | ? ? _ Hall]; subst.
    assert (Hv : v <= w).
    { assert (Hin : In (best, v) ((k, w) :: rest)).
      { eapply Permutation_in; [apply Permutation_sym, Hperm | ].
        apply in_or_app. right. left. reflexivity. }
      destruct Hin as [Hin | Hin]; [injection Hin as _ ->; lia | ].
      rewrite Forall_forall in Hall. specialize (Hall _ Hin).
      unfold score_ge in Hall. cbn [snd] in Hall. lia. }
    assert (Hw : w <= v).
    { assert (Hin : In (k, w) (pre ++ (best, v) :: post)).
      { eapply Permutation_in; [exact Hperm | left; reflexivity]. }
      apply in_app_or in Hin. destruct Hin as [Hin | [Hin | Hin]].
      - rewrite Forall_forall in Hpre. specialize (Hpre _ Hin). cbn in Hpre. lia.
      - injection Hin as _ ->. lia.
      - rewrite Forall_forall in Hpost. specialize (Hpost _ Hin). cbn in Hpost. lia. }
    assert (w = v) by lia. subst w.
    rewrite filter_app in Hstable. cbn [filter snd] in Hstable.
    rewrite Z.eqb_refl in Hstable.
    rewrite (filter_none _ pre) in Hstable.
    + cbn [app] in Hstable. injection Hstable as -> _. reflexivity.
    + eapply Forall_impl; [ | exact Hpre]. intros kv Hkv. cbn beta in Hkv.
      apply Z.eqb_neq. lia.
Qed.

(** X10: when a keyword matches, the first suggestion (for [top_n] at least
    1) is the category that [categorize] returns, and the confidence of
    [categorize] is that of the suggestion capped at 0.99. *)
Theorem top_suggestion_agrees (text : string) (top_n : Z) :
  Exists (fun kv => 0 < snd kv) (calculate_category_scores N (preprocess_text N text)) ->
  1 <= top_n ->
  exists (best : string) (c : float) (rest : list (string * float)),
    get_category_suggestions N text top_n = Ok ((best, c) :: rest) /\
    categorize N text None = Ok (best, if ltb f0_99 c then f0_99 else c).
Proof.
  intros Hex Hn. cbn [categorize].
  destruct (categorize_text_cases N text) as [[Hz _] | H].
  - exfalso. apply Exists_exists in Hex. destruct Hex as [kv [Hin Hpos]].
    rewrite Forall_forall in Hz. specialize (Hz _ Hin). lia.
  - destruct H as (best & pre & v & post & c & Hv & Es & Hpre & Hpost & Hc & H & _).
    destruct (suggestions_returns text top_n) as [result [Hres HF]].
    destruct (sorted_desc_head _ pre post best v Es Hpre Hpost) as [rest Hs].
    rewrite Hs in HF. unfold slice_to in HF.
    replace (top_n <? 0) with false in HF by (symmetry; apply Z.ltb_ge; lia).
    replace (Z.to_nat top_n) with (S (Z.to_nat (top_n - 1))) in HF by lia.
    cbn [firstn] in HF. inversion HF as [ | ? [k c'] ? rs [Hk Hc'] _]; subst.
    cbn [fst snd] in Hk, Hc'. subst k.
    set (total := sum_Z (values (calculate_category_scores N (preprocess_text N text)))) in *.
    assert (Htot : 0 < total).
    { pose proof (scores_nonneg N (preprocess_text N text)) as Hnn.
      assert (Hin : In v (values (calculate_category_scores N (preprocess_text N text)))).
      { rewrite Es, values_app. apply in_or_app. right. left. reflexivity. }
      pose proof (sum_Z_ge_member _ _ Hnn Hin). unfold total. lia. }
    replace (total >? 0) with true in Hc' by (symmetry; apply Z.gtb_lt; lia).
    assert (Hle : v <= total).
    { pose proof (scores_nonneg N (preprocess_text N text)) as Hnn.
      assert (Hin : In v (values (calculate_category_scores N (preprocess_text N text)))).
      { rewrite Es, values_app. apply in_or_app. right. left. reflexivity. }
      exact (sum_Z_ge_member _ _ Hnn Hin). }
    rewrite ratio_returns in Hc by lia. injection Hc as <-.
    exists best, c', rs. subst c'. split; [exact Hres | exact H].
Qed.

Lemma sorted_desc_zero (d : dict Z) :
  Forall (fun kv => snd kv = 0) d -> sorted_desc d = d.
Proof.
  induction 1 as [ | x d Hx Hd IH]; [reflexivity | ].
  cbn [sorted_desc fold_right]. fold (sorted_desc d). rewrite IH.
  destruct d as [ | y d']; [reflexivity | ].
  cbn [insert_desc]. inversion Hd as [ | ? ? Hy _]; subst.
  rewrite Hx, Hy. reflexivity.
Qed.

Lemma zero_dict (d : dict Z) :
  Forall (fun kv => snd kv = 0) d -> d = map (fun k => (k, 0)) (keys d).
Proof.
  induction 1 as [ | [k v] d Hx _ IH]; [reflexivity | ].
  cbn [keys map fst]. cbn [snd] in Hx. subst v. f_equal. exact IH.
Qed.

(** X11: for a text without any keyword match, the suggestions are the
    first categories in the order of their declaration, each with
    confidence 0.0; "IT Issues" comes first, where [categorize] answers
    "Other". *)
Theorem suggestions_without_match (text : string) (top_n : Z) :
  Forall (fun kv => snd kv = 0) (calculate_category_scores N (preprocess_text N text)) ->
  get_category_suggestions N text top_n =
    Ok (map (fun category => (category, f0_0)) (slice_to top_n categories)).
Proof.
  intro Hz. unfold get_category_suggestions.
  set (scores := calculate_category_scores N (preprocess_text N text)) in *.
  assert (Htot : sum_Z (values scores) = 0).
  { apply sum_Z_zero. unfold values. apply Forall_map. exact Hz. }
  rewrite Htot, (sorted_desc_zero scores Hz). change (0 >? 0) with false. cbv iota.
  rewrite (zero_dict scores Hz). unfold scores. rewrite scores_keys.
  rewrite slice_to_map.
  rewrite (for_each_ext _ (fun kv => Ok (fst kv, f0_0))).
  - rewrite for_each_pure, map_map. reflexivity.
  - intros [k v] _. reflexivity.
Qed.

(** X12: the suggestions name categories of the fixed set, none of them
    twice; for [top_n] of 7 or more, all seven. *)
Theorem suggestions_distinct (text : string) (top_n : Z) :
  exists result : list (string * float),
    get_category_suggestions N text top_n = Ok result /\
    NoDup (map fst result) /\
    incl (map fst result) categories /\
    (7 <= top_n -> Permutation (map fst result) categories).
Proof.
  destruct (suggestions_returns text top_n) as [result [Hres HF]].
  exists result. split; [exact Hres | ].
  set (scores := calculate_category_scores N (preprocess_text N text)) in *.
  assert (Hk : map fst result = keys (slice_to top_n (sorted_desc scores))).
  { clear Hres. induction HF as [ | kv r l l' [Hfst _] _ IH]; [reflexivity | ].
    cbn [map keys]. rewrite Hfst. f_equal. exact IH. }
  assert (Hperm : Permutation (keys (sorted_desc scores)) categories).
  { rewrite <- (scores_keys N (preprocess_text N text)).
    apply Permutation_map, sorted_desc_perm. }
  assert (Hnd : NoDup (keys (sorted_desc scores))).
  { eapply Permutation_NoDup; [apply Permutation_sym, Hperm | apply categories_NoDup]. }
  assert (Hs : keys (slice_to top_n (sorted_desc scores)) =
               slice_to top_n (keys (sorted_desc scores))).
  { unfold keys. symmetry. apply slice_to_map. }
  rewrite Hk, Hs. split; [ | split].
  - unfold slice_to. destruct (top_n <? 0); apply NoDup_firstn, Hnd.
  - intros c Hc. apply slice_to_incl in Hc.
    eapply Permutation_in; [exact Hperm | exact Hc].
  - intro H7. unfold slice_to.
    replace (top_n <? 0) with false by (symmetry; apply Z.ltb_ge; lia).
    rewrite firstn_all2; [exact Hperm | ].
    rewrite (Permutation_length Hperm). cbn. lia.
Qed.

End CategorizerMore.

Section CategorizerMoreExamples.

Import Categorizer.

Lemma other_only_without_match_witness :
  f0_5 = f0_5 /\
  Forall (fun kv => snd kv = 0)
    (calculate_category_scores bare_nltk
       (preprocess_text bare_nltk "The parking lot is full again")).
Proof.
  apply (other_only_without_match bare_nltk "The parking lot is full again"
           (Some "Parking"%string) f0_5); vm_compute; reflexivity.
Defined.

Lemma single_category_confidence_witness :
  categorize bare_nltk "The wifi is slow" None = Ok ("IT Issues"%string, f0_99).
Proof.
  apply (single_category_confidence bare_nltk "The wifi is slow" "IT Issues" 2 []
           [("Hostel Management", 0); ("Academics", 0); ("Administration", 0);
            ("Library", 0); ("Sports & Recreation", 0); ("Other", 0)]%string);
    [vm_compute; reflexivity | constructor | repeat constructor | lia].
Defined.

Lemma top_suggestion_agrees_witness :
  exists (best : string) (c : float) (rest : list (string * float)),
    get_category_suggestions bare_nltk "The wifi in my hostel room is very slow" 3 =
      Ok ((best, c) :: rest) /\
    categorize bare_nltk "The wifi in my hostel room is very slow" None =
      Ok (best, if ltb f0_99 c then f0_99 else c).
Proof.
  apply (top_suggestion_agrees bare_nltk "The wifi in my hostel room is very slow" 3);
    [vm_compute; apply Exists_cons_hd; reflexivity | lia].
Defined.

Lemma suggestions_without_match_witness :
  get_category_suggestions bare_nltk "The parking lot is full again" 3 =
    Ok (map (fun category => (category, f0_0)) (slice_to 3 categories)).
Proof.
  apply (suggestions_without_match bare_nltk "The parking lot is full again" 3).
  vm_compute. repeat constructor.
Defined.

Example suggestions_of_parking :
  get_category_suggestions bare_nltk "The parking lot is full again" 3 =
    Ok [("IT Issues", f0_0); ("Hostel Management", f0_0); ("Academics", f0_0)]%string /\
  categorize bare_nltk "The parking lot is full again" None = Ok ("Other"%string, f0_5).
Proof. vm_compute. split; reflexivity. Qed.

End CategorizerMoreExamples.

(** ** More on the sentiment analyzer *)

Section CountFacts.

Lemma shl_align_min (mx : positive) (ex ex' : Z) :
  snd (shl_align mx ex ex') = Z.min ex ex'.
Proof.
  unfold shl_align. destruct (ex' - ex) as [ | d | d] eqn:E; cbn [snd]; lia.
Qed.

Lemma Zdigits2_shift (m k : Z) : 0 < m -> 0 <= k -> Zdigits2 (m * 2 ^ k) = Zdigits2 m + k.
Proof.
  intros Hm Hk.
  pose proof (Zdigits2_lt_pow m ltac:(lia)) as H1.
  pose proof (Zdigits2_ge_pow m Hm) as H2.
  pose proof (Zdigits2_nonneg m) as H0.
  assert (Hd : 0 < Zdigits2 m).
  { destruct (Z.eq_dec (Zdigits2 m) 0) as [E | E]; [ | lia].
    rewrite E in H1. change (2 ^ 0) with 1 in H1. lia. }
  assert (Hp : 0 < 2 ^ k) by (apply Z.pow_pos_nonneg; lia).
  apply Zdigits2_unique; [lia | ].
  replace (Zdigits2 m + k - 1) with (Zdigits2 m - 1 + k) by lia.
  rewrite !Z.pow_add_r by lia. split; nia.
Qed.

(** [float(n)] for a positive integer below [2 ^ 1023]: a normal float. *)
Lemma of_Z_normal (n : Z) :
  0 < n -> Zdigits2 n <= 1023 ->
  exists (m : positive) (e : Z),
    of_Z n = Ok (S754_finite false m e) /\
    2 ^ 52 <= Zpos m < 2 ^ 53 /\
    (e = Zdigits2 n - 53 \/ e = Zdigits2 n - 52).
Proof.
  intros Hn Hd. destruct n as [ | p | p]; try lia.
  unfold of_Z, binary_normalize, binary_round.
  change (Zpos (digits2_pos p)) with (Zdigits2 (Zpos p)).
  set (d := Zdigits2 (Zpos p)) in *.
  pose proof (shl_align_spec p 0 (fexp prec emax (d + 0))) as Hs.
  pose proof (shl_align_min p 0 (fexp prec emax (d + 0))) as Hmin.
  destruct (shl_align p 0 (fexp prec emax (d + 0))) as [mz ez].
  cbn [snd] in Hmin. destruct Hs as [Hmz _].
  rewrite fexp_eq in Hmin.
  assert (Hd0 : 0 < d).
  { pose proof (Zdigits2_lt_pow (Zpos p) ltac:(lia)) as H1. fold d in H1.
    pose proof (Zdigits2_nonneg (Zpos p)) as H0. fold d in H0.
    destruct (Z.eq_dec d 0) as [E | E]; [ | lia].
    rewrite E in H1. change (2 ^ 0) with 1 in H1. lia. }
  assert (Hdz : Zdigits2 (Zpos mz) = d - ez).
  { rewrite Hmz. rewrite Zdigits2_shift by lia. fold d. lia. }
  destruct (binary_round_aux_normal false (Zpos mz) ez loc_Exact
              ltac:(lia) ltac:(lia) ltac:(lia) ltac:(lia))
    as (m' & e' & Hr & Hm' & He' & _).
  rewrite Hr. exists m', e'. split; [reflexivity | ]. split; [exact Hm' | ].
  rewrite Hdz in He'. lia.
Qed.

(** Four keywords or more saturate the keyword boost. *)
Lemma keyword_boost_saturates (n : Z) :
  4 <= n -> Zdigits2 n <= 1023 ->
  exists count : float,
    of_Z n = Ok count /\ Sentiment.min_float (mul count f0_15) f0_5 = f0_5.
Proof.
  intros Hn Hd.
  destruct (of_Z_normal n ltac:(lia) Hd) as (m & e & Hc & Hm & He).
  assert (Hd3 : 3 <= Zdigits2 n).
  { destruct (Z_lt_le_dec (Zdigits2 n) 3) as [Hlt | Hge]; [ | exact Hge].
    pose proof (Zdigits2_lt_pow n ltac:(lia)) as H1.
    pose proof (Zdigits2_nonneg n) as H0.
    assert (2 ^ Zdigits2 n <= 2 ^ 2) by (apply Z.pow_le_mono_r; lia).
    change (2 ^ 2) with 4 in *. lia. }
  exists (S754_finite false m e). split; [exact Hc | ].
  unfold f0_15.
  destruct (mul_normal m 5404319552844595 e (-55) Hm
              ltac:(change (2 ^ 52) with 4503599627370496;
                    change (2 ^ 53) with 9007199254740992; lia)
              ltac:(lia) ltac:(lia))
    as (m' & e' & Hmul & Hm' & He' & _).
  rewrite Hmul. unfold Sentiment.min_float.
  destruct (ltb f0_5 (S754_finite false m' e')) eqn:E; [reflexivity | ].
  unfold f0_5 in *.
  assert (Hle : leb (S754_finite false m' e')
                  (S754_finite false 4503599627370496 (-53)) = true)
    by (apply leb_of_not_ltb; [reflexivity | reflexivity | exact E]).
  apply leb_finite_pos in Hle.
  change (2 ^ 52) with 4503599627370496 in Hm'.
  assert (e' = -53 /\ Zpos m' = 4503599627370496) by lia.
  destruct H as [-> Hm2]. injection Hm2 as ->. reflexivity.
Qed.

End CountFacts.

Section SentimentMore.

Import Sentiment.

Variable T : textblob.

Lemma urgency_returns (text : string) :
  Z.of_nat (String.length text) < 2 ^ 1000 ->
  exists u : float, calculate_urgency_score T text = Ok u.
Proof.
  intro Hlen. destruct (urgent_count_float text Hlen) as [count [Hcount _]].
  unfold calculate_urgency_score. destruct (analyze_sentiment T text) as [p s].
  rewrite Hcount. cbn [bind]. unfold max_0.
  destruct (ltb f0_0 (neg p)); cbn [add_max_0 bind]; eexists; reflexivity.
Qed.

Lemma priority_of_text_cases (text : string) (u : float) :
  calculate_urgency_score T text = Ok u ->
  exists pr : string,
    priority_of_text T text = Ok pr /\ In pr ["High"; "Medium"; "Low"]%string.
Proof.
  intro Hu. unfold priority_of_text. rewrite Hu. cbn [bind].
  destruct (leb f0_6 u); [ | destruct (leb f0_3 u)]; eexists;
    (split; [reflexivity | cbn; tauto]).
Qed.

Lemma valid_manual_in_priorities (p : string) :
  valid_manual_priority (Some p) = true -> In p ["High"; "Medium"; "Low"]%string.
Proof.
  unfold valid_manual_priority, Text.mem. intro H.
  apply andb_prop in H. destruct H as [_ H]. cbn [existsb] in H.
  destruct (String.eqb_spec p "High") as [E | _]; [rewrite E; cbn; tauto | ].
  destruct (String.eqb_spec p "Medium") as [E | _]; [rewrite E; cbn; tauto | ].
  destruct (String.eqb_spec p "Low") as [E | _]; [rewrite E; cbn; tauto | ].
  discriminate H.
Qed.

Lemma determine_priority_member (text : string) (manual_priority : option string) :
  Z.of_nat (String.length text) < 2 ^ 1000 ->
  exists pr : string,
    determine_priority T text manual_priority = Ok pr /\
    In pr ["High"; "Medium"; "Low"]%string.
Proof.
  intro Hlen. destruct (urgency_returns text Hlen) as [u Hu].
  pose proof (priority_of_text_cases text u Hu) as Ht.
  unfold determine_priority. destruct manual_priority as [m | ]; [ | exact Ht].
  destruct (valid_manual_priority (Some m)) eqn:E; [ | exact Ht].
  exists m. split; [reflexivity | apply valid_manual_in_priorities, E].
Qed.

Lemma analyze_complaint_member (text : string) (manual_priority : option string) :
  Z.of_nat (String.length text) < 2 ^ 1000 ->
  exists a : analysis,
    analyze_complaint T text manual_priority = Ok a /\
    determine_priority T text manual_priority = Ok (priority a) /\
    calculate_urgency_score T text = Ok (urgency_score a) /\
    In (priority a) ["High"; "Medium"; "Low"]%string.
Proof.
  intro Hlen. destruct (urgency_returns text Hlen) as [u Hu].
  destruct (determine_priority_member text manual_priority Hlen) as [pr [Hpr Hin]].
  unfold analyze_complaint. destruct (analyze_sentiment T text) as [p s].
  rewrite Hu. cbn [bind]. rewrite Hpr. cbn [bind].
  eexists. split; [reflexivity | ]. cbn [priority urgency_score].
  repeat split; assumption.
Qed.

(** X13: for every text (short enough for its keyword count to be a
    float), whatever TextBlob answers and whatever the manual priority,
    [analyze_complaint] returns, and its priority is that of
    [determine_priority]: one of "High", "Medium" and "Low". *)
Theorem priority_of_fixed_set (text : string) (manual_priority : option string) :
  Z.of_nat (String.length text) < 2 ^ 1000 ->
  exists a : analysis,
    analyze_complaint T text manual_priority = Ok a /\
    determine_priority T text manual_priority = Ok (priority a) /\
    calculate_urgency_score T text = Ok (urgency_score a) /\
    In (priority a) ["High"; "Medium"; "Low"]%string.
Proof. exact (analyze_complaint_member text manual_priority). Qed.

(** X14: a manual priority of the three levels replaces the priority of
    the analysis and nothing else: the urgency score, the keyword count
    and the sentiment stay those of the text. *)
Theorem manual_priority_only_priority (text : string) (p : string) (a : analysis) :
  In p ["High"; "Medium"; "Low"]%string ->
  analyze_complaint T text None = Ok a ->
  analyze_complaint T text (Some p) =
    Ok {| polarity := polarity a;
          subjectivity := subjectivity a;
          urgency_score := urgency_score a;
          priority := p;
          urgent_keyword_count := urgent_keyword_count a;
          sentiment_label := sentiment_label a |}.
Proof.
  intros Hp Ha.
  assert (Hv : valid_manual_priority (Some p) = true).
  { cbn in Hp. destruct Hp as [<- | [<- | [<- | []]]]; reflexivity. }
  unfold analyze_complaint in *. destruct (analyze_sentiment T text) as [pol sub].
  destruct (calculate_urgency_score T text) as [u | e]; [ | discriminate Ha].
  cbn [bind] in *. unfold determine_priority in *. rewrite Hv. cbn [bind].
  destruct (priority_of_text T text) as [pr | e]; [ | discriminate Ha].
  cbn [bind] in Ha. injection Ha as <-.
  cbn [polarity subjectivity urgency_score urgent_keyword_count sentiment_label].
  reflexivity.
Qed.

(** X15: when TextBlob raises on the text, the analysis falls back on
    polarity 0.0 and subjectivity 0.5, and the priority follows from the
    number of urgent keywords alone: "Low" for none or one, "Medium" for
    two or three, "High" for four or more. *)
Theorem priority_without_textblob (text : string) :
  sentiment T text = None ->
  Z.of_nat (String.length text) < 2 ^ 1000 ->
  exists a : analysis,
    analyze_complaint T text None = Ok a /\
    polarity a = f0_0 /\ subjectivity a = f0_5 /\
    sentiment_label a = "neutral"%string /\
    priority a = priority_of_count (detect_urgent_keywords text) /\
    determine_priority T text None = Ok (priority a).
Proof.
  intros Hnone Hlen.
  pose proof (urgent_count_bound text) as Hb.
  assert (Hp : priority_of_text T text =
               Ok (priority_of_count (detect_urgent_keywords text))).
  { unfold priority_of_text, calculate_urgency_score, analyze_sentiment.
    rewrite Hnone. remember (detect_urgent_keywords text) as c eqn:Ec.
    destruct (Z_lt_le_dec c 4) as [Hlt | Hge].
    - assert (Hc : c = 0 \/ c = 1 \/ c = 2 \/ c = 3) by lia. clear Ec Hb Hlt.
      destruct Hc as [-> | [-> | [-> | ->]]]; vm_compute; reflexivity.
    - assert (Hd : Zdigits2 c <= 1023) by (apply Zdigits2_le; lia).
      destruct (keyword_boost_saturates c Hge Hd) as [count [Hc Hs]].
      rewrite Hc. cbn [bind]. rewrite Hs. unfold priority_of_count.
      replace (c <? 2) with false by (symmetry; apply Z.ltb_ge; lia).
      replace (c <? 4) with false by (symmetry; apply Z.ltb_ge; lia).
      clear. vm_compute. reflexivity. }
  unfold analyze_complaint, determine_priority. rewrite Hp.
  destruct (urgency_returns text Hlen) as [u Hu]. rewrite Hu.
  unfold analyze_sentiment. rewrite Hnone. cbn [bind].
  eexists. split; [reflexivity | ]. cbn [polarity subjectivity sentiment_label priority].
  repeat split; reflexivity.
Qed.

End SentimentMore.

Section SentimentMoreExamples.

Import Sentiment.

Lemma priority_of_fixed_set_witness :
  exists a : analysis,
    analyze_complaint (constant_textblob S754_nan S754_nan) emergency_text
      (Some "urgent"%string) = Ok a /\
    determine_priority (constant_textblob S754_nan S754_nan) emergency_text
      (Some "urgent"%string) = Ok (priority a) /\
    calculate_urgency_score (constant_textblob S754_nan S754_nan) emergency_text =
      Ok (urgency_score a) /\
    In (priority a) ["High"; "Medium"; "Low"]%string.
Proof.
  apply (priority_of_fixed_set (constant_textblob S754_nan S754_nan) emergency_text
           (Some "urgent"%string)).
  vm_compute. reflexivity.
Defined.

Lemma manual_priority_only_priority_witness :
  analyze_complaint (constant_textblob (lit (-4) 10) (lit 6 10)) emergency_text
    (Some "Low"%string) =
  Ok {| polarity := lit (-4) 10;
        subjectivity := lit 6 10;
        urgency_score := lit 82 100;
        priority := "Low";
        urgent_keyword_count := 2;
        sentiment_label := "negative" |}.
Proof.
  apply (manual_priority_only_priority (constant_textblob (lit (-4) 10) (lit 6 10))
           emergency_text "Low"
           {| polarity := lit (-4) 10;
              subjectivity := lit 6 10;
              urgency_score := lit 82 100;
              priority := "High";
              urgent_keyword_count := 2;
              sentiment_label := "negative" |});
    [cbn; tauto | vm_compute; reflexivity].
Defined.

Lemma priority_without_textblob_witness :
  exists a : analysis,
    analyze_complaint failing_textblob
      "Please help, the lift is stuck, this is urgent" None = Ok a /\
    polarity a = f0_0 /\ subjectivity a = f0_5 /\
    sentiment_label a = "neutral"%string /\
    priority a =
      priority_of_count
        (detect_urgent_keywords "Please help, the lift is stuck, this is urgent") /\
    determine_priority failing_textblob
      "Please help, the lift is stuck, this is urgent" None = Ok (priority a).
Proof.
  apply (priority_without_textblob failing_textblob
           "Please help, the lift is stuck, this is urgent");
    [reflexivity | vm_compute; reflexivity].
Defined.

Example keyword_counts_alone :
  determine_priority failing_textblob "Please help, the lift is stuck, this is urgent"
    None = Ok "High"%string /\
  determine_priority failing_textblob "Please help with the lift" None =
    Ok "Medium"%string /\
  determine_priority failing_textblob "The lift is helpful" None = Ok "Low"%string.
Proof. vm_compute. repeat split. Qed.

End SentimentMoreExamples.

(** ** The three components together *)

Section Pipeline.

Import Predictor Categorizer Sentiment.

Variable N : nltk.
Variable T : textblob.

Lemma category_entry_of_table (category : string) :
  In category categories ->
  exists baseline : Z,
    dict_lookup category_avg_times category = Some baseline /\
    dict_get category_avg_times category 72 = baseline.
Proof.
  cbn. intro H.
  repeat (destruct H as [<- | H]; [eexists; split; reflexivity | ]). contradiction.
Qed.

Lemma priority_entry_of_table (priority : string) :
  In priority ["High"; "Medium"; "Low"]%string ->
  exists multiplier : float,
    dict_lookup priority_multipliers priority = Some multiplier /\
    dict_get priority_multipliers priority f1_0 = multiplier.
Proof.
  cbn. intro H.
  repeat (destruct H as [<- | H]; [eexists; split; reflexivity | ]). contradiction.
Qed.

(** X16: the outputs of the categorizer and of the analyzer are keys of the
    predictor's tables: for every complaint, with or without manual
    category and priority, the prediction made from them returns, takes
    the base time and the multiplier from the tables' own entries, never
    from the defaults, and gives between 8 and 324 hours. *)
Theorem triage_then_predict
    (self : predictor) (variance : float) (text : string)
    (manual_category manual_priority : option string) :
  reachable self ->
  valid variance = true -> leb f0_8 variance = true -> leb variance f1_2 = true ->
  Z.of_nat (String.length text) < 2 ^ 1000 ->
  exists (category : string) (confidence : float) (a : analysis) (p : prediction),
    categorize N text manual_category = Ok (category, confidence) /\
    analyze_complaint T text manual_priority = Ok a /\
    predict_resolution_time self variance category (priority a) (Some text) = Ok p /\
    dict_lookup category_avg_times category = Some (category_avg p) /\
    dict_lookup priority_multipliers (priority a) = Some (priority_factor p) /\
    8 <= hours p <= 324.
Proof.
  intros Hr Hv Hlo Hhi Hlen.
  destruct (categorize_member N text manual_category) as (category & confidence & Hc & Hin).
  destruct (analyze_complaint_member T text manual_priority Hlen)
    as (a & Ha & _ & _ & Hp).
  destruct (predicted_hours_between self variance category (priority a) (Some text)
              Hr Hv Hlo Hhi) as (p & x & h & _ & _ & Hpred & Hh & Hb).
  destruct (category_entry_of_table category Hin) as (baseline & Hb1 & Hb2).
  destruct (priority_entry_of_table (priority a) Hp) as (multiplier & Hm1 & Hm2).
  exists category, confidence, a, p.
  split; [exact Hc | ]. split; [exact Ha | ]. split; [exact Hpred | ].
  unfold predict_resolution_time in Hpred.
  destruct (raw_hours self _ _) as [y | ]; [ | discriminate Hpred].
  cbn [bind] in Hpred.
  destruct (trunc (mul y variance)) as [k | ]; [ | discriminate Hpred].
  cbn [bind] in Hpred.
  destruct (truediv_Z (Z.max k 1) 24) as [d | ]; [ | discriminate Hpred].
  cbn [bind] in Hpred. injection Hpred as <-.
  cbn [category_avg priority_factor hours] in *.
  rewrite Hb2, Hm2. repeat split; try assumption; lia.
Qed.

End Pipeline.

Section PipelineExamples.

Import Predictor Categorizer Sentiment.

Lemma triage_then_predict_witness :
  exists (category : string) (confidence : float) (a : analysis) (p : prediction),
    categorize bare_nltk emergency_text None = Ok (category, confidence) /\
    analyze_complaint failing_textblob emergency_text None = Ok a /\
    predict_resolution_time init f1_0 category (priority a) (Some emergency_text) = Ok p /\
    dict_lookup category_avg_times category = Some (category_avg p) /\
    dict_lookup priority_multipliers (priority a) = Some (priority_factor p) /\
    8 <= hours p <= 324.
Proof.
  apply (triage_then_predict bare_nltk failing_textblob init f1_0 emergency_text None None);
    [apply reachable_init | reflexivity | reflexivity | reflexivity
    | vm_compute; reflexivity].
Defined.

Example triage_of_emergency :
  categorize bare_nltk emergency_text None = Ok ("IT Issues"%string, f0_99) /\
  determine_priority failing_textblob emergency_text None = Ok "Medium"%string /\
  get_resolution_estimate init f1_0 "IT Issues" "Medium" None = Ok "1-2 days"%string.
Proof. vm_compute. repeat split. Qed.

End PipelineExamples.

(** ** More on the predictor's tables and statistics *)

Section StatisticsMore.

Import Predictor.

(** X17: a category that is not one of the seven is predicted as
    "Academics" is (base time 72), and a priority that is not one of the
    three levels, in this very spelling, as "Medium" is (multiplier 1.0). *)
Theorem unknown_keys_use_defaults
    (self : predictor) (variance : float) (category priority : string)
    (description : option string) :
  ~ In category categories ->
  ~ In priority ["High"; "Medium"; "Low"]%string ->
  (forall pr : string,
     predict_resolution_time self variance category pr description =
     predict_resolution_time self variance "Academics" pr description /\
     get_resolution_estimate self variance category pr description =
     get_resolution_estimate self variance "Academics" pr description) /\
  (forall cat : string,
     predict_resolution_time self variance cat priority description =
     predict_resolution_time self variance cat "Medium" description /\
     get_resolution_estimate self variance cat priority description =
     get_resolution_estimate self variance cat "Medium" description).
Proof.
  intros Hc Hp.
  assert (Ec : dict_get category_avg_times category 72 =
               dict_get category_avg_times "Academics" 72).
  { unfold dict_get at 1. rewrite dict_lookup_notin; [reflexivity | exact Hc]. }
  assert (Ep : dict_get priority_multipliers priority f1_0 =
               dict_get priority_multipliers "Medium" f1_0).
  { unfold dict_get at 1. rewrite dict_lookup_notin; [reflexivity | exact Hp]. }
  split; intro x; unfold get_resolution_estimate, predict_resolution_time;
    [rewrite Ec | rewrite Ep]; split; reflexivity.
Qed.

Lemma unknown_keys_use_defaults_witness :
  (forall pr : string,
     predict_resolution_time init f1_0 "Cafeteria" pr None =
     predict_resolution_time init f1_0 "Academics" pr None /\
     get_resolution_estimate init f1_0 "Cafeteria" pr None =
     get_resolution_estimate init f1_0 "Academics" pr None) /\
  (forall cat : string,
     predict_resolution_time init f1_0 cat "high" None =
     predict_resolution_time init f1_0 cat "Medium" None /\
     get_resolution_estimate init f1_0 cat "high" None =
     get_resolution_estimate init f1_0 cat "Medium" None).
Proof.
  apply (unknown_keys_use_defaults init f1_0 "Cafeteria" "high" None);
    cbn; intros H;
    repeat (destruct H as [H | H]; [discriminate H | ]); exact H.
Defined.

Lemma dict_lookup_NoDup {V : Type} (d : dict V) (k : string) (v : V) :
  NoDup (keys d) -> In (k, v) d -> dict_lookup d k = Some v.
Proof.
  induction d as [ | [k' v'] d IH]; intros Hnd Hin; [destruct Hin | ].
  cbn [keys map fst] in Hnd. inversion Hnd as [ | ? ? Hk' Hnd']; subst.
  cbn [dict_lookup]. destruct Hin as [Hin | Hin].
  - injection Hin as -> ->. rewrite String.eqb_refl. reflexivity.
  - destruct (String.eqb_spec k k') as [-> | _].
    + exfalso. apply Hk'. change k' with (fst (k', v)). apply in_map. exact Hin.
    + apply IH; assumption.
Qed.

Lemma len_filter_split {A : Type} (f g : A -> bool) (l : list A) :
  (forall a, In a l -> f a && g a = false) ->
  len (filter (fun a => f a || g a) l) = len (filter f l) + len (filter g l).
Proof.
  unfold len. induction l as [ | a l IH]; intro H; [reflexivity | ].
  pose proof (H a (or_introl eq_refl)) as Ha.
  specialize (IH (fun a' Hin => H a' (or_intror Hin))).
  cbn [filter]. destruct (f a), (g a); try discriminate Ha;
    cbn [orb List.length]; lia.
Qed.

Lemma count_by_category (ks : list string) (history : list complaint) :
  NoDup ks ->
  sum_Z (map (fun k => len (filter (has_category k) history)) ks) =
  len (filter (category_among ks) history).
Proof.
  induction 1 as [ | k ks Hk _ IH].
  - cbn [map]. change (sum_Z []) with 0. symmetry.
    assert (E : filter (category_among []) history = []).
    { apply filter_none. apply Forall_forall. intros c _.
      unfold category_among. destruct (c_category c); reflexivity. }
    rewrite E. reflexivity.
  - cbn [map]. rewrite sum_Z_cons, IH.
    rewrite <- len_filter_split.
    + f_equal. apply filter_ext. intro c.
      unfold category_among, has_category, Text.mem.
      destruct (c_category c) as [s | ]; [ | reflexivity].
      cbn [existsb]. f_equal.
      destruct (string_dec s k) as [-> | Hne].
      * symmetry. apply String.eqb_refl.
      * symmetry. apply String.eqb_neq. exact Hne.
    + intros c _. unfold category_among, has_category.
      destruct (c_category c) as [s | ]; [ | reflexivity].
      destruct (string_dec s k) as [-> | _]; [ | reflexivity].
      cbn [andb]. destruct (Text.mem k ks) eqn:E; [ | reflexivity].
      exfalso. apply Hk. unfold Text.mem in E. apply existsb_exists in E.
      destruct E as [x [Hx Ex]]. apply String.eqb_eq in Ex. subst x. exact Hx.
Qed.

Lemma entries_count (history : list complaint) (stats : dict category_stats) :
  keys stats = categories ->
  (forall category baseline,
     In (category, baseline) category_avg_times ->
     exists e : category_stats,
       dict_lookup stats category = Some e /\
       entry_spec history category baseline e) ->
  Forall (fun kv =>
            total_complaints (snd kv) = len (filter (has_category (fst kv)) history) /\
            resolved (snd kv) =
              len (filter (fun c => has_status "Resolved" c && has_time c)
                     (filter (has_category (fst kv)) history)))
    stats.
Proof.
  intros Hk Hs. apply Forall_forall. intros [k e] Hin. cbn [fst snd].
  assert (Hkin : In k categories).
  { rewrite <- Hk. change k with (fst (k, e)). apply in_map. exact Hin. }
  assert (Hb : exists baseline, In (k, baseline) category_avg_times).
  { cbn in Hkin.
    repeat (destruct Hkin as [<- | Hkin]; [eexists; cbn; eauto 10 | ]).
    contradiction. }
  destruct Hb as [baseline Hb].
  destruct (Hs k baseline Hb) as [e' [He' Hspec]].
  assert (Hnd : NoDup (keys stats)) by (rewrite Hk; apply categories_NoDup).
  rewrite (dict_lookup_NoDup stats k e Hnd Hin) in He'. injection He' as <-.
  destruct Hspec as [Ht [Hr _]]. split; assumption.
Qed.

(** X18: in the statistics, no entry has more resolved complaints than
    complaints, and the totals of the seven entries add up to the number
    of records whose category is one of the seven: the others, and those
    without a category, are counted nowhere. *)
Theorem statistics_totals (history : list complaint) :
  times_in_range history ->
  exists stats : dict category_stats,
    get_category_statistics history = Ok stats /\
    Forall (fun kv => 0 <= resolved (snd kv) <= total_complaints (snd kv)) stats /\
    sum_Z (map (fun kv => total_complaints (snd kv)) stats) =
      len (filter (category_among categories) history) /\
    sum_Z (map (fun kv => total_complaints (snd kv)) stats) <= len history.
Proof.
  intro Hr. destruct (statistics_spec history Hr) as (stats & Hs & Hk & He).
  pose proof (entries_count history stats Hk He) as Hc.
  exists stats. split; [exact Hs | ].
  assert (Hsum : sum_Z (map (fun kv => total_complaints (snd kv)) stats) =
                 len (filter (category_among categories) history)).
  { rewrite <- (count_by_category categories history categories_NoDup).
    rewrite <- Hk. unfold keys. rewrite map_map. f_equal.
    apply map_ext_in. intros kv Hin. rewrite Forall_forall in Hc.
    apply (Hc kv Hin). }
  split; [ | split; [exact Hsum | ]].
  - eapply Forall_impl; [ | exact Hc]. intros kv [-> ->]. apply len_filter_le.
  - rewrite Hsum. apply len_filter_le.
Qed.

Lemma filter_perm {A : Type} (f : A -> bool) (l l' : list A) :
  Permutation l l' -> Permutation (filter f l) (filter f l').
Proof.
  induction 1 as [ | x l l' _ IH | x y l | l l' l'' _ IH1 _ IH2].
  - constructor.
  - cbn [filter]. destruct (f x); [constructor | ]; exact IH.
  - cbn [filter]. destruct (f x), (f y); try apply Permutation_refl. constructor.
  - eapply Permutation_trans; eassumption.
Qed.

Lemma len_perm {A : Type} (l l' : list A) : Permutation l l' -> len l = len l'.
Proof. intro H. unfold len. now rewrite (Permutation_length H). Qed.

Lemma integer_times (l : list complaint) :
  Forall integer_time l ->
  map resolution_time l = map Int (map integer_of_time l).
Proof.
  induction 1 as [ | c l Hc _ IH]; [reflexivity | ].
  cbn [map]. rewrite IH. f_equal.
  unfold integer_time in Hc. unfold resolution_time, integer_of_time.
  destruct (c_resolution_time c) as [[z | x] | ]; try reflexivity. contradiction.
Qed.

Lemma category_entry_perm (history history' : list complaint)
    (category : string) (baseline : Z) :
  Permutation history history' -> Forall integer_time history ->
  category_entry history category baseline = category_entry history' category baseline.
Proof.
  intros H Hi. unfold category_entry.
  assert (Hi' : Forall integer_time history') by (eapply Permutation_Forall; eassumption).
  pose proof (filter_perm (in_category category) _ _ H) as Hc.
  pose proof (filter_perm counted_resolved _ _ Hc) as Hres.
  pose proof (len_perm _ _ Hc) as Lc. pose proof (len_perm _ _ Hres) as Lr.
  assert (Hsum : sum_numbers
                   (map resolution_time
                      (filter counted_resolved (filter (in_category category) history))) =
                 sum_numbers
                   (map resolution_time
                      (filter counted_resolved (filter (in_category category) history')))).
  { rewrite !integer_times by (repeat apply Forall_filter; assumption).
    rewrite !sum_integers. f_equal. f_equal.
    apply sum_Z_perm, Permutation_map, Hres. }
  set (cc := filter (in_category category) history) in *.
  set (cc' := filter (in_category category) history') in *.
  set (rr := filter counted_resolved cc) in *.
  set (rr' := filter counted_resolved cc') in *.
  assert (E1 : match cc with [] => true | _ :: _ => false end =
               match cc' with [] => true | _ :: _ => false end).
  { destruct cc, cc'; try reflexivity.
    - apply Permutation_nil in Hc. discriminate Hc.
    - apply Permutation_sym, Permutation_nil in Hc. discriminate Hc. }
  assert (E2 : match rr with [] => true | _ :: _ => false end =
               match rr' with [] => true | _ :: _ => false end).
  { destruct rr, rr'; try reflexivity.
    - apply Permutation_nil in Hres. discriminate Hres.
    - apply Permutation_sym, Permutation_nil in Hres. discriminate Hres. }
  clearbody cc cc' rr rr'.
  destruct cc, cc'; try discriminate E1; [reflexivity | ].
  rewrite Lc, Lr, Hsum.
  destruct rr, rr'; try discriminate E2; reflexivity.
Qed.

(** X19: on a history of whole hours (every resolution time an integer)
    the statistics do not depend on the order of the records; with float
    times they can, as the additions run from left to right. *)
Theorem statistics_ignore_order (history history' : list complaint) :
  Permutation history history' -> Forall integer_time history ->
  get_category_statistics history = get_category_statistics history'.
Proof.
  intros H Hi. unfold get_category_statistics. apply for_each_ext.
  intros [category baseline] _.
  rewrite (category_entry_perm _ _ _ _ H Hi). reflexivity.
Qed.

End StatisticsMore.

Section StatisticsMoreExamples.

Import Predictor.

Lemma statistics_totals_witness :
  exists stats : dict category_stats,
    get_category_statistics sample_history = Ok stats /\
    Forall (fun kv => 0 <= resolved (snd kv) <= total_complaints (snd kv)) stats /\
    sum_Z (map (fun kv => total_complaints (snd kv)) stats) =
      len (filter (category_among categories) sample_history) /\
    sum_Z (map (fun kv => total_complaints (snd kv)) stats) <= len sample_history.
Proof.
  apply (statistics_totals sample_history).
  split; [ | right; vm_compute; reflexivity].
  unfold sample_history.
  repeat (constructor; [unfold time_in_range; cbn; first [exact I | lia] | ]).
  constructor.
Defined.

Lemma statistics_ignore_order_witness :
  get_category_statistics whole_hours_history =
  get_category_statistics (rev whole_hours_history).
Proof.
  apply (statistics_ignore_order whole_hours_history (rev whole_hours_history)).
  - apply Permutation_rev.
  - unfold whole_hours_history. repeat constructor.
Defined.

(** Three float times in two orders: the hour averages differ. *)
Example float_times_depend_on_order :
  let r n := resolved_record "Other" (Flt (lit n 100)) in
  Permutation [r 371; r 152; r 62] [r 62; r 152; r 371] /\
  get_category_statistics [r 371; r 152; r 62] <>
  get_category_statistics [r 62; r 152; r 371].
Proof.
  cbv zeta. split.
  - apply (Permutation_rev [resolved_record "Other" (Flt (lit 371 100));
                            resolved_record "Other" (Flt (lit 152 100));
                            resolved_record "Other" (Flt (lit 62 100))]).
  - vm_compute. discriminate.
Qed.

Example sample_totals :
  len sample_history = 9 /\
  len (filter (category_among categories) sample_history) = 8.
Proof. vm_compute. split; reflexivity. Qed.

End StatisticsMoreExamples.

(** ** More on the text operations *)

Section TextMore.

Import Categorizer Sentiment.

Lemma map_string_idem (f : ascii -> ascii) (s : string) :
  (forall c, f (f c) = f c) ->
  Text.map_string f (Text.map_string f s) = Text.map_string f s.
Proof.
  intro Hf. induction s as [ | c s IH]; [reflexivity | ].
  cbn [Text.map_string]. rewrite Hf, IH. reflexivity.
Qed.

Lemma lower_idem (s : string) : Text.lower (Text.lower s) = Text.lower s.
Proof.
  unfold Text.lower. apply map_string_idem.
  intros [[] [] [] [] [] [] [] []]; reflexivity.
Qed.

Lemma all_chars_map (p : ascii -> bool) (f : ascii -> ascii) (s : string) :
  (forall c, p (f c) = true) -> all_chars p (Text.map_string f s) = true.
Proof.
  intro H. induction s as [ | c s IH]; [reflexivity | ].
  cbn [Text.map_string all_chars]. rewrite H, IH. reflexivity.
Qed.

Lemma all_chars_snoc (p : ascii -> bool) (s : string) (c : ascii) :
  all_chars p s = true -> p c = true ->
  all_chars p (s ++ String c EmptyString) = true.
Proof.
  intros Hs Hc. induction s as [ | a s IH]; cbn [append all_chars] in *.
  - rewrite Hc. reflexivity.
  - apply andb_prop in Hs. destruct Hs as [Ha Hs]. rewrite Ha, (IH Hs). reflexivity.
Qed.

Lemma split_from_chars (p : ascii -> bool) (s : string) :
  forall cur : string,
    all_chars p cur = true ->
    all_chars (fun c => Text.is_space c || p c) s = true ->
    Forall (fun t => all_chars p t = true) (Text.split_from cur s).
Proof.
  induction s as [ | c s IH]; intros cur Hcur Hs; cbn [Text.split_from].
  - destruct cur; [constructor | ]. constructor; [exact Hcur | constructor].
  - cbn [all_chars] in Hs. apply andb_prop in Hs. destruct Hs as [Hc Hs].
    destruct (Text.is_space c) eqn:E.
    + destruct cur.
      * apply IH; [reflexivity | exact Hs].
      * constructor; [exact Hcur | ]. apply IH; [reflexivity | exact Hs].
    + apply IH; [ | exact Hs]. apply all_chars_snoc; [exact Hcur | exact Hc].
Qed.

Lemma cleaned_chars (text : string) :
  all_chars (fun c => Text.is_space c || (Text.is_lower c || Text.is_digit c))
    (Text.strip_special (Text.lower text)) = true.
Proof.
  unfold Text.strip_special, Text.lower.
  induction text as [ | c s IH]; [reflexivity | ].
  cbn [Text.map_string all_chars]. rewrite IH, andb_true_r.
  clear. destruct c as [[] [] [] [] [] [] [] []]; reflexivity.
Qed.

(** X20: when [word_tokenize] raises, the tokens that reach the stemmer
    are runs of lower-case letters and digits, longer than two characters,
    none of them a stop word: the text was lower-cased, every other
    character was turned into a space, and the text was split on
    whitespace. *)
Theorem fallback_tokens (N : nltk) (text : string) :
  word_tokenize N (Text.strip_special (Text.lower text)) = None ->
  exists tokens : list string,
    preprocess_text N text = map (stem N) tokens /\
    Forall (fun t => (2 < String.length t)%nat /\
                     stop_word N t = false /\
                     all_chars (fun c => Text.is_lower c || Text.is_digit c) t = true)
      tokens.
Proof.
  intro Hw. unfold preprocess_text. rewrite Hw.
  eexists. split; [reflexivity | ].
  apply Forall_forall. intros t Ht. apply filter_In in Ht. destruct Ht as [Hin Hf].
  apply andb_prop in Hf. destruct Hf as [Hs Hl].
  split; [apply Nat.ltb_lt, Hl | ]. split; [apply negb_true_iff, Hs | ].
  pose proof (split_from_chars (fun c => Text.is_lower c || Text.is_digit c)
                (Text.strip_special (Text.lower text)) EmptyString eq_refl
                (cleaned_chars text)) as H.
  rewrite Forall_forall in H. apply H. exact Hin.
Qed.

(** X21: letter case does not count: lower-casing a text beforehand
    changes neither its category, nor its suggestions, nor its number of
    urgent keywords. *)
Theorem letter_case_ignored
    (N : nltk) (text : string) (manual_category : option string) (top_n : Z) :
  categorize N (Text.lower text) manual_category = categorize N text manual_category /\
  get_category_suggestions N (Text.lower text) top_n =
    get_category_suggestions N text top_n /\
  detect_urgent_keywords (Text.lower text) = detect_urgent_keywords text.
Proof.
  assert (Hp : preprocess_text N (Text.lower text) = preprocess_text N text).
  { unfold preprocess_text. rewrite lower_idem. reflexivity. }
  split; [ | split].
  - unfold categorize, categorize_text. rewrite Hp. reflexivity.
  - unfold get_category_suggestions. rewrite Hp. reflexivity.
  - unfold detect_urgent_keywords. rewrite lower_idem. reflexivity.
Qed.

Lemma strip_prefix_app (kw s rest : string) :
  Text.strip_prefix kw s = Some rest -> s = (kw ++ rest)%string.
Proof.
  revert s. induction kw as [ | a kw IH]; intros s H; cbn [Text.strip_prefix] in H.
  - injection H as ->. reflexivity.
  - destruct s as [ | b s]; [discriminate H | ].
    destruct (Ascii.eqb_spec a b) as [-> | _]; [ | discriminate H].
    cbn [append]. f_equal. apply IH, H.
Qed.

Lemma strip_prefix_refl (kw : string) : Text.strip_prefix kw kw = Some EmptyString.
Proof.
  induction kw as [ | a kw IH]; [reflexivity | ].
  cbn [Text.strip_prefix]. rewrite Ascii.eqb_refl. exact IH.
Qed.

Lemma append_empty (s : string) : (s ++ EmptyString)%string = s.
Proof. induction s as [ | a s IH]; [reflexivity | cbn [append]; now rewrite IH]. Qed.

Lemma length_append (s t : string) :
  String.length (s ++ t) = (String.length s + String.length t)%nat.
Proof. induction s as [ | a s IH]; [reflexivity | cbn [append String.length]; now rewrite IH]. Qed.

Lemma all_chars_app (p : ascii -> bool) (s t : string) :
  all_chars p (s ++ t) = all_chars p s && all_chars p t.
Proof.
  induction s as [ | a s IH]; [reflexivity | ].
  cbn [append all_chars]. rewrite IH, andb_assoc. reflexivity.
Qed.

Lemma count_inside_word (kw s : string) :
  all_chars Text.is_word s = true -> Text.count_whole_word kw true 0 s = 0%nat.
Proof.
  induction s as [ | c s IH]; intro H; [reflexivity | ].
  cbn [all_chars] in H. apply andb_prop in H. destruct H as [Hc Hs].
  cbn [Text.count_whole_word negb andb]. rewrite Hc. apply IH, Hs.
Qed.

Lemma count_skipped (kw s : string) :
  forall (prev : bool) (skip : nat),
    (String.length s <= skip)%nat -> Text.count_whole_word kw prev skip s = 0%nat.
Proof.
  induction s as [ | c s IH]; intros prev skip H; [reflexivity | ].
  cbn [String.length] in H. destruct skip as [ | k]; [lia | ].
  cbn [Text.count_whole_word]. apply IH. lia.
Qed.

(** In a text that is one word, a keyword counts once when it is the whole
    word, and not at all otherwise. *)
Lemma count_single_word (kw s : string) :
  all_chars Text.is_word s = true -> s <> EmptyString ->
  Text.count_whole_word kw false 0 s = if String.eqb s kw then 1%nat else 0%nat.
Proof.
  intros Hw Hne. destruct s as [ | c s']; [contradiction | ].
  pose proof Hw as Hw'. cbn [all_chars] in Hw'. apply andb_prop in Hw'.
  destruct Hw' as [Hc Hs'].
  cbn [Text.count_whole_word negb andb].
  destruct (Text.strip_prefix kw (String c s')) as [[ | d r] | ] eqn:E.
  - apply strip_prefix_app in E. rewrite append_empty in E.
    rewrite E, String.eqb_refl.
    rewrite count_skipped; [reflexivity | ].
    rewrite <- E. cbn [String.length]. lia.
  - apply strip_prefix_app in E.
    assert (Hd : Text.is_word d = true).
    { rewrite E, all_chars_app in Hw. apply andb_prop in Hw. destruct Hw as [_ Hw].
      cbn [all_chars] in Hw. apply andb_prop in Hw. apply Hw. }
    rewrite Hd, Hc. cbn [negb]. rewrite (count_inside_word kw s' Hs').
    destruct (String.eqb_spec (String c s') kw) as [Ek | _]; [ | reflexivity].
    exfalso. apply (f_equal String.length) in E. rewrite Ek, length_append in E.
    cbn [String.length] in E. lia.
  - rewrite Hc. rewrite (count_inside_word kw s' Hs').
    destruct (String.eqb_spec (String c s') kw) as [Ek | _]; [ | reflexivity].
    rewrite Ek, strip_prefix_refl in E. discriminate E.
Qed.

Lemma fold_count_shift (f : string -> Z) (kws : list string) (a : Z) :
  fold_left (fun count keyword => count + f keyword) kws a =
  a + sum_Z (map f kws).
Proof.
  revert a. induction kws as [ | k kws IH]; intro a; cbn [fold_left map].
  - change (sum_Z []) with 0. lia.
  - rewrite IH, sum_Z_cons. lia.
Qed.

Lemma sum_indicator (s : string) (kws : list string) :
  NoDup kws ->
  sum_Z (map (fun kw => Z.of_nat (if String.eqb s kw then 1 else 0)) kws) =
  if Text.mem s kws then 1 else 0.
Proof.
  induction 1 as [ | k kws Hk _ IH]; [reflexivity | ].
  cbn [map]. rewrite sum_Z_cons, IH. unfold Text.mem. cbn [existsb].
  destruct (String.eqb_spec s k) as [-> | _]; cbn [orb].
  - destruct (existsb (String.eqb k) kws) eqn:E; [ | reflexivity].
    exfalso. apply Hk. apply existsb_exists in E. destruct E as [x [Hx Ex]].
    apply String.eqb_eq in Ex. subst x. exact Hx.
  - destruct (existsb (String.eqb s) kws); reflexivity.
Qed.

Lemma urgent_keywords_NoDup : NoDup urgent_keywords.
Proof.
  unfold urgent_keywords.
  repeat (constructor; [cbn; intro H;
    repeat (destruct H as [H | H]; [discriminate H | ]); exact H | ]).
  constructor.
Qed.

(** X22: urgent keywords count as whole words and in any letter case: a
    text that is a single word has one urgent keyword when, lower-cased,
    it is one of the list, and none otherwise, even if a keyword is part
    of it. *)
Theorem single_word_keywords (word : string) :
  all_chars Text.is_word word = true -> word <> EmptyString ->
  detect_urgent_keywords word =
    if Text.mem (Text.lower word) urgent_keywords then 1 else 0.
Proof.
  intros Hw Hne. unfold detect_urgent_keywords.
  assert (Hw' : all_chars Text.is_word (Text.lower word) = true).
  { clear Hne. unfold Text.lower.
    induction word as [ | c s IH]; [reflexivity | ].
    cbn [all_chars Text.map_string] in *. apply andb_prop in Hw.
    destruct Hw as [Hc Hs]. rewrite (IH Hs), andb_true_r.
    clear - Hc. destruct c as [[] [] [] [] [] [] [] []];
      try reflexivity; discriminate Hc. }
  assert (Hne' : Text.lower word <> EmptyString).
  { destruct word; [contradiction | discriminate]. }
  rewrite (fold_count_shift
             (fun keyword => Z.of_nat (Text.count_whole_word keyword false 0
                                         (Text.lower word)))).
  rewrite <- (sum_indicator (Text.lower word) urgent_keywords urgent_keywords_NoDup).
  cbn [Z.add]. f_equal. apply map_ext. intro kw.
  rewrite (count_single_word kw (Text.lower word) Hw' Hne'). reflexivity.
Qed.

End TextMore.

Section TextMoreExamples.

Import Categorizer Sentiment.

Lemma fallback_tokens_witness :
  exists tokens : list string,
    preprocess_text bare_nltk "The Wi-Fi in Lab 2 is DOWN!" = map (stem bare_nltk) tokens /\
    Forall (fun t => (2 < String.length t)%nat /\
                     stop_word bare_nltk t = false /\
                     all_chars (fun c => Text.is_lower c || Text.is_digit c) t = true)
      tokens.
Proof.
  apply (fallback_tokens bare_nltk "The Wi-Fi in Lab 2 is DOWN!"). reflexivity.
Defined.

Lemma single_word_keywords_witness :
  detect_urgent_keywords "Helpful" =
    if Text.mem (Text.lower "Helpful") urgent_keywords then 1 else 0.
Proof.
  apply (single_word_keywords "Helpful"); [reflexivity | discriminate].
Defined.

Example whole_words_only :
  detect_urgent_keywords "Helpful" = 0 /\ detect_urgent_keywords "HELP" = 1 /\
  detect_urgent_keywords "help-desk, please: HELP" = 3.
Proof. vm_compute. repeat split. Qed.

Example tokens_of_wifi :
  preprocess_text bare_nltk "The Wi-Fi in Lab 2 is DOWN!" = ["the"; "lab"; "down"]%string /\
  categorize bare_nltk "The Wi-Fi in Lab 2 is DOWN!" None = Ok ("IT Issues"%string, f0_99) /\
  detect_urgent_keywords "URGENT: not   working" = 1.
Proof. vm_compute. repeat split. Qed.

End TextMoreExamples.
